(** * GoAlert: metrics-manager engine cycle and CLI start-up

    A shallow embedding of

    - [engine/metricsmanager/update.go]: the persisted cursor [State] and the
      three entry points [UpdateAll], [UpdateAlertMetrics] and
      [UpdateDailyAlertMetrics];
    - the [app] command file: [getConfig], the root command, and the
      [self-test] command with its daylight-saving check.

    Database calls are effects.  They are modelled in a small state-and-error
    monad over a [World] that holds the committed database, the open
    transaction (if any) and the trace of calls made so far.  What the
    database answers to a call is read from an environment record, so every
    theorem quantifies over every possible answer, failures included. *)

From Stdlib Require Import ZArith List String Bool Lia.
Import ListNotations.
Local Open Scope string_scope.
Local Open Scope list_scope.
Local Open Scope Z_scope.

(** ** Go values shared by both packages *)

Module Go.

(** An argument of a format string. *)
Inductive Arg : Type :=
| ArgInt (n : Z)
| ArgStr (s : string).

Definition Arg_eqb (a b : Arg) : bool :=
  match a, b with
  | ArgInt x, ArgInt y => Z.eqb x y
  | ArgStr x, ArgStr y => String.eqb x y
  | _, _ => false
  end.

Fixpoint Args_eqb (a b : list Arg) : bool :=
  match a, b with
  | [], [] => true
  | x :: a', y :: b' => Arg_eqb x y && Args_eqb a' b'
  | _, _ => false
  end.

(** Go [error] values.  [ErrNoRows] and [ErrTxDone] are the sentinels of
    [database/sql]; [ErrWrap p e] is [fmt.Errorf(p + ": %w", e)] (and
    [errors.Wrap(e, p)]); [ErrField] is a [validation.FieldError];
    [ErrFormat] is [errors.Errorf] with its arguments kept unformatted;
    [ErrConfigFileNotFound] is [viper.ConfigFileNotFoundError];
    [ErrPermission] is the error of a refused permission check. *)
Inductive error : Type :=
| ErrNoRows
| ErrTxDone
| ErrPermission
| ErrConfigFileNotFound
| ErrMsg (msg : string)
| ErrFormat (format : string) (args : list Arg)
| ErrField (field reason : string)
| ErrWrap (prefix : string) (inner : error).

Fixpoint error_eqb (a b : error) : bool :=
  match a, b with
  | ErrNoRows, ErrNoRows => true
  | ErrTxDone, ErrTxDone => true
  | ErrPermission, ErrPermission => true
  | ErrConfigFileNotFound, ErrConfigFileNotFound => true
  | ErrMsg x, ErrMsg y => String.eqb x y
  | ErrFormat f x, ErrFormat g y => String.eqb f g && Args_eqb x y
  | ErrField f r, ErrField g s => String.eqb f g && String.eqb r s
  | ErrWrap p x, ErrWrap q y => String.eqb p q && error_eqb x y
  | _, _ => false
  end.

(** [errors.Is]: the error itself or anything on its [%w] chain. *)
Fixpoint errors_Is (err target : error) : bool :=
  error_eqb err target
  || match err with
     | ErrWrap _ inner => errors_Is inner target
     | _ => false
     end.

Inductive result (A : Type) : Type :=
| Ok (a : A)
| Err (e : error).
Arguments Ok {A} a.
Arguments Err {A} e.

(** [time.Time] as seconds since the Unix epoch. *)
Definition Time := Z.

(** The zero [time.Time]: January 1, year 1, 00:00 UTC. *)
Definition zeroTime : Time := -62135596800.

(** [sql.NullTime]. *)
Record NullTime := { Time_ : Time; Valid : bool }.

Definition nullTimeZero : NullTime := {| Time_ := zeroTime; Valid := false |}.

(** *** The effect monad

    A Go function that touches the outside world and returns an [error] is
    a function from the world [W] to a result and the world after it.  The
    world after a failed call is kept: what was done before the failure
    stays done. *)

Definition M (W A : Type) : Type := W -> result A * W.

Definition ret {W A} (a : A) : M W A := fun w => (Ok a, w).

Definition fail {W A} (e : error) : M W A := fun w => (Err e, w).

Definition bind {W A B} (m : M W A) (k : A -> M W B) : M W B :=
  fun w =>
    match m w with
    | (Ok a, w') => k a w'
    | (Err e, w') => (Err e, w')
    end.

(** [if err != nil { return fmt.Errorf(prefix + ": %w", err) }]. *)
Definition wrap {W A} (prefix : string) (m : M W A) : M W A :=
  fun w =>
    match m w with
    | (Ok a, w') => (Ok a, w')
    | (Err e, w') => (Err (ErrWrap prefix e), w')
    end.

(** [defer d] placed before [body]: [d] runs when the function returns,
    whatever [body] returned, and its own result is dropped. *)
Definition defer {W A} (d : M W unit) (body : M W A) : M W A :=
  fun w =>
    let (r, w') := body w in
    (r, snd (d w')).

Definition check {W} (o : option error) : M W unit :=
  match o with
  | Some e => fail e
  | None => ret tt
  end.

Definition lift {W A} (r : result A) : M W A := fun w => (r, w).

End Go.

Export Go.

Declare Scope go_scope.
Delimit Scope go_scope with go.
Notation "x <- m ;; k" := (bind m (fun x => k))
  (at level 61, m at next level, right associativity) : go_scope.
Notation "m ;; k" := (bind m (fun _ => k))
  (at level 61, right associativity) : go_scope.
Local Open Scope go_scope.

(** ** engine/metricsmanager *)

Module metricsmanager.

(** [State.V2]. *)
Record State := {
  LastLogTime : Time;
  LastLogID : Z;
  LastMetricsDate : Time
}.

Definition set_cursor (s : State) (t : Time) (id : Z) : State :=
  {| LastLogTime := t; LastLogID := id; LastMetricsDate := LastMetricsDate s |}.

Definition set_LastMetricsDate (s : State) (d : Time) : State :=
  {| LastLogTime := LastLogTime s; LastLogID := LastLogID s; LastMetricsDate := d |}.

(** One row of the [scanLogs] result: [alert_id, timestamp, id]. *)
Record LogRow := { alert_id : Z; timestamp : Time; log_id : Z }.

(** The two write statements of the package, with their arguments. *)
Inductive Stmt : Type :=
| InsertMetrics (alertIDs : list Z)
| InsertDailyMetrics (date : NullTime).

(** What a transaction can change: the state blob of the processing lock
    and the rows written by the insert statements (kept as the list of
    statements executed, oldest first). *)
Record Database := {
  stateBlob : State;
  executed : list Stmt
}.

Inductive Event : Type :=
| EvDebugf (msg : string)
| EvBeginTxWithState
| EvLoad
| EvBoundNow
| EvScanLogs (lastLogTime : Time) (lastLogID : Z) (boundNow : Time)
| EvRowsClose
| EvInsertMetrics (alertIDs : list Z)
| EvNextDailyMetricsDate (lastMetricsDate lastLogTime : Time)
| EvInsertDailyMetrics (date : NullTime)
| EvSave (s : State)
| EvCommit
| EvRollback.

Record World := {
  persisted : Database;
  tx : option Database;
  trace : list Event
}.

Definition emit (ev : Event) (w : World) : World :=
  {| persisted := persisted w; tx := tx w; trace := trace w ++ [ev] |}.

Definition set_tx (t : option Database) (w : World) : World :=
  {| persisted := persisted w; tx := t; trace := trace w |}.

(** *** The effect monad, at this package's [World] *)

Definition M (A : Type) : Type := Go.M World A.

Definition tell (ev : Event) : M unit := fun w => (Ok tt, emit ev w).

(** *** The transaction and the state store *)

(** Which calls of the state store and of the transaction fail, and with
    what error. *)
Record TxFaults := {
  beginTx_err : option error;
  load_err : option error;
  save_err : option error;
  commit_err : option error
}.

(** Modelled from the spec: [processinglock.BeginTxWithState] is not under
    src/.  Spec, section 4.3: it starts the transaction in which the blob
    is loaded, mutated and saved, under an advisory lock that makes the
    caller the single writer; the transaction therefore starts from the
    committed database. *)
Definition BeginTxWithState (f : TxFaults) : M unit :=
  tell EvBeginTxWithState ;;
  check (beginTx_err f) ;;
  fun w => (Ok tt, set_tx (Some (persisted w)) w).

(** Modelled from the spec: [lockState.Load] is not under src/.  Spec,
    section 4.3: it reads the state blob inside the transaction. *)
Definition Load (f : TxFaults) : M State :=
  tell EvLoad ;;
  check (load_err f) ;;
  fun w =>
    match tx w with
    | Some d => (Ok (stateBlob d), w)
    | None => (Err ErrTxDone, w)
    end.

(** Modelled from the spec: [lockState.Save] is not under src/.  Spec,
    section 4.3: it writes the state blob inside the transaction; the
    commit is the only moment the new state becomes visible. *)
Definition Save (f : TxFaults) (s : State) : M unit :=
  tell (EvSave s) ;;
  check (save_err f) ;;
  fun w =>
    match tx w with
    | Some d => (Ok tt, set_tx (Some {| stateBlob := s; executed := executed d |}) w)
    | None => (Err ErrTxDone, w)
    end.

(** [ExecContext] of one of the insert statements inside the transaction. *)
Definition Exec (ev : Event) (err : option error) (st : Stmt) : M unit :=
  tell ev ;;
  check err ;;
  fun w =>
    match tx w with
    | Some d =>
        (Ok tt, set_tx (Some {| stateBlob := stateBlob d; executed := executed d ++ [st] |}) w)
    | None => (Err ErrTxDone, w)
    end.

(** [tx.Commit()]: the transaction is over either way; its writes become
    the committed database only when the commit succeeds. *)
Definition Commit (f : TxFaults) : M unit :=
  tell EvCommit ;;
  fun w =>
    match tx w with
    | Some d =>
        match commit_err f with
        | Some e => (Err e, set_tx None w)
        | None => (Ok tt, {| persisted := d; tx := None; trace := trace w |})
        end
    | None => (Err ErrTxDone, w)
    end.

(** [tx.Rollback()]: drops an open transaction; after a commit it only
    returns [sql.ErrTxDone]. *)
Definition Rollback : M unit :=
  tell EvRollback ;;
  fun w =>
    match tx w with
    | Some _ => (Ok tt, set_tx None w)
    | None => (Err ErrTxDone, w)
    end.

(** *** UpdateAlertMetrics *)

(** The answers of the database to one call of [UpdateAlertMetrics].  The
    SQL of [boundNow], [scanLogs] and [insertMetrics] is not under src/:
    [scanLogs_res] is any function of the three query arguments, and a
    result set is the list of what [rows.Scan] gives row by row (the list
    ends where [rows.Next] first returns false). *)
Record AlertEnv := {
  alert_tx : TxFaults;
  boundNow_res : result Time;
  scanLogs_res : Time -> Z -> Time -> result (list (result LogRow));
  insertMetrics_err : option error
}.

Definition QueryBoundNow (e : AlertEnv) : M Time :=
  tell EvBoundNow ;; lift (boundNow_res e).

Definition QueryScanLogs (e : AlertEnv) (t : Time) (id : Z) (bound : Time)
  : M (list (result LogRow)) :=
  tell (EvScanLogs t id bound) ;; lift (scanLogs_res e t id bound).

(** The [for rows.Next()] loop; the three accumulators are the Go variables
    [alertIDs], [lastLogTime] and [lastLogID]. *)
Fixpoint scanRows (rows : list (result LogRow)) (alertIDs : list Z)
         (lastLogTime : Time) (lastLogID : Z) : result (list Z * Time * Z) :=
  match rows with
  | [] => Ok (alertIDs, lastLogTime, lastLogID)
  | Err e :: _ => Err (ErrWrap "scan alert id" e)
  | Ok r :: rest =>
      scanRows rest (alertIDs ++ [alert_id r]) (timestamp r) (log_id r)
  end.

Definition UpdateAlertMetrics (e : AlertEnv) : M unit :=
  tell (EvDebugf "Running alert_metrics operations.") ;;
  wrap "begin tx" (BeginTxWithState (alert_tx e)) ;;
  defer Rollback (
    state <- wrap "load state" (Load (alert_tx e)) ;;
    boundNow <- wrap "select bound now" (QueryBoundNow e) ;;
    rows <- wrap "scan logs"
              (QueryScanLogs e (LastLogTime state) (LastLogID state) boundNow) ;;
    defer (tell EvRowsClose) (
      scanned <- lift (scanRows rows [] zeroTime 0) ;;
      let '(alertIDs, lastLogTime, lastLogID) := scanned in
      state' <- (if (0 <? Z.of_nat (List.length alertIDs))
                 then
                   wrap "insert metrics"
                     (Exec (EvInsertMetrics alertIDs) (insertMetrics_err e)
                           (InsertMetrics alertIDs)) ;;
                   ret (set_cursor state lastLogTime lastLogID)
                 else
                   ret (set_cursor state boundNow 0)) ;;
      wrap "save state" (Save (alert_tx e) state') ;;
      wrap "commit" (Commit (alert_tx e)))).

(** *** UpdateDailyAlertMetrics *)

(** The answers of the database to one call of [UpdateDailyAlertMetrics];
    [nextDate_res] is what [QueryRowContext(...).Scan(&nextDate)] gives for
    the two query arguments. *)
Record DailyEnv := {
  daily_tx : TxFaults;
  nextDate_res : Time -> Time -> result NullTime;
  insertDailyMetrics_err : option error
}.

(** [Scan(&nextDate)]: on an error [nextDate] keeps its zero value. *)
Definition QueryNextDailyMetricsDate (e : DailyEnv) (lastMetricsDate lastLogTime : Time)
  : NullTime * option error :=
  match nextDate_res e lastMetricsDate lastLogTime with
  | Ok d => (d, None)
  | Err err => (nullTimeZero, Some err)
  end.

Definition UpdateDailyAlertMetrics (e : DailyEnv) : M unit :=
  tell (EvDebugf "Running daily_alert_metrics operations.") ;;
  wrap "begin tx" (BeginTxWithState (daily_tx e)) ;;
  defer Rollback (
    state <- wrap "load state" (Load (daily_tx e)) ;;
    tell (EvNextDailyMetricsDate (LastMetricsDate state) (LastLogTime state)) ;;
    let '(nextDate, err) :=
      QueryNextDailyMetricsDate e (LastMetricsDate state) (LastLogTime state) in
    let err :=
      match err with
      | Some x => if errors_Is x ErrNoRows then None else Some x
      | None => None
      end in
    wrap "select next daily metrics date" (check err) ;;
    (if Valid nextDate
     then
       wrap "insert daily metrics"
         (Exec (EvInsertDailyMetrics nextDate) (insertDailyMetrics_err e)
               (InsertDailyMetrics nextDate)) ;;
       wrap "save state"
         (Save (daily_tx e) (set_LastMetricsDate state (Time_ nextDate)))
     else ret tt) ;;
    wrap "commit" (Commit (daily_tx e))).

(** *** UpdateAll *)

(** What a context says about who is calling: its permission scope (spec,
    section 1). *)
Inductive Source : Type :=
| SourceNone
| SourceSystem (componentName : string)
| SourceUser (admin : bool)
| SourceService.

Record Context := { source : Source }.

Definition Checker := Context -> bool.

(** Modelled from the spec: [permission.System] is not under src/.  It
    accepts the contexts that carry the System permission. *)
Definition System : Checker :=
  fun ctx =>
    match source ctx with
    | SourceSystem _ => true
    | _ => false
    end.

(** Modelled from the spec: [permission.LimitCheckAny] is not under src/.
    It is nil when one of the checks accepts the context and a permission
    error when none does. *)
Definition LimitCheckAny (ctx : Context) (checks : list Checker) : option error :=
  if existsb (fun c => c ctx) checks then None else Some ErrPermission.

Definition UpdateAll (ctx : Context) (ea : AlertEnv) (ed : DailyEnv) : M unit :=
  check (LimitCheckAny ctx [System]) ;;
  UpdateAlertMetrics ea ;;
  UpdateDailyAlertMetrics ed ;;
  ret tt.

(** *** The query for the next daily date *)

Definition secondsPerDay : Z := 86400.

(** The calendar day (UTC) of an instant, as days since the epoch. *)
Definition dayOf (t : Time) : Z := t / secondsPerDay.

(** Midnight (UTC) of a day. *)
Definition midnight (d : Z) : Time := d * secondsPerDay.

Fixpoint minimum (l : list Z) : option Z :=
  match l with
  | [] => None
  | x :: rest =>
      match minimum rest with
      | Some m => Some (Z.min x m)
      | None => Some x
      end
  end.

Definition inDailyWindow (lastMetricsDate lastLogTime : Time) (d : Z) : bool :=
  (dayOf lastMetricsDate <? d) && (d <? dayOf lastLogTime).

(** The days the query can choose from, and the one it picks. *)
Definition nextDailyDate (closedAt : list Time) (lastMetricsDate lastLogTime : Time)
  : option Z :=
  minimum (filter (inDailyWindow lastMetricsDate lastLogTime) (map dayOf closedAt)).

(** Modelled from the spec: the SQL text of [nextDailyMetricsDate] is not
    under src/.  Spec, section 4.4 step 7 (and the comment above
    [UpdateDailyAlertMetrics]: min date after LastMetricsDate, before
    LastLogTime's date): over the close times [closedAt] of the metrics
    rows, the least day strictly greater than the day of the first
    argument and strictly before the day of the second; no row when there
    is none. *)
Definition sqlNextDailyMetricsDate (closedAt : list Time)
           (lastMetricsDate lastLogTime : Time) : result NullTime :=
  match nextDailyDate closedAt lastMetricsDate lastLogTime with
  | Some d => Ok {| Time_ := midnight d; Valid := true |}
  | None => Err ErrNoRows
  end.

(** *** Vocabulary of the claims *)

Definition cursor (s : State) : Time * Z := (LastLogTime s, LastLogID s).

(** The order of the cursor: by time, ties broken by id. *)
Definition cursor_lt (a b : Time * Z) : Prop :=
  fst a < fst b \/ (fst a = fst b /\ snd a < snd b).

Definition cursor_le (a b : Time * Z) : Prop := cursor_lt a b \/ a = b.

Definition row_cursor (r : LogRow) : Time * Z := (timestamp r, log_id r).

(** The rows of a result set in which every [rows.Scan] succeeded. *)
Definition okRows (rows : list LogRow) : list (result LogRow) := map Ok rows.

Definition lastEvent (evs : list Event) : option Event := last (map Some evs) None.

(** The batch of a call that starts from state [s]: the upper time bound
    read, and the rows scanned for it. *)
Definition batch (e : AlertEnv) (s : State) (bound : Time) (rows : list LogRow) : Prop :=
  boundNow_res e = Ok bound
  /\ scanLogs_res e (LastLogTime s) (LastLogID s) bound = Ok (okRows rows).

(** The cursor the loop leaves in [lastLogTime], [lastLogID]: that of the
    last row, or the initial values when there is no row. *)
Definition last_cursor (rows : list LogRow) (t : Time) (i : Z) : Time * Z :=
  match rows with
  | [] => (t, i)
  | r :: rest => row_cursor (last rest r)
  end.

(** The state saved and the statements executed by a call with this batch. *)
Definition afterAlert (s : State) (bound : Time) (rows : list LogRow) : State :=
  match rows with
  | [] => set_cursor s bound 0
  | r :: rest => set_cursor s (timestamp (last rest r)) (log_id (last rest r))
  end.

Definition writesAlert (rows : list LogRow) : list Stmt :=
  match rows with
  | [] => []
  | _ => [InsertMetrics (map alert_id rows)]
  end.

(** The scan keeps to its window: every row is strictly after the cursor
    and no later than the bound, and the bound is not before the cursor's
    time. *)
Definition scanInWindow (s : State) (bound : Time) (rows : list LogRow) : Prop :=
  Forall (fun r => cursor_lt (cursor s) (row_cursor r) /\ timestamp r <= bound) rows
  /\ LastLogTime s <= bound.

(** A call whose batch is not empty and lies strictly after the cursor. *)
Definition nonEmptyAfterCursor (e : AlertEnv) (w : World) : Prop :=
  exists bound r rows,
    batch e (stateBlob (persisted w)) bound (r :: rows)
    /\ Forall (fun x => cursor_lt (cursor (stateBlob (persisted w))) (row_cursor x))
              (r :: rows).

(** A run of consecutive successful [UpdateAlertMetrics] calls, each of
    them started in a world and with answers that satisfy [P]. *)
Inductive cycles (P : AlertEnv -> World -> Prop) : World -> list AlertEnv -> World -> Prop :=
| cycles_nil : forall w, cycles P w [] w
| cycles_cons : forall w e w1 es w2,
    P e w ->
    UpdateAlertMetrics e w = (Ok tt, w1) ->
    cycles P w1 es w2 ->
    cycles P w (e :: es) w2.

(** Either of the two cycles, with the answers it gets. *)
Inductive Cycle : Type :=
| AlertCycle (e : AlertEnv)
| DailyCycle (e : DailyEnv).

Definition runCycle (c : Cycle) : M unit :=
  match c with
  | AlertCycle e => UpdateAlertMetrics e
  | DailyCycle e => UpdateDailyAlertMetrics e
  end.

Definition cycleFaults (c : Cycle) : TxFaults :=
  match c with
  | AlertCycle e => alert_tx e
  | DailyCycle e => daily_tx e
  end.

(** The events only [UpdateDailyAlertMetrics] produces. *)
Definition isDailyEvent (ev : Event) : bool :=
  match ev with
  | EvDebugf msg => String.eqb msg "Running daily_alert_metrics operations."
  | EvNextDailyMetricsDate _ _ | EvInsertDailyMetrics _ => true
  | _ => false
  end.

(** *** Sample data *)

Definition noFaults : TxFaults :=
  {| beginTx_err := None; load_err := None; save_err := None; commit_err := None |}.

(** Modelled from the spec: the SQL text of [scanLogs] is not under src/.
    Spec, section 4.4 step 3: a bounded batch of the log rows after
    [(last_log_time, last_log_id)] and no later than [bound_now]; [logs]
    is the log table in [(timestamp, id)] order. *)
Definition sqlScanLogs (limit : nat) (logs : list LogRow)
           (lastLogTime : Time) (lastLogID : Z) (boundNow : Time)
  : result (list (result LogRow)) :=
  Ok (okRows
        (firstn limit
           (filter (fun r =>
                      ((lastLogTime <? timestamp r)
                       || ((lastLogTime =? timestamp r) && (lastLogID <? log_id r)))
                      && (timestamp r <=? boundNow))
                   logs))).

Definition sampleLogs : list LogRow :=
  [ {| alert_id := 11; timestamp := 100; log_id := 4 |};
    {| alert_id := 12; timestamp := 100; log_id := 6 |};
    {| alert_id := 13; timestamp := 150; log_id := 2 |};
    {| alert_id := 14; timestamp := 150; log_id := 3 |} ].

Definition sampleState : State :=
  {| LastLogTime := 100; LastLogID := 5; LastMetricsDate := 0 |}.

Definition worldOf (s : State) : World :=
  {| persisted := {| stateBlob := s; executed := [] |}; tx := None; trace := [] |}.

(** A server whose clock reads [now] and whose log table is [logs]. *)
Definition alertEnvOf (limit : nat) (logs : list LogRow) (now : Time) : AlertEnv :=
  {| alert_tx := noFaults;
     boundNow_res := Ok now;
     scanLogs_res := sqlScanLogs limit logs;
     insertMetrics_err := None |}.

(** The same server when the insert statement fails. *)
Definition alertEnvInsertFails (logs : list LogRow) (now : Time) : AlertEnv :=
  {| alert_tx := noFaults;
     boundNow_res := Ok now;
     scanLogs_res := sqlScanLogs 500 logs;
     insertMetrics_err := Some (ErrMsg "connection reset") |}.

Definition dailyEnvOf (closedAt : list Time) : DailyEnv :=
  {| daily_tx := noFaults;
     nextDate_res := sqlNextDailyMetricsDate closedAt;
     insertDailyMetrics_err := None |}.

(** A server whose next-date query gives one row holding NULL. *)
Definition dailyEnvNull : DailyEnv :=
  {| daily_tx := noFaults;
     nextDate_res := fun _ _ => Ok nullTimeZero;
     insertDailyMetrics_err := None |}.

(** A log table with nothing after the cursor of [sampleState]. *)
Definition quietLogs : list LogRow :=
  [ {| alert_id := 11; timestamp := 100; log_id := 4 |} ].

Definition sampleClosedAt : list Time := [ 86400 * 3 + 50; 86400 * 2 + 7; 86400 * 9 ].

Definition systemContext : Context := {| source := SourceSystem "Engine" |}.
Definition userContext : Context := {| source := SourceUser true |}.

End metricsmanager.

(** ** util/sqldrv: the retry driver *)

Module sqldrv.

(** The raw driver handed to the wrapper: [&stdlib.Driver{}] of pgx. *)
Inductive Driver : Type :=
| pgxStdlibDriver.

Record RetryDriver := { rawDriver : Driver; maxAttempts : Z }.

(** Modelled from the spec: [sqldrv.NewRetryDriver] is not under src/.  Spec,
    section 4.1: it wraps a backend driver and keeps the bound N on the
    number of attempts. *)
Definition NewRetryDriver (d : Driver) (max : Z) : RetryDriver :=
  {| rawDriver := d; maxAttempts := max |}.

(** How one attempt ends, after the spec's classification of errors. *)
Inductive Outcome : Type :=
| Success
| Transient (e : error)
| Logical (e : error).

(** Attempt number [n] is about to be made and [budget] attempts are left;
    gives the error returned and the number of attempts made. *)
Fixpoint attemptLoop (attempt : nat -> Outcome) (n budget : nat) (lastErr : error)
  : option error * nat :=
  match budget with
  | O => (Some lastErr, n)
  | S budget' =>
      match attempt n with
      | Success => (None, S n)
      | Logical e => (Some e, S n)
      | Transient e => attemptLoop attempt (S n) budget' e
      end
  end.

(** Modelled from the spec: package [sqldrv] is not under src/.  Spec,
    section 4.1: for connection establishment and for idempotent
    statements, up to N attempts; a transient error is retried, a logical
    error is propagated.  (The backoff between attempts is time and is
    left out.) *)
Definition withRetry (d : RetryDriver) (attempt : nat -> Outcome) : option error * nat :=
  attemptLoop attempt 0 (Z.to_nat (maxAttempts d)) (ErrMsg "no attempt made").

(** A connector opened from the driver: it keeps the driver, and with it
    the bound. *)
Record Connector := { connDriver : RetryDriver; connName : string }.

End sqldrv.

(** ** Go's [time] package, as far as the self-test uses it *)

Module gotime.

(** What [Location.lookup] gives for an instant: the zone in force, and
    the span of instants over which it is in force. *)
Record Span := {
  zoneName : string;
  zoneOffset : Z;
  spanStart : Z;
  spanEnd : Z
}.

Record Location := { lookup : Z -> Span }.

(** A [time.Time] that remembers its location. *)
Record T := { unix : Z; loc : Location }.

Definition March : Z := 3.
Definition November : Z := 11.
Definition Hour : Z := 3600.

Definition isLeap (year : Z) : bool :=
  (year mod 4 =? 0) && (negb (year mod 100 =? 0) || (year mod 400 =? 0)).

Definition daysBefore (month : Z) : Z :=
  nth (Z.to_nat (month - 1)) [0; 31; 59; 90; 120; 151; 181; 212; 243; 273; 304; 334] 0.

(** Days from 1970-01-01 to January 1 of [year]. *)
Definition daysSinceEpoch (year : Z) : Z :=
  let y := year - 1 in
  365 * y + y / 4 - y / 100 + y / 400 - 719162.

(** [time.Date] for arguments already in range: the civil time is first
    read as UTC, then moved by the offset the location has there, looked
    up again when the moved instant falls outside the span found. *)
Definition Date (year month day hour min sec : Z) (l : Location) : T :=
  let d := daysSinceEpoch year + daysBefore month
           + (if isLeap year && (March <=? month) then 1 else 0)
           + (day - 1) in
  let unix0 := d * 86400 + hour * 3600 + min * 60 + sec in
  let s := lookup l unix0 in
  let offset := zoneOffset s in
  if offset =? 0 then {| unix := unix0; loc := l |}
  else
    let utc := unix0 - offset in
    let offset' :=
      if (utc <? spanStart s) || (spanEnd s <=? utc)
      then zoneOffset (lookup l utc)
      else offset in
    {| unix := unix0 - offset'; loc := l |}.

(** The offset half of [t.Zone()]. *)
Definition Zone (t : T) : Z := zoneOffset (lookup (loc t) (unix t)).

(** [t.Add(d)], [d] in seconds. *)
Definition Add (t : T) (d : Z) : T := {| unix := unix t + d; loc := loc t |}.

End gotime.

(** ** app: the command file *)

Module app.

Import sqldrv.

(** [viper]'s typed getters over the process-wide settings.  A float64 is
    kept as its bit pattern; nothing computes with it. *)
Record Viper := {
  GetString : string -> string;
  GetBool : string -> bool;
  GetInt : string -> Z;
  GetInt64 : string -> Z;
  GetFloat64 : string -> Z;
  GetDuration : string -> Z
}.

Inductive Logger : Type :=
| LoggerOf (id : Z).

Record Context := { FromContext : Logger }.

(** [*tls.Config]: nil or a configuration. *)
Definition TLSConfig := option Z.

(** [app.Config], the fields [getConfig] fills. *)
Record Config := {
  Logger_ : Logger;
  JSON : bool;
  LogRequests : bool;
  LogEngine : bool;
  Verbose : bool;
  APIOnly : bool;
  DBMaxOpen : Z;
  DBMaxIdle : Z;
  MaxReqBodyBytes : Z;
  MaxReqHeaderBytes : Z;
  DisableHTTPSRedirect : bool;
  ListenAddr : string;
  TLSListenAddr : string;
  SysAPIListenAddr : string;
  SysAPICertFile : string;
  SysAPIKeyFile : string;
  SysAPICAFile : string;
  HTTPPrefix : string;
  SlackBaseURL : string;
  TwilioBaseURL : string;
  DBURL : string;
  DBURLNext : string;
  JaegerEndpoint : string;
  JaegerAgentEndpoint : string;
  StackdriverProjectID : string;
  TracingClusterName : string;
  TracingPodNamespace : string;
  TracingPodName : string;
  TracingContainerName : string;
  TracingNodeName : string;
  TraceProbability : Z;
  KubernetesCooldown : Z;
  StatusAddr : string;
  EncryptionKeys : list string;
  RegionName : string;
  StubNotifiers : bool;
  UIDir : string;
  TLSConfig_ : TLSConfig
}.

(** The three fields assigned after the literal: the other fields and two
    of the three stay, the third is replaced where the argument is [Some]. *)
Definition update (c : Config) (dburl dburlNext : option string)
           (tls : option TLSConfig) : Config :=
  {| Logger_ := Logger_ c; JSON := JSON c; LogRequests := LogRequests c;
     LogEngine := LogEngine c; Verbose := Verbose c; APIOnly := APIOnly c;
     DBMaxOpen := DBMaxOpen c; DBMaxIdle := DBMaxIdle c;
     MaxReqBodyBytes := MaxReqBodyBytes c;
     MaxReqHeaderBytes := MaxReqHeaderBytes c;
     DisableHTTPSRedirect := DisableHTTPSRedirect c;
     ListenAddr := ListenAddr c; TLSListenAddr := TLSListenAddr c;
     SysAPIListenAddr := SysAPIListenAddr c;
     SysAPICertFile := SysAPICertFile c; SysAPIKeyFile := SysAPIKeyFile c;
     SysAPICAFile := SysAPICAFile c; HTTPPrefix := HTTPPrefix c;
     SlackBaseURL := SlackBaseURL c; TwilioBaseURL := TwilioBaseURL c;
     DBURL := match dburl with Some u => u | None => DBURL c end;
     DBURLNext := match dburlNext with Some u => u | None => DBURLNext c end;
     JaegerEndpoint := JaegerEndpoint c;
     JaegerAgentEndpoint := JaegerAgentEndpoint c;
     StackdriverProjectID := StackdriverProjectID c;
     TracingClusterName := TracingClusterName c;
     TracingPodNamespace := TracingPodNamespace c;
     TracingPodName := TracingPodName c;
     TracingContainerName := TracingContainerName c;
     TracingNodeName := TracingNodeName c;
     TraceProbability := TraceProbability c;
     KubernetesCooldown := KubernetesCooldown c; StatusAddr := StatusAddr c;
     EncryptionKeys := EncryptionKeys c; RegionName := RegionName c;
     StubNotifiers := StubNotifiers c; UIDir := UIDir c;
     TLSConfig_ := match tls with Some t => t | None => TLSConfig_ c end |}.

Definition set_DBURL (c : Config) (u : string) : Config := update c (Some u) None None.
Definition set_DBURLNext (c : Config) (u : string) : Config := update c None (Some u) None.
Definition set_TLSConfig (c : Config) (t : TLSConfig) : Config := update c None None (Some t).

(** [ErrDBRequired] is returned when the DB URL is unset. *)
Definition ErrDBRequired : error := ErrField "db-url" "is required".

(** [net/url]: a parsed URL is its text without the query, and the raw
    query; [url.Values] maps a key to its values. *)
Record URL := { urlRest : string; RawQuery : string }.

Definition Values := list (string * list string).

Definition Values_Set (q : Values) (key value : string) : Values :=
  (key, [value]) :: filter (fun p => negb (String.eqb (fst p) key)) q.

Definition set_RawQuery (u : URL) (q : string) : URL :=
  {| urlRest := urlRest u; RawQuery := q |}.

(** The part of [config.Config] (the configuration kept in the database)
    that the self-test reads. *)
Record StoreConfig := {
  OIDC_Enable : bool;
  OIDC_IssuerURL : string;
  GitHub_Enable : bool;
  GitHub_EnterpriseURL : string
}.

Definition zeroStoreConfig : StoreConfig :=
  {| OIDC_Enable := false; OIDC_IssuerURL := "";
     GitHub_Enable := false; GitHub_EnterpriseURL := "" |}.

Record Exporter := { exporterID : Z; isFlusher : bool }.

Record Handler := { oldConn : Connector; nextConn : Connector }.

Inductive DB : Type :=
| OpenDB (c : Connector)
| HandlerDB (h : Handler).

Record App := { appConfig : Config; appDB : DB }.

(** Everything outside this file that the commands call, with what each
    call answers. *)
Record Env := {
  ReadInConfig_res : Viper -> Viper * option error;
  initPromServer_err : option error;
  getTLSConfig_res : TLSConfig * option error;
  configTracing_res : Config -> result (list Exporter);
  GitVersion : string;
  AppVersion : string;
  url_Parse : string -> result URL;
  URL_Query : URL -> Values;
  Values_Encode : Values -> string;
  URL_String : URL -> string;
  VerifyAll_err : string -> option error;
  ApplyAll_res : string -> result Z;
  OpenConnector_err : string -> option error;
  NewHandler_err : string -> string -> option error;
  NewApp_err : Config -> option error;
  Run_err : option error;
  sqlOpen_err : string -> option error;
  NewStore_res : result StoreConfig;
  http_Get_err : string -> option error;
  LoadLocation : string -> result gotime.Location
}.

Inductive Event : Type :=
| EvEnableJSON
| EvEnableDebug
| EvErrorsOnly
| EvEnableStacks
| EvReadInConfig
| EvInitPromServer
| EvGetTLSConfig
| EvConfigTracing
| EvFlush (exporter : Z)
| EvVerifyAll (url : string)
| EvApplyAll (url : string)
| EvLogf (format : string) (args : list Arg)
| EvOpenConnector (d : RetryDriver) (name : string)
| EvNewHandler (old next : string)
| EvNewApp (cfg : Config)
| EvSetApp
| EvGoHandleShutdown
| EvGoTrigger
| EvRun
| EvPrintOK (name : string)
| EvPrintFail (name : string) (err : error)
| EvSqlOpen (url : string)
| EvNewStore
| EvStoreShutdown
| EvHttpGet (url : string)
| EvBodyClose
| EvSilenceUsage.

Record World := { viper : Viper; events : list Event }.

Definition M (A : Type) : Type := Go.M World A.

Definition tell (ev : Event) : M unit :=
  fun w => (Ok tt, {| viper := viper w; events := events w ++ [ev] |}).

Definition when (b : bool) (m : M unit) : M unit := if b then m else ret tt.

(** Reading the settings as they are now. *)
Definition getViper : M Viper := fun w => (Ok (viper w), w).

Definition nonEmpty (s : string) : bool := negb (String.eqb s "").

(** *** getConfig *)

(** [getConfig] returns a configuration and an error, both of them: the
    self-test goes on with the configuration after dropping the error. *)
Definition getConfig (ctx : Context) (e : Env) : World -> (Config * option error) * World :=
  fun w =>
    let v := viper w in
    let cfg :=
      {| Logger_ := FromContext ctx;
         JSON := GetBool v "json";
         LogRequests := GetBool v "log-requests";
         LogEngine := GetBool v "log-engine-cycles";
         Verbose := GetBool v "verbose";
         APIOnly := GetBool v "api-only";
         DBMaxOpen := GetInt v "db-max-open";
         DBMaxIdle := GetInt v "db-max-idle";
         MaxReqBodyBytes := GetInt64 v "max-request-body-bytes";
         MaxReqHeaderBytes := GetInt v "max-request-header-bytes";
         DisableHTTPSRedirect := GetBool v "disable-https-redirect";
         ListenAddr := GetString v "listen";
         TLSListenAddr := GetString v "listen-tls";
         SysAPIListenAddr := GetString v "listen-sysapi";
         SysAPICertFile := GetString v "sysapi-cert-file";
         SysAPIKeyFile := GetString v "sysapi-key-file";
         SysAPICAFile := GetString v "sysapi-ca-file";
         HTTPPrefix := GetString v "http-prefix";
         SlackBaseURL := GetString v "slack-base-url";
         TwilioBaseURL := GetString v "twilio-base-url";
         DBURL := GetString v "db-url";
         DBURLNext := GetString v "db-url-next";
         JaegerEndpoint := GetString v "jaeger-endpoint";
         JaegerAgentEndpoint := GetString v "jaeger-agent-endpoint";
         StackdriverProjectID := GetString v "stackdriver-project-id";
         TracingClusterName := GetString v "tracing-cluster-name";
         TracingPodNamespace := GetString v "tracing-pod-namespace";
         TracingPodName := GetString v "tracing-pod-name";
         TracingContainerName := GetString v "tracing-container-name";
         TracingNodeName := GetString v "tracing-node-name";
         TraceProbability := GetFloat64 v "tracing-probability";
         KubernetesCooldown := GetDuration v "kubernetes-cooldown";
         StatusAddr := GetString v "status-addr";
         EncryptionKeys := [GetString v "data-encryption-key";
                            GetString v "data-encryption-key-old"];
         RegionName := GetString v "region-name";
         StubNotifiers := GetBool v "stub-notifiers";
         UIDir := GetString v "ui-dir";
         TLSConfig_ := None |} in
    if String.eqb (DBURL cfg) "" then ((cfg, Some ErrDBRequired), w)
    else
      let w1 := snd (tell EvGetTLSConfig w) in
      let cfg := set_TLSConfig cfg (fst (getTLSConfig_res e)) in
      match snd (getTLSConfig_res e) with
      | Some err => ((cfg, Some err), w1)
      | None =>
          ((cfg, None), snd (when (GetBool v "stack-traces") (tell EvEnableStacks) w1))
      end.

(** [cfg, err := f(); if err != nil { return err }]. *)
Definition try {A} (f : World -> (A * option error) * World) : M A :=
  fun w =>
    match f w with
    | ((a, None), w') => (Ok a, w')
    | ((_, Some err), w') => (Err err, w')
    end.

(** *** The root command *)

(** [isCfgNotFound]: [errors.As] to a [viper.ConfigFileNotFoundError]. *)
Definition isCfgNotFound (err : error) : bool := errors_Is err ErrConfigFileNotFound.

Definition ReadInConfig (e : Env) : M (option error) :=
  tell EvReadInConfig ;;
  fun w =>
    let (v, err) := ReadInConfig_res e (viper w) in
    (Ok err, {| viper := v; events := events w |}).

(** The wrapped driver of the root command. *)
Definition wrappedDriver : RetryDriver := NewRetryDriver pgxStdlibDriver 10.

Definition OpenConnector (e : Env) (d : RetryDriver) (name : string) : M Connector :=
  tell (EvOpenConnector d name) ;;
  check (OpenConnector_err e name) ;;
  ret {| connDriver := d; connName := name |}.

(** The deferred function of the root command: flush the exporters that
    can be flushed. *)
Fixpoint flushAll (exporters : list Exporter) : M unit :=
  match exporters with
  | [] => ret tt
  | x :: rest => when (isFlusher x) (tell (EvFlush (exporterID x))) ;; flushAll rest
  end.

Definition applicationName (e : Env) (switchover : bool) : string :=
  if switchover
  then String.append "GoAlert " (String.append (GitVersion e) " (S/O Mode)")
  else String.append "GoAlert " (GitVersion e).

Definition RootCmd_RunE (ctx : Context) (e : Env) : M unit :=
  v <- getViper ;;
  when (GetBool v "json") (tell EvEnableJSON) ;;
  when (GetBool v "verbose") (tell EvEnableDebug) ;;
  when (GetBool v "log-errors-only") (tell EvErrorsOnly) ;;
  err <- ReadInConfig e ;;
  check (match err with
         | Some x => if negb (isCfgNotFound x) then Some (ErrWrap "read config" x) else None
         | None => None
         end) ;;
  tell EvInitPromServer ;;
  check (initPromServer_err e) ;;
  cfg <- try (getConfig ctx e) ;;
  exporters <- wrap "config tracing" (tell EvConfigTracing ;; lift (configTracing_res e cfg)) ;;
  defer (flushAll exporters) (
    u <- wrap "parse old URL" (lift (url_Parse e (DBURL cfg))) ;;
    let q := URL_Query e u in
    let q := Values_Set q "application_name" (applicationName e (nonEmpty (DBURLNext cfg))) in
    let q := Values_Set q "enable_seqscan" "off" in
    let u := set_RawQuery u (Values_Encode e q) in
    let cfg := set_DBURL cfg (URL_String e u) in
    (if APIOnly cfg
     then wrap "verify migrations"
            (tell (EvVerifyAll (DBURL cfg)) ;; check (VerifyAll_err e (DBURL cfg)))
     else
       n <- wrap "apply migrations"
              (tell (EvApplyAll (DBURL cfg)) ;; lift (ApplyAll_res e (DBURL cfg))) ;;
       when (0 <? n) (tell (EvLogf "Applied %d migrations in %s." [ArgInt n]))) ;;
    dbc <- wrap "connect to postgres" (OpenConnector e wrappedDriver (DBURL cfg)) ;;
    r <- (if nonEmpty (DBURLNext cfg)
          then
            u <- wrap "parse next URL" (lift (url_Parse e (DBURLNext cfg))) ;;
            let q := URL_Query e u in
            let q := Values_Set q "application_name" (applicationName e true) in
            let q := Values_Set q "enable_seqscan" "off" in
            let u := set_RawQuery u (Values_Encode e q) in
            let cfg := set_DBURLNext cfg (URL_String e u) in
            dbcNext <- wrap "connect to postres (next)"
                         (OpenConnector e wrappedDriver (DBURLNext cfg)) ;;
            wrap "init changeover handler"
              (tell (EvNewHandler (DBURL cfg) (DBURLNext cfg)) ;;
               check (NewHandler_err e (DBURL cfg) (DBURLNext cfg))) ;;
            let h := {| oldConn := dbc; nextConn := dbcNext |} in
            ret (cfg, HandlerDB h, Some h)
          else ret (cfg, OpenDB dbc, None)) ;;
    let '(cfg, db, h) := r in
    app <- wrap "init app"
             (tell (EvNewApp cfg) ;; check (NewApp_err e cfg) ;;
              ret {| appConfig := cfg; appDB := db |}) ;;
    when (match h with Some _ => true | None => false end) (tell EvSetApp) ;;
    tell EvGoHandleShutdown ;;
    tell EvGoTrigger ;;
    wrap "run app" (tell EvRun ;; check (Run_err e))).

(** The root command started the server when it got as far as [NewApp]. *)
Definition startsServer (ev : Event) : bool :=
  match ev with
  | EvNewApp _ | EvRun => true
  | _ => false
  end.

(** *** The self-test command *)

(** The [result] closure; the captured variable [failed] goes in and out. *)
Definition report (name : string) (err : option error) (failed : bool) : M bool :=
  match err with
  | Some x => tell (EvPrintFail name x) ;; ret true
  | None => tell (EvPrintOK name) ;; ret failed
  end.

Definition standardOffset : Z := -21600.
Definition daylightOffset : Z := -18000.

Definition invalidOffset (got want : Z) : error :=
  ErrFormat "invalid offset: got %d; want %d" [ArgInt got; ArgInt want].

Definition dstCheck (e : Env) : option error :=
  match LoadLocation e "America/Chicago" with
  | Err err => Some (ErrWrap "load location" err)
  | Ok loc =>
      let t := gotime.Date 2020 gotime.March 8 0 0 0 loc in
      let offset := gotime.Zone t in
      if negb (offset =? standardOffset) then Some (invalidOffset offset standardOffset)
      else
        let t := gotime.Add t (3 * gotime.Hour) in
        let offset := gotime.Zone t in
        if negb (offset =? daylightOffset) then Some (invalidOffset offset daylightOffset)
        else
          let t := gotime.Date 2020 gotime.November 1 0 0 0 loc in
          let offset := gotime.Zone t in
          if negb (offset =? daylightOffset) then Some (invalidOffset offset daylightOffset)
          else
            let t := gotime.Add t (3 * gotime.Hour) in
            let offset := gotime.Zone t in
            if negb (offset =? standardOffset)
            then Some (invalidOffset offset standardOffset)
            else None
  end.

Definition loadConfigDB (e : Env) (cf : Config) : M StoreConfig :=
  wrap "open db" (tell (EvSqlOpen (DBURL cf)) ;; check (sqlOpen_err e (DBURL cf))) ;;
  cfg <- wrap "read config" (tell EvNewStore ;; lift (NewStore_res e)) ;;
  tell EvStoreShutdown ;;
  ret cfg.

Record service := { name : string; baseUrl : string }.

Fixpoint checkServices (e : Env) (l : list service) (failed : bool) : M bool :=
  match l with
  | [] => ret failed
  | s :: rest =>
      tell (EvHttpGet (baseUrl s)) ;;
      failed <- report (name s) (http_Get_err e (baseUrl s)) failed ;;
      when (match http_Get_err e (baseUrl s) with None => true | Some _ => false end)
           (tell EvBodyClose) ;;
      checkServices e rest failed
  end.

Definition testCmd_RunE (ctx : Context) (offlineOnly : bool) (e : Env) : M unit :=
  let failed := false in
  failed <- (if nonEmpty (AppVersion e)
             then
               report "Version"
                 (if negb (String.eqb (GitVersion e) (AppVersion e))
                  then Some (ErrFormat
                               "mismatch: backend version = '%s'; bundled UI version = '%s'"
                               [ArgStr (GitVersion e); ArgStr (AppVersion e)])
                  else None)
                 failed
             else ret failed) ;;
  r <- (fun w => let (r, w') := getConfig ctx e w in (Ok r, w')) ;;
  let '(cf, err) := r in
  check (match err with
         | Some x => if errors_Is x ErrDBRequired then None else Some x
         | None => None
         end) ;;
  r <- (if nonEmpty (DBURL cf) && negb offlineOnly
        then
          fun w =>
            match loadConfigDB e cf w with
            | (Ok cfg, w') =>
                (failed <- report "DB" None failed ;; ret (cfg, failed)) w'
            | (Err x, w') =>
                (failed <- report "DB" (Some x) failed ;; ret (zeroStoreConfig, failed)) w'
            end
        else ret (zeroStoreConfig, failed)) ;;
  let '(cfg, failed) := r in
  let serviceList :=
    [ {| name := "Twilio"; baseUrl := "https://api.twilio.com/2010-04-01" |};
      {| name := "Mailgun"; baseUrl := "https://api.mailgun.net/v3" |};
      {| name := "Slack"; baseUrl := "https://slack.com/api/api.test" |} ] in
  let serviceList :=
    if OIDC_Enable cfg
    then serviceList ++
         [ {| name := "OIDC";
              baseUrl := String.append (OIDC_IssuerURL cfg)
                                       "/.well-known.openid-configuration" |} ]
    else serviceList in
  let serviceList :=
    if GitHub_Enable cfg
    then
      let url := if nonEmpty (GitHub_EnterpriseURL cfg)
                 then GitHub_EnterpriseURL cfg else "https://github.com" in
      serviceList ++ [ {| name := "GitHub"; baseUrl := url |} ]
    else serviceList in
  let serviceList := if offlineOnly then [] else serviceList in
  failed <- checkServices e serviceList failed ;;
  failed <- report "DST Rules" (dstCheck e) failed ;;
  if failed
  then tell EvSilenceUsage ;; fail (ErrMsg "one or more checks failed.")
  else ret tt.

(** *** Vocabulary of the claims and sample data *)

(** Every connector the command opens is opened from [wrappedDriver]. *)
Definition opensWithWrappedDriver (ev : Event) : Prop :=
  match ev with
  | EvOpenConnector d _ => d = wrappedDriver
  | _ => True
  end.

(** The events a computation appends all satisfy [P]. *)
Definition emits (P : Event -> Prop) {A} (m : M A) : Prop :=
  forall w, exists evs, events (snd (m w)) = events w ++ evs /\ Forall P evs.

(** The computation returns an error from every world. *)
Definition alwaysFails {A} (m : M A) : Prop :=
  forall w, exists err, fst (m w) = Err err.

(** America/Chicago around 2020: daylight time from 2020-03-08 08:00 UTC
    to 2020-11-01 07:00 UTC. *)
Definition chicago : gotime.Location :=
  {| gotime.lookup := fun sec =>
       if sec <? 1583654400
       then {| gotime.zoneName := "CST"; gotime.zoneOffset := -21600;
               gotime.spanStart := 1572764400; gotime.spanEnd := 1583654400 |}
       else if sec <? 1604214000
       then {| gotime.zoneName := "CDT"; gotime.zoneOffset := -18000;
               gotime.spanStart := 1583654400; gotime.spanEnd := 1604214000 |}
       else {| gotime.zoneName := "CST"; gotime.zoneOffset := -21600;
               gotime.spanStart := 1604214000; gotime.spanEnd := 1615708800 |} |}.

(** A zone database that has no daylight time for Chicago. *)
Definition chicagoWithoutDST : gotime.Location :=
  {| gotime.lookup := fun _ =>
       {| gotime.zoneName := "CST"; gotime.zoneOffset := -21600;
          gotime.spanStart := -9223372036854775808;
          gotime.spanEnd := 9223372036854775807 |} |}.

Definition viperOf (dburl : string) : Viper :=
  {| GetString := fun key => if String.eqb key "db-url" then dburl else "";
     GetBool := fun _ => false;
     GetInt := fun _ => 0;
     GetInt64 := fun _ => 0;
     GetFloat64 := fun _ => 0;
     GetDuration := fun _ => 0 |}.

(** An environment in which every call succeeds and no configuration file
    is found. *)
Definition envOf (l : gotime.Location) : Env :=
  {| ReadInConfig_res := fun v => (v, Some ErrConfigFileNotFound);
     initPromServer_err := None;
     getTLSConfig_res := (None, None);
     configTracing_res := fun _ => Ok [];
     GitVersion := "v0.30.0";
     AppVersion := "v0.30.0";
     url_Parse := fun u => Ok {| urlRest := u; RawQuery := "" |};
     URL_Query := fun _ => [];
     Values_Encode := fun q =>
       String.concat "&"
         (map (fun p => String.append (fst p)
                          (String.append "=" (String.concat "," (snd p)))) q);
     URL_String := fun u => String.append (urlRest u) (String.append "?" (RawQuery u));
     VerifyAll_err := fun _ => None;
     ApplyAll_res := fun _ => Ok 0;
     OpenConnector_err := fun _ => None;
     NewHandler_err := fun _ _ => None;
     NewApp_err := fun _ => None;
     Run_err := None;
     sqlOpen_err := fun _ => None;
     NewStore_res := Ok zeroStoreConfig;
     http_Get_err := fun _ => None;
     LoadLocation := fun _ => Ok l |}.

Definition worldWith (dburl : string) : World :=
  {| viper := viperOf dburl; events := [] |}.

Definition sampleContext : Context := {| FromContext := LoggerOf 1 |}.

End app.

(** ** engine/metricsmanager: further vocabulary *)

Module metricsvocab.

Import metricsmanager.

Definition isInsertMetrics (st : Stmt) : bool :=
  match st with
  | InsertMetrics _ => true
  | InsertDailyMetrics _ => false
  end.

Definition isInsertDailyMetrics (st : Stmt) : bool := negb (isInsertMetrics st).


Definition isRowsClose (ev : Event) : bool :=
  match ev with
  | EvRowsClose => true
  | _ => false
  end.

(** A scan query that gave the caller a result set to close. *)
Definition opensRows (e : AlertEnv) (ev : Event) : bool :=
  match ev with
  | EvScanLogs t id bound =>
      match scanLogs_res e t id bound with
      | Ok _ => true
      | Err _ => false
      end
  | _ => false
  end.

(** A server whose second row cannot be scanned. *)
Definition alertEnvBadRow : AlertEnv :=
  {| alert_tx := noFaults;
     boundNow_res := Ok 200;
     scanLogs_res := fun _ _ _ =>
       Ok (okRows [ {| alert_id := 12; timestamp := 100; log_id := 6 |} ]
           ++ Err (ErrMsg "converting NULL to int is unsupported")
           :: [ Ok {| alert_id := 14; timestamp := 150; log_id := 3 |} ]);
     insertMetrics_err := None |}.

End metricsvocab.

(** ** app: further vocabulary for the root command and the self-test *)

Module appvocab.

Import sqldrv app.

(** The root command from the configuration on: what follows
    [cfg, err := getConfig(ctx)] in [RootCmd.RunE]. *)
Definition RootCmd_afterConfig (e : Env) (cfg : Config) : M unit :=
  exporters <- wrap "config tracing" (tell EvConfigTracing ;; lift (configTracing_res e cfg)) ;;
  defer (flushAll exporters) (
    u <- wrap "parse old URL" (lift (url_Parse e (DBURL cfg))) ;;
    let q := URL_Query e u in
    let q := Values_Set q "application_name" (applicationName e (nonEmpty (DBURLNext cfg))) in
    let q := Values_Set q "enable_seqscan" "off" in
    let u := set_RawQuery u (Values_Encode e q) in
    let cfg := set_DBURL cfg (URL_String e u) in
    (if APIOnly cfg
     then wrap "verify migrations"
            (tell (EvVerifyAll (DBURL cfg)) ;; check (VerifyAll_err e (DBURL cfg)))
     else
       n <- wrap "apply migrations"
              (tell (EvApplyAll (DBURL cfg)) ;; lift (ApplyAll_res e (DBURL cfg))) ;;
       when (0 <? n) (tell (EvLogf "Applied %d migrations in %s." [ArgInt n]))) ;;
    dbc <- wrap "connect to postgres" (OpenConnector e wrappedDriver (DBURL cfg)) ;;
    r <- (if nonEmpty (DBURLNext cfg)
          then
            u <- wrap "parse next URL" (lift (url_Parse e (DBURLNext cfg))) ;;
            let q := URL_Query e u in
            let q := Values_Set q "application_name" (applicationName e true) in
            let q := Values_Set q "enable_seqscan" "off" in
            let u := set_RawQuery u (Values_Encode e q) in
            let cfg := set_DBURLNext cfg (URL_String e u) in
            dbcNext <- wrap "connect to postres (next)"
                         (OpenConnector e wrappedDriver (DBURLNext cfg)) ;;
            wrap "init changeover handler"
              (tell (EvNewHandler (DBURL cfg) (DBURLNext cfg)) ;;
               check (NewHandler_err e (DBURL cfg) (DBURLNext cfg))) ;;
            let h := {| oldConn := dbc; nextConn := dbcNext |} in
            ret (cfg, HandlerDB h, Some h)
          else ret (cfg, OpenDB dbc, None)) ;;
    let '(cfg, db, h) := r in
    app <- wrap "init app"
             (tell (EvNewApp cfg) ;; check (NewApp_err e cfg) ;;
              ret {| appConfig := cfg; appDB := db |}) ;;
    when (match h with Some _ => true | None => false end) (tell EvSetApp) ;;
    tell EvGoHandleShutdown ;;
    tell EvGoTrigger ;;
    wrap "run app" (tell EvRun ;; check (Run_err e))).

(** The root command up to the configuration. *)
Definition RootCmd_toConfig (ctx : Context) (e : Env) : M Config :=
  v <- getViper ;;
  when (GetBool v "json") (tell EvEnableJSON) ;;
  when (GetBool v "verbose") (tell EvEnableDebug) ;;
  when (GetBool v "log-errors-only") (tell EvErrorsOnly) ;;
  err <- ReadInConfig e ;;
  check (match err with
         | Some x => if negb (isCfgNotFound x) then Some (ErrWrap "read config" x) else None
         | None => None
         end) ;;
  tell EvInitPromServer ;;
  check (initPromServer_err e) ;;
  try (getConfig ctx e).

(** The events the deferred function appends: one flush for each exporter
    that can be flushed, in order. *)
Definition flushEvents (exporters : list Exporter) : list Event :=
  map (fun x => EvFlush (exporterID x)) (filter isFlusher exporters).





(** The text of the main database URL once the root command has set its
    query. *)
Definition mainURL (e : Env) (cfg : Config) (u : URL) : string :=
  URL_String e
    (set_RawQuery u
       (Values_Encode e
          (Values_Set
             (Values_Set (URL_Query e u) "application_name"
                         (applicationName e (nonEmpty (DBURLNext cfg))))
             "enable_seqscan" "off"))).

(** The migrations of the main database went through, in the way the
    configuration asks for: verified in API-only mode, applied otherwise. *)
Definition migrated (e : Env) (cfg : Config) : Prop :=
  exists u,
    url_Parse e (DBURL cfg) = Ok u
    /\ if APIOnly cfg
       then VerifyAll_err e (mainURL e cfg u) = None
       else exists n, ApplyAll_res e (mainURL e cfg u) = Ok n.

(** Connectors, the handler and the app come only after the migrations; the
    migrations are verified in API-only mode and applied otherwise, never
    the other way round. *)
Definition afterMigrations (e : Env) (cfg : Config) (ev : Event) : Prop :=
  match ev with
  | EvOpenConnector _ _ | EvNewHandler _ _ | EvNewApp _ | EvSetApp | EvRun
  | EvGoHandleShutdown | EvGoTrigger => migrated e cfg
  | EvVerifyAll _ => APIOnly cfg = true
  | EvApplyAll _ | EvLogf _ _ => APIOnly cfg = false
  | _ => True
  end.

(** The events of the root command before it has a configuration. *)
Definition beforeConfig (ev : Event) : Prop :=
  match ev with
  | EvEnableJSON | EvEnableDebug | EvErrorsOnly | EvEnableStacks
  | EvReadInConfig | EvInitPromServer | EvGetTLSConfig => True
  | _ => False
  end.

Definition isFail (ev : Event) : bool :=
  match ev with
  | EvPrintFail _ _ => true
  | _ => false
  end.

(** The self-test events that reach out of the process: the database and
    the HTTP services. *)
Definition reachesOut (ev : Event) : bool :=
  match ev with
  | EvSqlOpen _ | EvNewStore | EvStoreShutdown | EvHttpGet _ | EvBodyClose => true
  | _ => false
  end.

Definition touchesDB (ev : Event) : bool :=
  match ev with
  | EvSqlOpen _ | EvNewStore | EvStoreShutdown => true
  | _ => false
  end.

(** The line the [result] closure prints. *)
Definition reportEvent (name : string) (err : option error) : Event :=
  match err with
  | Some x => EvPrintFail name x
  | None => EvPrintOK name
  end.

(** The world [w] after the events [evs]. *)
Definition after (w : World) (evs : list Event) : World :=
  {| viper := viper w; events := events w ++ evs |}.

(** The self-test from the configuration on: what follows the check of the
    error of [getConfig] in [testCmd.RunE], with the configuration [cf] and
    the value [failed] has by then. *)
Definition testCmd_afterConfig (e : Env) (offlineOnly : bool) (cf : Config) (failed : bool)
  : M unit :=
  r <- (if nonEmpty (DBURL cf) && negb offlineOnly
        then
          fun w =>
            match loadConfigDB e cf w with
            | (Ok cfg, w') =>
                (failed <- report "DB" None failed ;; ret (cfg, failed)) w'
            | (Err x, w') =>
                (failed <- report "DB" (Some x) failed ;; ret (zeroStoreConfig, failed)) w'
            end
        else ret (zeroStoreConfig, failed)) ;;
  let '(cfg, failed) := r in
  let serviceList :=
    [ {| name := "Twilio"; baseUrl := "https://api.twilio.com/2010-04-01" |};
      {| name := "Mailgun"; baseUrl := "https://api.mailgun.net/v3" |};
      {| name := "Slack"; baseUrl := "https://slack.com/api/api.test" |} ] in
  let serviceList :=
    if OIDC_Enable cfg
    then serviceList ++
         [ {| name := "OIDC";
              baseUrl := String.append (OIDC_IssuerURL cfg)
                                       "/.well-known.openid-configuration" |} ]
    else serviceList in
  let serviceList :=
    if GitHub_Enable cfg
    then
      let url := if nonEmpty (GitHub_EnterpriseURL cfg)
                 then GitHub_EnterpriseURL cfg else "https://github.com" in
      serviceList ++ [ {| name := "GitHub"; baseUrl := url |} ]
    else serviceList in
  let serviceList := if offlineOnly then [] else serviceList in
  failed <- checkServices e serviceList failed ;;
  failed <- report "DST Rules" (dstCheck e) failed ;;
  if failed
  then tell EvSilenceUsage ;; fail (ErrMsg "one or more checks failed.")
  else ret tt.

(** The version check at the head of the self-test. *)
Definition testCmd_version (e : Env) : M bool :=
  if nonEmpty (AppVersion e)
  then
    report "Version"
      (if negb (String.eqb (GitVersion e) (AppVersion e))
       then Some (ErrFormat
                    "mismatch: backend version = '%s'; bundled UI version = '%s'"
                    [ArgStr (GitVersion e); ArgStr (AppVersion e)])
       else None)
      false
  else ret false.

Definition checksFailed : error := ErrMsg "one or more checks failed.".

(** An environment in which Slack cannot be reached. *)
Definition envSlackDown : Env :=
  {| ReadInConfig_res := fun v => (v, Some ErrConfigFileNotFound);
     initPromServer_err := None;
     getTLSConfig_res := (None, None);
     configTracing_res := fun _ => Ok [ {| exporterID := 7; isFlusher := true |};
                                        {| exporterID := 8; isFlusher := false |} ];
     GitVersion := "v0.30.0";
     AppVersion := "v0.30.0";
     url_Parse := fun u => Ok {| urlRest := u; RawQuery := "" |};
     URL_Query := fun _ => [];
     Values_Encode := Values_Encode (envOf chicago);
     URL_String := URL_String (envOf chicago);
     VerifyAll_err := fun _ => None;
     ApplyAll_res := fun _ => Ok 2;
     OpenConnector_err := fun _ => Some (ErrMsg "connection refused");
     NewHandler_err := fun _ _ => None;
     NewApp_err := fun _ => None;
     Run_err := None;
     sqlOpen_err := fun _ => None;
     NewStore_res := Ok zeroStoreConfig;
     http_Get_err := fun u =>
       if String.eqb u "https://slack.com/api/api.test"
       then Some (ErrMsg "dial tcp: i/o timeout") else None;
     LoadLocation := fun _ => Ok chicago |}.

End appvocab.

(** ** app: the other commands of the command file *)

Module appcmd.

Import app.

(** The statements [add-user] runs inside its transaction. *)
Inductive Role : Type :=
| RoleUser
| RoleAdmin.

Record User := { ID : string; Name : string; Email : string; Role_ : Role }.

Inductive Stmt : Type :=
| InsertUser (u : User)
| CreateBasicAuth (userID username password : string).

Inductive Event : Type :=
| Base (ev : app.Event)
| EvMigrateDown (url target : string)
| EvMigrateUp (url target : string)
| EvDebugf (format : string) (args : list Arg)
| EvRunShell (old next : string)
| EvIsTerminal
| EvPrintln (line : string)
| EvGoInterruptWatcher
| EvReadAllStdin
| EvCloseDoneCh
| EvGetSetConfig (setCfg : bool) (data : option string)
| EvSqlOpenPgx (url : string)
| EvDBClose
| EvNewBasicStore
| EvBeginTx
| EvNewUserStore
| EvInsertTx (u : User)
| EvPromptPassword
| EvReadPassword
| EvPromptNewline
| EvCreateTx (userID username : string)
| EvCommitTx
| EvRollbackTx
| EvLogAdded (username : string).

(** The settings, the calls made so far, and the database [add-user] writes
    to: the statements committed, and those of the open transaction. *)
Record World := {
  viper : Viper;
  events : list Event;
  committed : list Stmt;
  tx : option (list Stmt)
}.

Definition M (A : Type) : Type := Go.M World A.

Definition tell (ev : Event) : M unit :=
  fun w =>
    (Ok tt, {| viper := viper w; events := events w ++ [ev];
               committed := committed w; tx := tx w |}).

Definition when (b : bool) (m : M unit) : M unit := if b then m else ret tt.

(** A computation of the root command's package, run here: it sees the
    settings and adds its events to the trace. *)
Definition base {A} (m : app.World -> result A * app.World) : M A :=
  fun w =>
    let (r, aw) := m {| app.viper := viper w; app.events := [] |} in
    (r, {| viper := app.viper aw;
           events := events w ++ map Base (app.events aw);
           committed := committed w; tx := tx w |}).

(** What the calls of these commands answer. *)
Record Env := {
  appEnv : app.Env;
  Down_res : string -> string -> result Z;
  Up_res : string -> string -> result Z;
  RunShell_err : string -> string -> option error;
  IsTerminal : bool;
  ReadAllStdin_res : string * option error;
  getSetConfig_err : bool -> option string -> option error;
  sqlOpenPgx_err : string -> option error;
  NewBasicStore_err : option error;
  BeginTx_err : option error;
  NewUserStore_err : option error;
  InsertTx_res : User -> result User;
  ReadPassword_res : result string;
  CreateTx_err : string -> string -> string -> option error;
  CommitTx_err : option error
}.

(** [err := viper.ReadInConfig()] and the test that follows it in every
    command: a missing configuration file is not an error. *)
Definition readConfigFile (e : Env) : M unit :=
  err <- base (ReadInConfig (appEnv e)) ;;
  check (match err with
         | Some x => if negb (isCfgNotFound x) then Some (ErrWrap "read config" x) else None
         | None => None
         end).

(** *** migrate *)

Definition migrateCmd_RunE (ctx : Context) (e : Env) : M unit :=
  v <- base getViper ;;
  when (GetBool v "verbose") (tell (Base EvEnableDebug)) ;;
  readConfigFile e ;;
  c <- base (try (getConfig ctx (appEnv e))) ;;
  v <- base getViper ;;
  let down := GetString v "down" in
  let up := GetString v "up" in
  (if nonEmpty down
   then
     n <- wrap "apply DOWN migrations"
            (tell (EvMigrateDown (DBURL c) down) ;; lift (Down_res e (DBURL c) down)) ;;
     when (0 <? n) (tell (EvDebugf "Applied %d DOWN migrations." [ArgInt n]))
   else ret tt) ;;
  (if nonEmpty up || String.eqb down ""
   then
     n <- wrap "apply UP migrations"
            (tell (EvMigrateUp (DBURL c) up) ;; lift (Up_res e (DBURL c) up)) ;;
     when (0 <? n) (tell (EvDebugf "Applied %d UP migrations." [ArgInt n]))
   else ret tt) ;;
  ret tt.

(** *** switchover-shell *)

Definition switchCmd_RunE (ctx : Context) (e : Env) : M unit :=
  cfg <- base (try (getConfig ctx (appEnv e))) ;;
  check (if String.eqb (DBURLNext cfg) ""
         then Some (ErrField "DBURLNext" "must not be empty for switchover")
         else None) ;;
  tell (EvRunShell (DBURL cfg) (DBURLNext cfg)) ;;
  check (RunShell_err e (DBURL cfg) (DBURLNext cfg)).

(** *** set-config and get-config *)

Definition getSetConfig (e : Env) (setCfg : bool) (data : option string) : M unit :=
  tell (EvGetSetConfig setCfg data) ;; check (getSetConfig_err e setCfg data).

Definition setConfigCmd_RunE (ctx : Context) (e : Env) : M unit :=
  v <- base getViper ;;
  check (if String.eqb (GetString v "data-encryption-key") ""
            && negb (GetBool v "allow-empty-data-encryption-key")
         then Some (ErrField "data-encryption-key"
                      "Must not be empty, or set --allow-empty-data-encryption-key")
         else None) ;;
  data <- (if nonEmpty (GetString v "data")
           then ret (GetString v "data")
           else
             tell EvIsTerminal ;;
             when (IsTerminal e)
               (tell (EvPrintln "Enter or paste config data (JSON), then press CTRL+D when done or CTRL+C to quit.")) ;;
             tell EvGoInterruptWatcher ;;
             tell EvReadAllStdin ;;
             tell EvCloseDoneCh ;;
             wrap "read stdin" (check (snd (ReadAllStdin_res e))) ;;
             ret (fst (ReadAllStdin_res e))) ;;
  getSetConfig e true (Some data).

Definition getConfigCmd_RunE (ctx : Context) (e : Env) : M unit :=
  getSetConfig e false None.

(** *** add-user *)

(** The flags of [add-user], read with [cmd.Flag(name).Value.String()]. *)
Record AddUserFlags := {
  flagPass : string;
  flagUserID : string;
  flagUser : string;
  flagEmail : string;
  flagAdmin : string
}.

Definition BeginTx (e : Env) : M unit :=
  tell EvBeginTx ;;
  check (BeginTx_err e) ;;
  fun w =>
    (Ok tt, {| viper := viper w; events := events w;
               committed := committed w; tx := Some [] |}).

(** A statement run on the transaction. *)
Definition execTx (st : Stmt) : M unit :=
  fun w =>
    match tx w with
    | Some stmts =>
        (Ok tt, {| viper := viper w; events := events w;
                   committed := committed w; tx := Some (stmts ++ [st]) |})
    | None => (Err ErrTxDone, w)
    end.

Definition CommitTx (e : Env) : M unit :=
  tell EvCommitTx ;;
  fun w =>
    match tx w with
    | Some stmts =>
        match CommitTx_err e with
        | Some err =>
            (Err err, {| viper := viper w; events := events w;
                         committed := committed w; tx := None |})
        | None =>
            (Ok tt, {| viper := viper w; events := events w;
                       committed := committed w ++ stmts; tx := None |})
        end
    | None => (Err ErrTxDone, w)
    end.

Definition RollbackTx : M unit :=
  tell EvRollbackTx ;;
  fun w =>
    match tx w with
    | Some _ =>
        (Ok tt, {| viper := viper w; events := events w;
                   committed := committed w; tx := None |})
    | None => (Err ErrTxDone, w)
    end.

(** [userStore.InsertTx]: the store answers with the user as inserted, its
    ID filled in. *)
Definition InsertTx (e : Env) (u : User) : M User :=
  tell (EvInsertTx u) ;;
  u' <- lift (InsertTx_res e u) ;;
  execTx (InsertUser u') ;;
  ret u'.

Definition CreateTx (e : Env) (id username pass : string) : M unit :=
  tell (EvCreateTx id username) ;;
  check (CreateTx_err e id username pass) ;;
  execTx (CreateBasicAuth id username pass).

Definition addUserCmd_RunE (ctx : Context) (fl : AddUserFlags) (e : Env) : M unit :=
  v <- base getViper ;;
  when (GetBool v "verbose") (tell (Base EvEnableDebug)) ;;
  readConfigFile e ;;
  c <- base (try (getConfig ctx (appEnv e))) ;;
  wrap "connect to postgres"
    (tell (EvSqlOpenPgx (DBURL c)) ;; check (sqlOpenPgx_err e (DBURL c))) ;;
  defer (tell EvDBClose) (
    wrap "init basic auth store" (tell EvNewBasicStore ;; check (NewBasicStore_err e)) ;;
    let pass := flagPass fl in
    let id := flagUserID fl in
    let username := flagUser fl in
    wrap "begin tx" (BeginTx e) ;;
    defer RollbackTx (
      id <- (if String.eqb id ""
             then
               let u := {| ID := ""; Name := username; Email := flagEmail fl;
                           Role_ := RoleUser |} in
               let u := if String.eqb (flagAdmin fl) "true"
                        then {| ID := ID u; Name := Name u; Email := Email u;
                                Role_ := RoleAdmin |}
                        else u in
               wrap "init user store" (tell EvNewUserStore ;; check (NewUserStore_err e)) ;;
               u <- wrap "create user" (InsertTx e u) ;;
               ret (ID u)
             else ret id) ;;
      pass <- (if String.eqb pass ""
               then
                 tell EvPromptPassword ;;
                 p <- wrap "get password" (tell EvReadPassword ;; lift (ReadPassword_res e)) ;;
                 tell EvPromptNewline ;;
                 ret p
               else ret pass) ;;
      wrap "add basic auth entry" (CreateTx e id username pass) ;;
      wrap "commit tx" (CommitTx e) ;;
      tell (EvLogAdded username) ;;
      ret tt)).

(** *** The commands in two parts *)

(** What [migrate] and [add-user] both start with: the verbose switch, the
    configuration file, the configuration. *)
Definition loadConfig (ctx : Context) (e : Env) : M Config :=
  v <- base getViper ;;
  when (GetBool v "verbose") (tell (Base EvEnableDebug)) ;;
  readConfigFile e ;;
  base (try (getConfig ctx (appEnv e))).

(** [migrate] once it has the configuration [c]. *)
Definition migrate_afterConfig (e : Env) (c : Config) : M unit :=
  v <- base getViper ;;
  let down := GetString v "down" in
  let up := GetString v "up" in
  (if nonEmpty down
   then
     n <- wrap "apply DOWN migrations"
            (tell (EvMigrateDown (DBURL c) down) ;; lift (Down_res e (DBURL c) down)) ;;
     when (0 <? n) (tell (EvDebugf "Applied %d DOWN migrations." [ArgInt n]))
   else ret tt) ;;
  (if nonEmpty up || String.eqb down ""
   then
     n <- wrap "apply UP migrations"
            (tell (EvMigrateUp (DBURL c) up) ;; lift (Up_res e (DBURL c) up)) ;;
     when (0 <? n) (tell (EvDebugf "Applied %d UP migrations." [ArgInt n]))
   else ret tt) ;;
  ret tt.

(** [add-user] once it has the configuration [c]. *)
Definition addUser_afterConfig (fl : AddUserFlags) (e : Env) (c : Config) : M unit :=
  wrap "connect to postgres"
    (tell (EvSqlOpenPgx (DBURL c)) ;; check (sqlOpenPgx_err e (DBURL c))) ;;
  defer (tell EvDBClose) (
    wrap "init basic auth store" (tell EvNewBasicStore ;; check (NewBasicStore_err e)) ;;
    let pass := flagPass fl in
    let id := flagUserID fl in
    let username := flagUser fl in
    wrap "begin tx" (BeginTx e) ;;
    defer RollbackTx (
      id <- (if String.eqb id ""
             then
               let u := {| ID := ""; Name := username; Email := flagEmail fl;
                           Role_ := RoleUser |} in
               let u := if String.eqb (flagAdmin fl) "true"
                        then {| ID := ID u; Name := Name u; Email := Email u;
                                Role_ := RoleAdmin |}
                        else u in
               wrap "init user store" (tell EvNewUserStore ;; check (NewUserStore_err e)) ;;
               u <- wrap "create user" (InsertTx e u) ;;
               ret (ID u)
             else ret id) ;;
      pass <- (if String.eqb pass ""
               then
                 tell EvPromptPassword ;;
                 p <- wrap "get password" (tell EvReadPassword ;; lift (ReadPassword_res e)) ;;
                 tell EvPromptNewline ;;
                 ret p
               else ret pass) ;;
      wrap "add basic auth entry" (CreateTx e id username pass) ;;
      wrap "commit tx" (CommitTx e) ;;
      tell (EvLogAdded username) ;;
      ret tt)).

(** *** Vocabulary and sample data *)

(** The user [add-user] asks the store to insert. *)
Definition newUser (fl : AddUserFlags) : User :=
  {| ID := ""; Name := flagUser fl; Email := flagEmail fl;
     Role_ := if String.eqb (flagAdmin fl) "true" then RoleAdmin else RoleUser |}.

Definition isOk {A} (r : result A) : bool :=
  match r with
  | Ok _ => true
  | Err _ => false
  end.

Definition isMigration (ev : Event) : bool :=
  match ev with
  | EvMigrateDown _ _ | EvMigrateUp _ _ => true
  | _ => false
  end.

Definition isUserStoreCall (ev : Event) : bool :=
  match ev with
  | EvNewUserStore | EvInsertTx _ => true
  | _ => false
  end.

Definition isPasswordPrompt (ev : Event) : bool :=
  match ev with
  | EvPromptPassword | EvReadPassword | EvPromptNewline => true
  | _ => false
  end.

Definition readsStdin (ev : Event) : bool :=
  match ev with
  | EvIsTerminal | EvPrintln _ | EvGoInterruptWatcher | EvReadAllStdin | EvCloseDoneCh => true
  | _ => false
  end.

Definition isRunShell (ev : Event) : bool :=
  match ev with
  | EvRunShell _ _ => true
  | _ => false
  end.

Definition isGetSetConfig (ev : Event) : bool :=
  match ev with
  | EvGetSetConfig _ _ => true
  | _ => false
  end.

Definition isLogAdded (ev : Event) : bool :=
  match ev with
  | EvLogAdded _ => true
  | _ => false
  end.

Definition isNone {A} (o : option A) : bool :=
  match o with
  | None => true
  | Some _ => false
  end.

(** The trace ends with [db.Close]. *)
Definition closesDB (evs : list Event) : bool :=
  match rev evs with
  | EvDBClose :: _ => true
  | _ => false
  end.

(** The trace ends with [tx.Rollback] and then [db.Close], the two deferred
    calls in the order Go runs them. *)
Definition rollsBackThenCloses (evs : list Event) : bool :=
  match rev evs with
  | EvDBClose :: EvRollbackTx :: _ => true
  | _ => false
  end.

(** What a successful [add-user] has written: the user as the store
    inserted it, unless [--user-id] names an existing one, and the auth
    entry with the password given or typed. *)
Definition addUserStmts (fl : AddUserFlags) (e : Env) : list Stmt :=
  let ins :=
    if String.eqb (flagUserID fl) ""
    then match InsertTx_res e (newUser fl) with
         | Ok u => [InsertUser u]
         | Err _ => []
         end
    else [] in
  let id :=
    if String.eqb (flagUserID fl) ""
    then match InsertTx_res e (newUser fl) with
         | Ok u => ID u
         | Err _ => ""
         end
    else flagUserID fl in
  let pass :=
    if String.eqb (flagPass fl) ""
    then match ReadPassword_res e with
         | Ok p => p
         | Err _ => ""
         end
    else flagPass fl in
  ins ++ [CreateBasicAuth id (flagUser fl) pass].

(** A computation that only runs code of the root command's package: it
    may change the settings and adds events of that package, nothing
    else. *)
Definition quiet {A} (m : M A) : Prop :=
  forall w, exists v' aevs,
    snd (m w) = {| viper := v'; events := events w ++ map Base aevs;
                   committed := committed w; tx := tx w |}.

Definition worldOf (v : Viper) : World :=
  {| viper := v; events := []; committed := []; tx := None |}.

Definition viperWith (settings : list (string * string)) : Viper :=
  {| GetString := fun key =>
       match find (fun p => String.eqb (fst p) key) settings with
       | Some p => snd p
       | None => ""
       end;
     GetBool := fun _ => false;
     GetInt := fun _ => 0;
     GetInt64 := fun _ => 0;
     GetFloat64 := fun _ => 0;
     GetDuration := fun _ => 0 |}.

(** An environment in which every call succeeds; the user store gives the
    new user the ID "u-1". *)
Definition cmdEnv : Env :=
  {| appEnv := envOf chicago;
     Down_res := fun _ _ => Ok 1;
     Up_res := fun _ _ => Ok 3;
     RunShell_err := fun _ _ => None;
     IsTerminal := false;
     ReadAllStdin_res := ("{}", None);
     getSetConfig_err := fun _ _ => None;
     sqlOpenPgx_err := fun _ => None;
     NewBasicStore_err := None;
     BeginTx_err := None;
     NewUserStore_err := None;
     InsertTx_res := fun u =>
       Ok {| ID := "u-1"; Name := Name u; Email := Email u; Role_ := Role_ u |};
     ReadPassword_res := Ok "typed";
     CreateTx_err := fun _ _ _ => None;
     CommitTx_err := None |}.

(** The same, but the auth entry cannot be created. *)
Definition cmdEnvAuthFails : Env :=
  {| appEnv := envOf chicago;
     Down_res := fun _ _ => Err (ErrMsg "migration not found");
     Up_res := fun _ _ => Ok 3;
     RunShell_err := fun _ _ => None;
     IsTerminal := false;
     ReadAllStdin_res := ("{}", None);
     getSetConfig_err := fun _ _ => None;
     sqlOpenPgx_err := fun _ => None;
     NewBasicStore_err := None;
     BeginTx_err := None;
     NewUserStore_err := None;
     InsertTx_res := fun u =>
       Ok {| ID := "u-1"; Name := Name u; Email := Email u; Role_ := Role_ u |};
     ReadPassword_res := Ok "typed";
     CreateTx_err := fun _ _ _ => Some (ErrMsg "username already exists");
     CommitTx_err := None |}.

(** The same as [cmdEnv], but the configuration file is there and cannot
    be parsed. *)
Definition envBrokenConfigFile : app.Env :=
  {| app.ReadInConfig_res := fun v =>
       (v, Some (ErrMsg "While parsing config: unexpected token"));
     app.initPromServer_err := app.initPromServer_err (envOf chicago);
     app.getTLSConfig_res := app.getTLSConfig_res (envOf chicago);
     app.configTracing_res := app.configTracing_res (envOf chicago);
     app.GitVersion := app.GitVersion (envOf chicago);
     app.AppVersion := app.AppVersion (envOf chicago);
     app.url_Parse := app.url_Parse (envOf chicago);
     app.URL_Query := app.URL_Query (envOf chicago);
     app.Values_Encode := app.Values_Encode (envOf chicago);
     app.URL_String := app.URL_String (envOf chicago);
     app.VerifyAll_err := app.VerifyAll_err (envOf chicago);
     app.ApplyAll_res := app.ApplyAll_res (envOf chicago);
     app.OpenConnector_err := app.OpenConnector_err (envOf chicago);
     app.NewHandler_err := app.NewHandler_err (envOf chicago);
     app.NewApp_err := app.NewApp_err (envOf chicago);
     app.Run_err := app.Run_err (envOf chicago);
     app.sqlOpen_err := app.sqlOpen_err (envOf chicago);
     app.NewStore_res := app.NewStore_res (envOf chicago);
     app.http_Get_err := app.http_Get_err (envOf chicago);
     app.LoadLocation := app.LoadLocation (envOf chicago) |}.

Definition cmdEnvNoConfig : Env :=
  {| appEnv := envBrokenConfigFile;
     Down_res := Down_res cmdEnv;
     Up_res := Up_res cmdEnv;
     RunShell_err := RunShell_err cmdEnv;
     IsTerminal := IsTerminal cmdEnv;
     ReadAllStdin_res := ReadAllStdin_res cmdEnv;
     getSetConfig_err := getSetConfig_err cmdEnv;
     sqlOpenPgx_err := sqlOpenPgx_err cmdEnv;
     NewBasicStore_err := NewBasicStore_err cmdEnv;
     BeginTx_err := BeginTx_err cmdEnv;
     NewUserStore_err := NewUserStore_err cmdEnv;
     InsertTx_res := InsertTx_res cmdEnv;
     ReadPassword_res := ReadPassword_res cmdEnv;
     CreateTx_err := CreateTx_err cmdEnv;
     CommitTx_err := CommitTx_err cmdEnv |}.

Definition newAdminFlags : AddUserFlags :=
  {| flagPass := "secret"; flagUserID := ""; flagUser := "ada";
     flagEmail := "ada@example.com"; flagAdmin := "true" |}.

End appcmd.

(** ** web: the urql client *)

Module urql.

Inductive OperationKind : Type :=
| KQuery
| KMutation
| KSubscription
| KTeardown.

Definition isQuery (k : OperationKind) : bool :=
  match k with
  | KQuery => true
  | _ => false
  end.

Definition isTeardown (k : OperationKind) : bool :=
  match k with
  | KTeardown => true
  | _ => false
  end.

(** [op.context]: the request policy and the fields the client never
    looks at here. *)
Record OperationContext := {
  requestPolicy : string;
  otherFields : list (string * string)
}.

Record Operation := {
  kind : OperationKind;
  key : Z;
  query : string;
  context : OperationContext
}.

(** A JS [Map] with number keys: the entries in insertion order.  [set] on
    a key that is present replaces the value where it stands, [delete]
    removes the entry, [forEach] visits the entries in order. *)
Definition JsMap (V : Type) : Type := list (Z * V).

Fixpoint has {V} (m : JsMap V) (k : Z) : bool :=
  match m with
  | [] => false
  | (k', _) :: rest => (k' =? k) || has rest k
  end.

Fixpoint get {V} (m : JsMap V) (k : Z) : option V :=
  match m with
  | [] => None
  | (k', v) :: rest => if k' =? k then Some v else get rest k
  end.

Fixpoint set {V} (m : JsMap V) (k : Z) (v : V) : JsMap V :=
  match m with
  | [] => [(k, v)]
  | (k', v') :: rest => if k' =? k then (k, v) :: rest else (k', v') :: set rest k v
  end.

Definition delete {V} (m : JsMap V) (k : Z) : JsMap V :=
  filter (fun kv => negb (fst kv =? k)) m.

Definition keys {V} (m : JsMap V) : list Z := map fst m.

Definition values {V} (m : JsMap V) : list V := map snd m.

(** The two maps of one [refetchExchange] instance. *)
Record ExchangeState := {
  watchedOps : JsMap Operation;
  observedOps : JsMap Z
}.

Definition newExchange : ExchangeState := {| watchedOps := []; observedOps := [] |}.

Definition handleOp (op : Operation) (st : ExchangeState) : ExchangeState :=
  let st :=
    if isQuery (kind op) && negb (has (observedOps st) (key op))
    then {| watchedOps := set (watchedOps st) (key op) op;
            observedOps := set (observedOps st) (key op) 1 |}
    else st in
  if isTeardown (kind op) && has (observedOps st) (key op)
  then {| watchedOps := delete (watchedOps st) (key op);
          observedOps := delete (observedOps st) (key op) |}
  else st.

(** [forward(pipe(ops, tap(handleOp)))]: every operation of the stream goes
    through [handleOp] and is passed on as it came. *)
Definition refetchExchange (ops : list Operation) (st : ExchangeState)
  : list Operation * ExchangeState :=
  (ops, fold_left (fun s op => handleOp op s) ops st).

(** [client.reexecuteOperation(client.createRequestOperation(kind, request,
    opts))]. *)
Inductive Call : Type :=
| Reexecute (k : OperationKind) (request : Operation) (opts : option OperationContext).

(** The function an exchange pushes on [refetch]. *)
Definition refetchOne (st : ExchangeState) (force : bool) : list Call :=
  if negb force
  then map (fun op => Reexecute KQuery op None) (values (watchedOps st))
  else map (fun op =>
              Reexecute KQuery op
                (Some {| requestPolicy := "cache-and-network";
                         otherFields := otherFields (context op) |}))
           (values (watchedOps st)).

(** [refetchAll], with the exchanges whose functions are on [refetch]. *)
Definition refetchAll (refetch : list ExchangeState) (force : bool) : list Call :=
  flat_map (fun st => refetchOne st force) refetch.

(** *** The poll timer *)

Inductive PageEvent : Type :=
| EvSetInterval (handle : Z)
| EvClearInterval (handle : option Z)
| EvRefetchAll (force : bool).

(** The page: the variable [poll], the interval timers that are running,
    the handle the next [setInterval] returns, and the calls made. *)
Record Page := {
  poll : option Z;
  intervals : list Z;
  nextHandle : Z;
  calls : list PageEvent
}.

(** [clearInterval(h)]; with [undefined] or a handle that is not running
    it does nothing. *)
Definition clearInterval (h : option Z) (p : Page) : Page :=
  {| poll := poll p;
     intervals := match h with
                  | Some id => filter (fun x => negb (x =? id)) (intervals p)
                  | None => intervals p
                  end;
     nextHandle := nextHandle p;
     calls := calls p ++ [EvClearInterval h] |}.

(** [poll = setInterval(refetchAll, 15000)]. *)
Definition setPollInterval (p : Page) : Page :=
  {| poll := Some (nextHandle p);
     intervals := intervals p ++ [nextHandle p];
     nextHandle := nextHandle p + 1;
     calls := calls p ++ [EvSetInterval (nextHandle p)] |}.

Definition callRefetchAll (force : bool) (p : Page) : Page :=
  {| poll := poll p; intervals := intervals p; nextHandle := nextHandle p;
     calls := calls p ++ [EvRefetchAll force] |}.

Definition isZeroParam (pollParam : option string) : bool :=
  match pollParam with
  | Some s => String.eqb s "0"
  | None => false
  end.

(** [pollParam] is what [new URLSearchParams(location.search).get('poll')]
    answers at the time of the call. *)
Definition resetPoll (pollParam : option string) (p : Page) : Page :=
  if isZeroParam pollParam then p
  else setPollInterval (clearInterval (poll p) p).

(** The [visibilitychange] listener. *)
Definition onVisibilityChange (visibilityState : string) (pollParam : option string)
    (p : Page) : Page :=
  if String.eqb visibilityState "visible"
  then callRefetchAll true (resetPoll pollParam p)
  else if String.eqb visibilityState "hidden"
       then clearInterval (poll p) p
       else p.

(** An interval timer fires, if it is still running: [refetchAll] is called
    without an argument, so [force] is its default. *)
Definition onInterval (h : Z) (p : Page) : Page :=
  if existsb (Z.eqb h) (intervals p) then callRefetchAll false p else p.

Inductive PageInput : Type :=
| VisibilityChange (visibilityState : string) (pollParam : option string)
| IntervalFires (h : Z).

Definition pageStep (p : Page) (i : PageInput) : Page :=
  match i with
  | VisibilityChange s q => onVisibilityChange s q p
  | IntervalFires h => onInterval h p
  end.

(** The module as loaded: [poll] is not set, and [resetPoll()] runs once. *)
Definition loadPage (pollParam : option string) : Page :=
  resetPoll pollParam {| poll := None; intervals := []; nextHandle := 1; calls := [] |}.

Definition runPage (pollParam : option string) (inputs : list PageInput) : Page :=
  fold_left pageStep inputs (loadPage pollParam).

(** *** Vocabulary *)

(** The query that is live for key [k] after [ops], given the one that was
    live before: the first query since the last teardown. *)
Fixpoint liveQuery (k : Z) (ops : list Operation) (cur : option Operation)
  : option Operation :=
  match ops with
  | [] => cur
  | op :: rest =>
      if key op =? k
      then match kind op with
           | KQuery => liveQuery k rest (match cur with
                                         | Some _ => cur
                                         | None => Some op
                                         end)
           | KTeardown => liveQuery k rest None
           | _ => liveQuery k rest cur
           end
      else liveQuery k rest cur
  end.

(** The two maps hold the same keys in the same order, no key twice, and
    each watched operation is a query filed under its own key. *)
Definition consistent (st : ExchangeState) : Prop :=
  keys (watchedOps st) = keys (observedOps st)
  /\ NoDup (keys (watchedOps st))
  /\ Forall (fun kv => key (snd kv) = fst kv /\ kind (snd kv) = KQuery) (watchedOps st).

(** At most one interval timer runs, it is the one [poll] names, and the
    handles handed out are all below the next one. *)
Definition onePoll (p : Page) : Prop :=
  (intervals p = [] \/ exists h, intervals p = [h] /\ poll p = Some h)
  /\ (forall h, poll p = Some h -> h < nextHandle p).

Definition requestOf (c : Call) : Operation :=
  match c with
  | Reexecute _ request _ => request
  end.

Definition kindOf (c : Call) : OperationKind :=
  match c with
  | Reexecute k _ _ => k
  end.

Definition optsOf (c : Call) : option OperationContext :=
  match c with
  | Reexecute _ _ opts => opts
  end.

Definition isSetInterval (ev : PageEvent) : bool :=
  match ev with
  | EvSetInterval _ => true
  | _ => false
  end.

Definition isPollRefetch (ev : PageEvent) : bool :=
  match ev with
  | EvRefetchAll false => true
  | _ => false
  end.

Definition zeroEverywhere (i : PageInput) : bool :=
  match i with
  | VisibilityChange _ q => isZeroParam q
  | IntervalFires _ => true
  end.

Definition sampleQuery (k : Z) (policy : string) : Operation :=
  {| kind := KQuery; key := k; query := "{ alerts { id } }";
     context := {| requestPolicy := policy; otherFields := [("url", "/api/graphql")] |} |}.

Definition sampleTeardown (k : Z) : Operation :=
  {| kind := KTeardown; key := k; query := "{ alerts { id } }";
     context := {| requestPolicy := "cache-first"; otherFields := [("url", "/api/graphql")] |} |}.

End urql.

(** ** web: the contact method form *)

Module contactform.

Record Value := { name : string; type_ : string; value : string }.

Inductive Component : Type :=
| TextField
| TelTextField.

(** The props of the [FormField] rendered for the value. *)
Record FormField := {
  placeholder : option string;
  ariaLabelledby : option string;
  fullWidth : bool;
  fieldName : string;
  required : bool;
  label : string;
  inputType : option string;
  component : Component;
  disabled : bool
}.

Definition renderEmailField (edit : bool) : FormField :=
  {| placeholder := Some "foobar@example.com"; ariaLabelledby := None;
     fullWidth := true; fieldName := "value"; required := true;
     label := "Email Address"; inputType := Some "email";
     component := TextField; disabled := edit |}.

Definition renderPhoneField (edit : bool) : FormField :=
  {| placeholder := Some "11235550123"; ariaLabelledby := Some "countryCodeIndicator";
     fullWidth := true; fieldName := "value"; required := true;
     label := "Phone Number"; inputType := None;
     component := TelTextField; disabled := edit |}.

Definition renderURLField (edit : bool) : FormField :=
  {| placeholder := Some "https://example.com"; ariaLabelledby := None;
     fullWidth := true; fieldName := "value"; required := true;
     label := "Webhook URL"; inputType := Some "url";
     component := TextField; disabled := edit |}.

Definition renderTypeField (type : string) (edit : bool) : FormField :=
  if String.eqb type "SMS" || String.eqb type "VOICE" then renderPhoneField edit
  else if String.eqb type "EMAIL" then renderEmailField edit
  else if String.eqb type "WEBHOOK" then renderURLField edit
  else {| placeholder := None; ariaLabelledby := None;
          fullWidth := true; fieldName := "value"; required := true;
          label := "Value"; inputType := None; component := TextField;
          disabled := edit |}.

Definition isPhoneType (val : Value) : bool :=
  String.eqb (type_ val) "SMS" || String.eqb (type_ val) "VOICE".

(** [mapOnChangeValue] of the form whose current value is [value]. *)
Definition mapOnChangeValue (value newValue : Value) : Value :=
  if (isPhoneType value && isPhoneType newValue)
     || String.eqb (type_ value) (type_ newValue)
  then newValue
  else {| name := name newValue; type_ := type_ newValue; value := "" |}.

(** The types the menu can offer. *)
Definition menuTypes : list string := ["SMS"; "VOICE"; "EMAIL"; "WEBHOOK"].

End contactform.

(** ** web: the fixed-schedule dialog *)

Module fixedschedule.

Record FieldError := { field : string; message : string }.

Definition stepOneErrs (fieldErrs : list FieldError) : bool :=
  existsb (fun e => existsb (String.eqb (field e)) ["start"; "end"]) fieldErrs.

Definition stepTwoErrs (fieldErrs : list FieldError) : bool :=
  existsb (fun e => existsb (String.eqb (field e)) ["summary"; "details"]) fieldErrs.

(** [useState(edit ? 1 : 0)]. *)
Definition initialStep (edit : bool) : Z := if edit then 1 else 0.

(** The effect: field errors send the dialog back to the step they are
    on. *)
Definition effect (fieldErrs : list FieldError) (step : Z) : Z :=
  if stepOneErrs fieldErrs then 0
  else if stepTwoErrs fieldErrs then 1
  else step.

(** [onNext] and [onBack]: [None] where the dialog passes [null]. *)
Definition onNext (step : Z) : option Z :=
  if step =? 2 then None else Some (step + 1).

Definition onBack (edit : bool) (step : Z) : option Z :=
  if (if edit then step =? 1 else step =? 0) then None else Some (step - 1).

Inductive Action : Type :=
| Next
| Back
| Errors (fieldErrs : list FieldError).

(** A button that is not there cannot be pressed. *)
Definition act (edit : bool) (step : Z) (a : Action) : Z :=
  match a with
  | Next => match onNext step with
            | Some s => s
            | None => step
            end
  | Back => match onBack edit step with
            | Some s => s
            | None => step
            end
  | Errors fieldErrs => effect fieldErrs step
  end.

Definition run (edit : bool) (actions : list Action) : Z :=
  fold_left (act edit) actions (initialStep edit).

Definition noStepOneErrs (a : Action) : bool :=
  match a with
  | Errors fieldErrs => negb (stepOneErrs fieldErrs)
  | _ => true
  end.

End fixedschedule.

(** ** web: the build script *)

Module esbuildcfg.

(** The double quote and the line feed, for the JS literals that hold
    them. *)
Definition dq : string := String (Ascii.ascii_of_nat 34) EmptyString.

Definition nl : string := String (Ascii.ascii_of_nat 10) EmptyString.

Definition concat (parts : list string) : string :=
  fold_right String.append EmptyString parts.

Definition includes (argv : list string) (flag : string) : bool :=
  existsb (String.eqb flag) argv.

Definition isProdBuild (argv : list string) : bool :=
  includes argv "--prod" || negb (includes argv "--watch").

(** The arguments of [onResolve] the plugin reads. *)
Record ResolveArgs := {
  path : string;
  resolveDir : string;
  kind : string;
  pluginData : option string
}.

Record ResolveResult := { resolvedPath : string; namespace : string }.

Record LoadResult := { loadPluginData : string; contents : string; loader : string }.

Section Plugin.

(** Node's [path.resolve] and [JSON.stringify]. *)
Variable path_resolve : string -> string -> string.
Variable JSON_stringify : string -> string.

Definition onResolve (args : ResolveArgs) : ResolveResult :=
  let needsPrefix :=
    String.eqb (kind args) "import-statement"
    && negb (match pluginData args with
             | Some d => String.eqb d "dynamic"
             | None => false
             end) in
  {| resolvedPath := path_resolve (resolveDir args) (path args);
     namespace := if needsPrefix then "prefix-path" else "file" |}.

Definition onLoad (argsPath : string) : LoadResult :=
  {| loadPluginData := "dynamic";
     contents :=
       concat [nl; "          import p from "; JSON_stringify argsPath; nl;
               "          const prefixPath = pathPrefix + "; dq; "/static/"; dq; " + p"; nl;
               "          export default prefixPath"; nl;
               "        "];
     loader := "js" |}.

End Plugin.

(** The options of the build that depend on the command line. *)
Record BuildOptions := { NODE_ENV : string; minify : bool; watch : bool }.

Definition buildOptions (argv : list string) : BuildOptions :=
  {| NODE_ENV := if isProdBuild argv
                 then concat [dq; "production"; dq]
                 else concat [dq; "dev"; dq];
     minify := isProdBuild argv;
     watch := includes argv "--watch" |}.

End esbuildcfg.

(** * Properties of the metrics-manager cycle *)

Module MetricsFacts.

Import metricsmanager.

Ltac unfold_go :=
  unfold UpdateAll, UpdateAlertMetrics, UpdateDailyAlertMetrics,
    BeginTxWithState, Load, Save, Exec, Commit, Rollback,
    QueryBoundNow, QueryScanLogs, QueryNextDailyMetricsDate,
    wrap, defer, bind, ret, fail, check, lift, tell, emit, set_tx in *.

(** Closes a goal about the trace once every call has been run. *)
Ltac trace_solver :=
  simpl; repeat rewrite <- app_assoc; simpl;
  try (eexists; reflexivity); try reflexivity.

(** ** The scan loop *)

Lemma last_cons_default {A} (l : list A) : forall a d, last (a :: l) d = last l a.
Proof.
  induction l as [|b l IH]; intros a d; [reflexivity|].
  change (last (a :: b :: l) d) with (last (b :: l) d).
  rewrite !IH. reflexivity.
Qed.

Lemma last_cursor_cons r rs t i :
  last_cursor rs (timestamp r) (log_id r) = last_cursor (r :: rs) t i.
Proof.
  destruct rs as [|r' rs]; simpl; [reflexivity|].
  unfold row_cursor. f_equal; f_equal; symmetry; apply (last_cons_default rs r' r).
Qed.

Lemma scanRows_ok rows : forall acc t i ids t' i',
  scanRows rows acc t i = Ok (ids, t', i') ->
  exists rs, rows = okRows rs /\ ids = acc ++ map alert_id rs
             /\ (t', i') = last_cursor rs t i.
Proof.
  induction rows as [|[r|err] rest IH]; simpl; intros acc t i ids t' i' H.
  - inversion H; subst. exists []. simpl. rewrite app_nil_r. auto.
  - apply IH in H. destruct H as (rs & -> & -> & Hc).
    exists (r :: rs). simpl. rewrite <- app_assoc. simpl.
    repeat split; auto. rewrite Hc. apply (last_cursor_cons r rs t i).
  - discriminate.
Qed.

Lemma okRows_inj rs : forall rs', okRows rs = okRows rs' -> rs = rs'.
Proof.
  induction rs as [|r rs IH]; intros [|r' rs'] H; simpl in H;
    try discriminate; [reflexivity|].
  inversion H; subst. f_equal. auto.
Qed.

(** ** What a successful and a failed [UpdateAlertMetrics] leave behind *)

Lemma UpdateAlertMetrics_ok e w w' :
  UpdateAlertMetrics e w = (Ok tt, w') ->
  exists bound rows,
    boundNow_res e = Ok bound
    /\ scanLogs_res e (LastLogTime (stateBlob (persisted w)))
                      (LastLogID (stateBlob (persisted w))) bound = Ok (okRows rows)
    /\ persisted w' =
         {| stateBlob := afterAlert (stateBlob (persisted w)) bound rows;
            executed := executed (persisted w) ++ writesAlert rows |}
    /\ tx w' = None.
Proof.
  destruct e as [[b l s c] bn scan ins]. unfold_go. simpl.
  destruct b; simpl; [discriminate|].
  destruct l; simpl; [discriminate|].
  destruct bn as [bound|]; simpl; [|discriminate].
  destruct (scan _ _ bound) as [rows|] eqn:Hscan; simpl; [|discriminate].
  destruct (scanRows rows [] zeroTime 0) as [[[ids t'] i']|] eqn:Hrows; simpl;
    [|discriminate].
  apply scanRows_ok in Hrows. destruct Hrows as (rs & -> & -> & Hc). simpl in *.
  destruct rs as [|r rs]; simpl.
  - destruct s; simpl; [discriminate|]. destruct c; simpl; [discriminate|].
    intros H; inversion H; subst; clear H. exists bound, []. simpl.
    rewrite app_nil_r. inversion Hc; subst. repeat split; auto.
  - destruct ins; simpl; [discriminate|].
    destruct s; simpl; [discriminate|]. destruct c; simpl; [discriminate|].
    intros H; inversion H; subst; clear H. exists bound, (r :: rs). simpl.
    inversion Hc; subst. repeat split; auto.
Qed.

(** The batch of a call is determined by the environment and the state the
    call starts from. *)
Lemma batch_unique e s bound rows bound' rows' :
  boundNow_res e = Ok bound ->
  scanLogs_res e (LastLogTime s) (LastLogID s) bound = Ok (okRows rows) ->
  boundNow_res e = Ok bound' ->
  scanLogs_res e (LastLogTime s) (LastLogID s) bound' = Ok (okRows rows') ->
  bound = bound' /\ rows = rows'.
Proof.
  intros Hb Hs Hb' Hs'. rewrite Hb in Hb'. inversion Hb'; subst.
  rewrite Hs in Hs'. inversion Hs' as [H]. apply okRows_inj in H. auto.
Qed.

Ltac done_trace :=
  repeat rewrite <- app_assoc; simpl; eexists; split; reflexivity.

Lemma UpdateAlertMetrics_err e w err w' :
  UpdateAlertMetrics e w = (Err err, w') ->
  persisted w' = persisted w
  /\ (beginTx_err (alert_tx e) = None ->
      tx w' = None
      /\ exists evs, trace w' = trace w ++ evs /\ lastEvent evs = Some EvRollback)
  /\ (beginTx_err (alert_tx e) <> None -> tx w' = tx w).
Proof.
  destruct e as [[b l s c] bn scan ins]. unfold_go. simpl.
  destruct b; simpl.
  { intros H; inversion H; subst; simpl. repeat split; congruence. }
  assert (Hnone : @None error <> None -> False) by congruence.
  destruct l; simpl.
  { intros H; inversion H; subst; simpl.
    split; [reflexivity|]. split; [intros _; split; [reflexivity|done_trace] | tauto]. }
  destruct bn as [bound|]; simpl.
  2:{ intros H; inversion H; subst; simpl.
      split; [reflexivity|]. split; [intros _; split; [reflexivity|done_trace] | tauto]. }
  destruct (scan _ _ bound) as [rows|] eqn:Hscan; simpl.
  2:{ intros H; inversion H; subst; simpl.
      split; [reflexivity|]. split; [intros _; split; [reflexivity|done_trace] | tauto]. }
  destruct (scanRows rows [] zeroTime 0) as [[[ids t'] i']|] eqn:Hrows; simpl.
  2:{ intros H; inversion H; subst; simpl.
      split; [reflexivity|]. split; [intros _; split; [reflexivity|done_trace] | tauto]. }
  destruct (0 <? Z.of_nat (List.length ids)); simpl;
    destruct ins; simpl; destruct s; simpl; destruct c; simpl;
    intros H; inversion H; subst; simpl;
    (split; [reflexivity|]; split; [intros _; split; [reflexivity|done_trace] | tauto]).
Qed.

(** ** What a successful and a failed [UpdateDailyAlertMetrics] leave behind *)

Lemma UpdateDailyAlertMetrics_ok e w w' :
  UpdateDailyAlertMetrics e w = (Ok tt, w') ->
  let s := stateBlob (persisted w) in
  let nd := fst (QueryNextDailyMetricsDate e (LastMetricsDate s) (LastLogTime s)) in
  persisted w' =
    (if Valid nd
     then {| stateBlob := set_LastMetricsDate s (Time_ nd);
             executed := executed (persisted w) ++ [InsertDailyMetrics nd] |}
     else persisted w)
  /\ tx w' = None
  /\ exists evs,
       trace w' = trace w ++ evs
       /\ In (EvNextDailyMetricsDate (LastMetricsDate s) (LastLogTime s)) evs
       /\ In EvCommit evs.
Proof.
  destruct e as [[b l s c] q ins]. unfold_go. simpl.
  destruct b; simpl; [discriminate|].
  destruct l; simpl; [discriminate|].
  destruct (q _ _) as [nd|x]; simpl.
  - destruct (Valid nd) eqn:Hv; simpl.
    + destruct ins; simpl; [discriminate|]. destruct s; simpl; [discriminate|].
      destruct c; simpl; [discriminate|].
      intros H; inversion H; subst; clear H; simpl.
      repeat split; auto. repeat rewrite <- app_assoc; simpl.
      eexists; split; [reflexivity|]. simpl; auto 10.
    + destruct c; simpl; [discriminate|].
      intros H; inversion H; subst; clear H; simpl.
      split; [destruct (persisted w); reflexivity|]. split; [reflexivity|].
      repeat rewrite <- app_assoc; simpl.
      eexists; split; [reflexivity|]. simpl; auto 10.
  - destruct (errors_Is x ErrNoRows); simpl; [|discriminate].
    destruct c; simpl; [discriminate|].
    intros H; inversion H; subst; clear H; simpl.
    split; [destruct (persisted w); reflexivity|]. split; [reflexivity|].
    repeat rewrite <- app_assoc; simpl.
    eexists; split; [reflexivity|]. simpl; auto 10.
Qed.

Lemma UpdateDailyAlertMetrics_err e w err w' :
  UpdateDailyAlertMetrics e w = (Err err, w') ->
  persisted w' = persisted w
  /\ (beginTx_err (daily_tx e) = None ->
      tx w' = None
      /\ exists evs, trace w' = trace w ++ evs /\ lastEvent evs = Some EvRollback)
  /\ (beginTx_err (daily_tx e) <> None -> tx w' = tx w).
Proof.
  destruct e as [[b l s c] q ins]. unfold_go. simpl.
  destruct b; simpl.
  { intros H; inversion H; subst; simpl. repeat split; congruence. }
  assert (Hnone : @None error <> None -> False) by congruence.
  destruct l; simpl.
  { intros H; inversion H; subst; simpl.
    split; [reflexivity|]. split; [intros _; split; [reflexivity|done_trace] | tauto]. }
  destruct (q _ _) as [nd|x]; simpl.
  - destruct (Valid nd); simpl;
      destruct ins; simpl; destruct s; simpl; destruct c; simpl;
      intros H; inversion H; subst; simpl;
      (split; [reflexivity|]; split; [intros _; split; [reflexivity|done_trace] | tauto]).
  - destruct (errors_Is x ErrNoRows); simpl; destruct c; simpl;
      intros H; inversion H; subst; simpl;
      (split; [reflexivity|]; split; [intros _; split; [reflexivity|done_trace] | tauto]).
Qed.

(** ** A call sees of the world only the committed database *)

Lemma UpdateAlertMetrics_committed_only e w1 w2 :
  persisted w1 = persisted w2 ->
  fst (UpdateAlertMetrics e w1) = fst (UpdateAlertMetrics e w2)
  /\ persisted (snd (UpdateAlertMetrics e w1)) = persisted (snd (UpdateAlertMetrics e w2)).
Proof.
  intros Hp. destruct e as [[b l s c] bn scan ins]. unfold_go. simpl. rewrite Hp.
  destruct b; simpl; [auto|].
  destruct l; simpl; [auto|].
  destruct bn as [bound|]; simpl; [|auto].
  destruct (scan _ _ bound) as [rows|]; simpl; [|auto].
  destruct (scanRows rows [] zeroTime 0) as [[[ids t'] i']|]; simpl; [|auto].
  destruct (0 <? Z.of_nat (List.length ids)); simpl;
    destruct ins; simpl; destruct s; simpl; destruct c; simpl; auto.
Qed.

Lemma UpdateDailyAlertMetrics_committed_only e w1 w2 :
  persisted w1 = persisted w2 ->
  fst (UpdateDailyAlertMetrics e w1) = fst (UpdateDailyAlertMetrics e w2)
  /\ persisted (snd (UpdateDailyAlertMetrics e w1))
     = persisted (snd (UpdateDailyAlertMetrics e w2)).
Proof.
  intros Hp. destruct e as [[b l s c] q ins]. unfold_go. simpl. rewrite Hp.
  destruct b; simpl; [auto|].
  destruct l; simpl; [auto|].
  destruct (q _ _) as [nd|x]; simpl.
  - destruct (Valid nd); simpl;
      destruct ins; simpl; destruct s; simpl; destruct c; simpl; auto.
  - destruct (errors_Is x ErrNoRows); simpl; destruct c; simpl; auto.
Qed.

(** ** The order of the cursor *)

Lemma cursor_lt_trans a b c : cursor_lt a b -> cursor_lt b c -> cursor_lt a c.
Proof. unfold cursor_lt. intros [H|[H1 H2]] [K|[K1 K2]]; lia. Qed.

Lemma cursor_le_trans a b c : cursor_le a b -> cursor_le b c -> cursor_le a c.
Proof.
  intros [H | ->] [K | ->]; unfold cursor_le; auto.
  left. eapply cursor_lt_trans; eauto.
Qed.

Lemma Forall_last {A} (P : A -> Prop) (l : list A) : forall a,
  Forall P (a :: l) -> P (last l a).
Proof.
  induction l as [|b l IH]; intros a H.
  - now inversion H.
  - inversion H; subst. rewrite (last_cons_default l b a). auto.
Qed.

(** After a non-empty batch the cursor is the last row's. *)
Lemma afterAlert_cursor s bound r rows :
  cursor (afterAlert s bound (r :: rows)) = row_cursor (last rows r).
Proof. reflexivity. Qed.

(** ** The least element picked by the query *)

Lemma minimum_spec l : forall m,
  minimum l = Some m -> In m l /\ forall x, In x l -> m <= x.
Proof.
  induction l as [|a l IH]; simpl; intros m H; [discriminate|].
  destruct (minimum l) as [m'|] eqn:Hm.
  - inversion H; subst. destruct (IH m' eq_refl) as [Hin Hle]. split.
    + destruct (Z.min_spec a m') as [[_ ->]|[_ ->]]; auto.
    + intros x [-> | Hx]; [lia|]. specialize (Hle x Hx). lia.
  - inversion H; subst. destruct l; [|simpl in Hm; destruct (minimum l); discriminate].
    split; [auto|]. intros x [-> | []]; lia.
Qed.

Lemma minimum_none l : minimum l = None -> l = [].
Proof. destruct l; simpl; [auto|]. destruct (minimum l); discriminate. Qed.

Lemma nextDailyDate_some closedAt a b d :
  nextDailyDate closedAt a b = Some d ->
  In d (map dayOf closedAt) /\ dayOf a < d < dayOf b
  /\ forall x, In x (map dayOf closedAt) -> dayOf a < x < dayOf b -> d <= x.
Proof.
  unfold nextDailyDate. intros H. apply minimum_spec in H. destruct H as [Hin Hle].
  apply filter_In in Hin. destruct Hin as [Hin Hw]. unfold inDailyWindow in Hw.
  apply andb_true_iff in Hw. destruct Hw as [H1 H2].
  apply Z.ltb_lt in H1. apply Z.ltb_lt in H2. repeat split; auto.
  intros x Hx Hr. apply Hle. apply filter_In. split; [auto|].
  unfold inDailyWindow. apply andb_true_iff. split; apply Z.ltb_lt; lia.
Qed.

Lemma nextDailyDate_none closedAt a b :
  nextDailyDate closedAt a b = None ->
  forall x, In x (map dayOf closedAt) -> ~ (dayOf a < x < dayOf b).
Proof.
  unfold nextDailyDate. intros H x Hx Hr. apply minimum_none in H.
  assert (Hin : In x (filter (inDailyWindow a b) (map dayOf closedAt))).
  { apply filter_In. split; [auto|]. unfold inDailyWindow.
    apply andb_true_iff. split; apply Z.ltb_lt; lia. }
  rewrite H in Hin. exact Hin.
Qed.

(** ** The claims about [UpdateAlertMetrics] *)

Lemma successful_step e w w' bound rows :
  UpdateAlertMetrics e w = (Ok tt, w') ->
  batch e (stateBlob (persisted w)) bound rows ->
  persisted w' =
    {| stateBlob := afterAlert (stateBlob (persisted w)) bound rows;
       executed := executed (persisted w) ++ writesAlert rows |}.
Proof.
  intros H [Hb Hs]. apply UpdateAlertMetrics_ok in H.
  destruct H as (bound' & rows' & Hb' & Hs' & Hp & _).
  destruct (batch_unique _ _ _ _ _ _ Hb Hs Hb' Hs') as [-> ->]. exact Hp.
Qed.

(** C1. A successful [UpdateAlertMetrics] has read a bound and scanned a
    batch; when the batch is not empty it has executed the insert statement
    once, with exactly the alert ids of the batch, and the persisted cursor
    is the (time, id) of the batch's last row; when the batch is empty
    nothing is inserted and the persisted cursor is (bound, 0). *)
Theorem UpdateAlertMetrics_inserts_batch_and_moves_cursor e w w' :
  UpdateAlertMetrics e w = (Ok tt, w') ->
  exists bound rows,
    batch e (stateBlob (persisted w)) bound rows
    /\ (rows <> [] ->
        executed (persisted w')
        = executed (persisted w) ++ [InsertMetrics (map alert_id rows)]
        /\ forall d, cursor (stateBlob (persisted w')) = row_cursor (last rows d))
    /\ (rows = [] ->
        executed (persisted w') = executed (persisted w)
        /\ cursor (stateBlob (persisted w')) = (bound, 0)).
Proof.
  intros H. apply UpdateAlertMetrics_ok in H.
  destruct H as (bound & rows & Hb & Hs & Hp & _).
  exists bound, rows. split; [split; assumption|]. rewrite Hp. simpl. split.
  - destruct rows as [|r rest]; [congruence|]. intros _. split; [reflexivity|].
    intros d. rewrite (last_cons_default rest r d). reflexivity.
  - intros ->. simpl. rewrite app_nil_r. auto.
Qed.

Lemma UpdateAlertMetrics_inserts_batch_witness :
  UpdateAlertMetrics (alertEnvOf 500 sampleLogs 200) (worldOf sampleState)
  = (Ok tt, snd (UpdateAlertMetrics (alertEnvOf 500 sampleLogs 200) (worldOf sampleState)))
  /\ exists bound rows,
      batch (alertEnvOf 500 sampleLogs 200) sampleState bound rows
      /\ (rows <> [] ->
          executed (persisted (snd (UpdateAlertMetrics (alertEnvOf 500 sampleLogs 200)
                                                       (worldOf sampleState))))
          = [] ++ [InsertMetrics (map alert_id rows)]
          /\ forall d,
              cursor (stateBlob (persisted (snd (UpdateAlertMetrics
                                                   (alertEnvOf 500 sampleLogs 200)
                                                   (worldOf sampleState)))))
              = row_cursor (last rows d))
      /\ (rows = [] ->
          executed (persisted (snd (UpdateAlertMetrics (alertEnvOf 500 sampleLogs 200)
                                                       (worldOf sampleState))))
          = []
          /\ cursor (stateBlob (persisted (snd (UpdateAlertMetrics
                                                  (alertEnvOf 500 sampleLogs 200)
                                                  (worldOf sampleState)))))
             = (bound, 0)).
Proof.
  split; [reflexivity|].
  apply (UpdateAlertMetrics_inserts_batch_and_moves_cursor
           (alertEnvOf 500 sampleLogs 200) (worldOf sampleState)).
  reflexivity.
Defined.

(** C2. When either cycle returns an error, the committed database, and
    with it the persisted cursor state, is what it was before the call;
    a transaction that was begun has been rolled back and none is left
    open; and a later call of either cycle returns and commits what it
    would have without the failed call. *)
Theorem failed_cycle_leaves_committed_state c w err w' :
  runCycle c w = (Err err, w') ->
  persisted w' = persisted w
  /\ (beginTx_err (cycleFaults c) = None ->
      tx w' = None
      /\ exists evs, trace w' = trace w ++ evs /\ lastEvent evs = Some EvRollback)
  /\ (beginTx_err (cycleFaults c) <> None -> tx w' = tx w)
  /\ forall c2,
       fst (runCycle c2 w') = fst (runCycle c2 w)
       /\ persisted (snd (runCycle c2 w')) = persisted (snd (runCycle c2 w)).
Proof.
  intros H.
  assert (Hmain :
    persisted w' = persisted w
    /\ (beginTx_err (cycleFaults c) = None ->
        tx w' = None
        /\ exists evs, trace w' = trace w ++ evs /\ lastEvent evs = Some EvRollback)
    /\ (beginTx_err (cycleFaults c) <> None -> tx w' = tx w)).
  { destruct c as [e|e]; simpl in *.
    - apply UpdateAlertMetrics_err in H. exact H.
    - apply UpdateDailyAlertMetrics_err in H. exact H. }
  destruct Hmain as (Hp & Hr & Hn).
  split; [exact Hp|]. split; [exact Hr|]. split; [exact Hn|].
  intros [e2|e2]; simpl.
  - apply UpdateAlertMetrics_committed_only; exact Hp.
  - apply UpdateDailyAlertMetrics_committed_only; exact Hp.
Qed.

Lemma failed_cycle_witness :
  fst (runCycle (AlertCycle (alertEnvInsertFails sampleLogs 200)) (worldOf sampleState))
  = Err (ErrWrap "insert metrics" (ErrMsg "connection reset"))
  /\ persisted (snd (runCycle (AlertCycle (alertEnvInsertFails sampleLogs 200))
                              (worldOf sampleState)))
     = persisted (worldOf sampleState).
Proof.
  split; [reflexivity|].
  apply (failed_cycle_leaves_committed_state
           (AlertCycle (alertEnvInsertFails sampleLogs 200)) (worldOf sampleState)
           (ErrWrap "insert metrics" (ErrMsg "connection reset"))
           (snd (runCycle (AlertCycle (alertEnvInsertFails sampleLogs 200))
                          (worldOf sampleState)))).
  reflexivity.
Defined.

(** A successful call with a non-empty batch beyond the cursor moves the
    cursor strictly forward. *)
Lemma nonEmpty_step_advances e w w' :
  nonEmptyAfterCursor e w ->
  UpdateAlertMetrics e w = (Ok tt, w') ->
  cursor_lt (cursor (stateBlob (persisted w))) (cursor (stateBlob (persisted w'))).
Proof.
  intros (bound & r & rows & Hb & Hall) H.
  rewrite (successful_step _ _ _ _ _ H Hb).
  change (cursor_lt (cursor (stateBlob (persisted w))) (row_cursor (last rows r))).
  apply (Forall_last
           (fun x => cursor_lt (cursor (stateBlob (persisted w))) (row_cursor x))).
  exact Hall.
Qed.

Lemma nonEmpty_run_advances w es w' :
  cycles nonEmptyAfterCursor w es w' ->
  es <> [] ->
  cursor_lt (cursor (stateBlob (persisted w))) (cursor (stateBlob (persisted w'))).
Proof.
  induction 1 as [w | w e w1 es w2 HP Hstep Hrun IH]; intros Hne; [congruence|].
  pose proof (nonEmpty_step_advances _ _ _ HP Hstep) as Hlt.
  destruct es as [|e' es'].
  - inversion Hrun; subst. exact Hlt.
  - eapply cursor_lt_trans; [exact Hlt|]. apply IH. discriminate.
Qed.

Example lastLogTime_moves_with_a_batch :
  UpdateAlertMetrics (alertEnvOf 500 sampleLogs 200) (worldOf sampleState)
  = (Ok tt,
     {| persisted :=
          {| stateBlob := {| LastLogTime := 150; LastLogID := 3; LastMetricsDate := 0 |};
             executed := [InsertMetrics [12; 13; 14]] |};
        tx := None;
        trace := [ EvDebugf "Running alert_metrics operations.";
                   EvBeginTxWithState; EvLoad; EvBoundNow; EvScanLogs 100 5 200;
                   EvInsertMetrics [12; 13; 14];
                   EvSave {| LastLogTime := 150; LastLogID := 3; LastMetricsDate := 0 |};
                   EvCommit; EvRowsClose; EvRollback ] |}).
Proof. reflexivity. Qed.

(** Against C3 as stated: from the cursor (100, 5), with three rows to
    scan up to the bound 200, the call succeeds with a non-empty batch and
    LastLogTime has advanced, from 100 to 150. *)
Lemma lastLogTime_advances_on_nonempty_batch :
  exists w' rows,
    UpdateAlertMetrics (alertEnvOf 500 sampleLogs 200) (worldOf sampleState) = (Ok tt, w')
    /\ batch (alertEnvOf 500 sampleLogs 200) sampleState 200 rows
    /\ ~ (LastLogTime sampleState < LastLogTime (stateBlob (persisted w')) ->
          rows = [] /\ LastLogTime (stateBlob (persisted w')) = 200).
Proof.
  eexists. eexists. split; [apply lastLogTime_moves_with_a_batch|].
  split; [split; reflexivity|]. simpl. intros H.
  assert (Hlt : 100 < 150) by lia. destruct (H Hlt) as [Hnil _]. discriminate.
Qed.

(** C3, amended.  Over a run of successful calls whose batches are not
    empty and lie strictly after the cursor, LastLogTime does not decrease
    and, when it is the same at both ends, LastLogID has strictly
    increased.  A further successful call sets the cursor to (bound, 0)
    when its batch is empty, and sets LastLogTime to the timestamp of the
    last row when it is not: LastLogTime moves on non-empty batches too. *)
Theorem lastLogID_increases_while_time_constant w es w1 e w2 bound rows :
  cycles nonEmptyAfterCursor w es w1 ->
  UpdateAlertMetrics e w1 = (Ok tt, w2) ->
  batch e (stateBlob (persisted w1)) bound rows ->
  (es <> [] ->
   LastLogTime (stateBlob (persisted w)) <= LastLogTime (stateBlob (persisted w1))
   /\ (LastLogTime (stateBlob (persisted w1)) = LastLogTime (stateBlob (persisted w)) ->
       LastLogID (stateBlob (persisted w)) < LastLogID (stateBlob (persisted w1))))
  /\ (rows = [] -> cursor (stateBlob (persisted w2)) = (bound, 0))
  /\ (rows <> [] ->
      forall d, LastLogTime (stateBlob (persisted w2)) = timestamp (last rows d)).
Proof.
  intros Hrun Hstep Hb. split; [|split].
  - intros Hne. pose proof (nonEmpty_run_advances _ _ _ Hrun Hne) as Hlt.
    unfold cursor_lt, cursor in Hlt. simpl in Hlt. lia.
  - intros ->. rewrite (successful_step _ _ _ _ _ Hstep Hb). reflexivity.
  - intros Hne d. rewrite (successful_step _ _ _ _ _ Hstep Hb).
    destruct rows as [|r rest]; [congruence|].
    rewrite (last_cons_default rest r d). reflexivity.
Qed.

Lemma lastLogID_increases_witness :
  cycles nonEmptyAfterCursor (worldOf sampleState)
         [alertEnvOf 1 sampleLogs 200]
         (snd (UpdateAlertMetrics (alertEnvOf 1 sampleLogs 200) (worldOf sampleState)))
  /\ LastLogID sampleState
     < LastLogID (stateBlob (persisted (snd (UpdateAlertMetrics
                                               (alertEnvOf 1 sampleLogs 200)
                                               (worldOf sampleState))))).
Proof.
  assert (Hrun : cycles nonEmptyAfterCursor (worldOf sampleState)
                   [alertEnvOf 1 sampleLogs 200]
                   (snd (UpdateAlertMetrics (alertEnvOf 1 sampleLogs 200)
                                            (worldOf sampleState)))).
  { eapply cycles_cons; [|vm_compute; reflexivity|apply cycles_nil].
    exists 200, {| alert_id := 12; timestamp := 100; log_id := 6 |}, [].
    split; [split; vm_compute; reflexivity|].
    constructor; [|constructor]. right. simpl. split; [reflexivity|lia]. }
  assert (Hstep : UpdateAlertMetrics (alertEnvOf 500 quietLogs 300)
                    (snd (UpdateAlertMetrics (alertEnvOf 1 sampleLogs 200)
                                             (worldOf sampleState)))
                  = (Ok tt,
                     snd (UpdateAlertMetrics
                            (alertEnvOf 500 quietLogs 300)
                            (snd (UpdateAlertMetrics (alertEnvOf 1 sampleLogs 200)
                                                     (worldOf sampleState))))))
    by (vm_compute; reflexivity).
  assert (Hbatch : batch (alertEnvOf 500 quietLogs 300)
                     (stateBlob (persisted (snd (UpdateAlertMetrics
                                                   (alertEnvOf 1 sampleLogs 200)
                                                   (worldOf sampleState)))))
                     300 [])
    by (split; vm_compute; reflexivity).
  pose proof (lastLogID_increases_while_time_constant
                (worldOf sampleState) [alertEnvOf 1 sampleLogs 200] _ _ _ 300 []
                Hrun Hstep Hbatch) as H.
  destruct H as [H _]. destruct H as [_ H]; [discriminate|].
  split; [exact Hrun|]. apply H. vm_compute. reflexivity.
Defined.

Example empty_batch_at_the_bound :
  UpdateAlertMetrics (alertEnvOf 500 quietLogs 100) (worldOf sampleState)
  = (Ok tt,
     {| persisted :=
          {| stateBlob := {| LastLogTime := 100; LastLogID := 0; LastMetricsDate := 0 |};
             executed := [] |};
        tx := None;
        trace := [ EvDebugf "Running alert_metrics operations.";
                   EvBeginTxWithState; EvLoad; EvBoundNow; EvScanLogs 100 5 100;
                   EvSave {| LastLogTime := 100; LastLogID := 0; LastMetricsDate := 0 |};
                   EvCommit; EvRowsClose; EvRollback ] |}).
Proof. reflexivity. Qed.

(** Against C4 as stated: the cursor is (100, 5), the bound read is 100
    (not earlier than LastLogTime), and no row lies after the cursor, so the
    scan keeps to its window; the call succeeds and persists (100, 0),
    which is before (100, 5). *)
Lemma cursor_regresses_when_bound_equals_lastLogTime :
  exists w',
    UpdateAlertMetrics (alertEnvOf 500 quietLogs 100) (worldOf sampleState) = (Ok tt, w')
    /\ batch (alertEnvOf 500 quietLogs 100) sampleState 100 []
    /\ scanInWindow sampleState 100 []
    /\ ~ cursor_le (cursor sampleState) (cursor (stateBlob (persisted w'))).
Proof.
  eexists. split; [apply empty_batch_at_the_bound|].
  split; [split; reflexivity|]. split.
  - split; [constructor | simpl; lia].
  - unfold cursor_le, cursor_lt, cursor. simpl.
    intros [[H|[_ H]]|H]; [lia | lia | inversion H].
Qed.

(** C4, amended.  For a successful call whose scan keeps to its window
    (rows strictly after the cursor and no later than the bound, the bound
    not before LastLogTime): with a non-empty batch the persisted cursor
    advances strictly; LastLogTime never decreases; and the cursor as a
    (time, id) pair does not regress provided the bound is strictly later
    than LastLogTime or LastLogID is not positive. *)
Theorem cursor_advances_and_does_not_regress e w w' bound rows :
  UpdateAlertMetrics e w = (Ok tt, w') ->
  batch e (stateBlob (persisted w)) bound rows ->
  scanInWindow (stateBlob (persisted w)) bound rows ->
  (rows <> [] ->
   cursor_lt (cursor (stateBlob (persisted w))) (cursor (stateBlob (persisted w'))))
  /\ LastLogTime (stateBlob (persisted w)) <= LastLogTime (stateBlob (persisted w'))
  /\ (LastLogTime (stateBlob (persisted w)) < bound
      \/ LastLogID (stateBlob (persisted w)) <= 0 ->
      cursor_le (cursor (stateBlob (persisted w))) (cursor (stateBlob (persisted w')))).
Proof.
  intros Hstep Hb [Hall Hbound].
  rewrite (successful_step _ _ _ _ _ Hstep Hb).
  destruct rows as [|r rest].
  - unfold cursor_le, cursor_lt, cursor. simpl.
    split; [congruence|]. split; [exact Hbound|].
    destruct (stateBlob (persisted w)) as [t i m]; simpl in *.
    intros [H|H]; [left; lia|].
    destruct (Z.eq_dec t bound) as [->|Hn];
      [destruct (Z.eq_dec i 0) as [->|Hi]; [right; reflexivity | left; lia]
      | left; lia].
  - assert (Hlast : cursor_lt (cursor (stateBlob (persisted w)))
                              (row_cursor (last rest r))).
    { apply (Forall_last
               (fun x => cursor_lt (cursor (stateBlob (persisted w))) (row_cursor x))).
      eapply Forall_impl; [|exact Hall]. simpl. tauto. }
    change (cursor (stateBlob
                      {| stateBlob := afterAlert (stateBlob (persisted w)) bound (r :: rest);
                         executed := executed (persisted w) ++ writesAlert (r :: rest) |}))
      with (row_cursor (last rest r)).
    change (LastLogTime (stateBlob
                      {| stateBlob := afterAlert (stateBlob (persisted w)) bound (r :: rest);
                         executed := executed (persisted w) ++ writesAlert (r :: rest) |}))
      with (fst (row_cursor (last rest r))).
    split; [intros _; exact Hlast|]. split.
    + unfold cursor_lt, cursor in Hlast. simpl in Hlast. simpl. lia.
    + intros _. left. exact Hlast.
Qed.

Lemma cursor_advances_witness :
  scanInWindow sampleState 200
    [ {| alert_id := 12; timestamp := 100; log_id := 6 |};
      {| alert_id := 13; timestamp := 150; log_id := 2 |};
      {| alert_id := 14; timestamp := 150; log_id := 3 |} ]
  /\ cursor_lt (cursor sampleState)
       (cursor (stateBlob (persisted (snd (UpdateAlertMetrics
                                             (alertEnvOf 500 sampleLogs 200)
                                             (worldOf sampleState)))))).
Proof.
  assert (Hwin : scanInWindow sampleState 200
    [ {| alert_id := 12; timestamp := 100; log_id := 6 |};
      {| alert_id := 13; timestamp := 150; log_id := 2 |};
      {| alert_id := 14; timestamp := 150; log_id := 3 |} ]).
  { split; [|simpl; lia].
    repeat constructor; unfold cursor_lt, cursor, row_cursor; simpl; lia. }
  split; [exact Hwin|].
  refine (proj1 (cursor_advances_and_does_not_regress
                   (alertEnvOf 500 sampleLogs 200) (worldOf sampleState)
                   (snd (UpdateAlertMetrics (alertEnvOf 500 sampleLogs 200)
                                            (worldOf sampleState)))
                   200 _ eq_refl (conj eq_refl eq_refl) Hwin) _).
  discriminate.
Defined.

(** ** The claims about [UpdateDailyAlertMetrics] *)

(** C5. A successful [UpdateDailyAlertMetrics] has run the next-date query
    with LastMetricsDate and LastLogTime and has committed.  With the query
    of the spec over the close times [closedAt]: when a day strictly after
    the day of LastMetricsDate and strictly before the day of LastLogTime
    exists, the least such day is the one inserted (one insert statement,
    for that date) and LastMetricsDate is set to it, the log cursor being
    kept; when none exists, the committed database is unchanged. *)
Theorem UpdateDailyAlertMetrics_advances_to_next_date closedAt e w w' :
  (forall a b, nextDate_res e a b = sqlNextDailyMetricsDate closedAt a b) ->
  UpdateDailyAlertMetrics e w = (Ok tt, w') ->
  (exists evs,
      trace w' = trace w ++ evs
      /\ In (EvNextDailyMetricsDate (LastMetricsDate (stateBlob (persisted w)))
                                    (LastLogTime (stateBlob (persisted w)))) evs
      /\ In EvCommit evs)
  /\ match nextDailyDate closedAt (LastMetricsDate (stateBlob (persisted w)))
                         (LastLogTime (stateBlob (persisted w))) with
     | Some d =>
         In d (map dayOf closedAt)
         /\ dayOf (LastMetricsDate (stateBlob (persisted w))) < d
            < dayOf (LastLogTime (stateBlob (persisted w)))
         /\ (forall x, In x (map dayOf closedAt) ->
               dayOf (LastMetricsDate (stateBlob (persisted w))) < x
               < dayOf (LastLogTime (stateBlob (persisted w))) -> d <= x)
         /\ executed (persisted w')
            = executed (persisted w)
              ++ [InsertDailyMetrics {| Time_ := midnight d; Valid := true |}]
         /\ LastMetricsDate (stateBlob (persisted w')) = midnight d
         /\ cursor (stateBlob (persisted w')) = cursor (stateBlob (persisted w))
     | None =>
         (forall x, In x (map dayOf closedAt) ->
            ~ (dayOf (LastMetricsDate (stateBlob (persisted w))) < x
               < dayOf (LastLogTime (stateBlob (persisted w)))))
         /\ persisted w' = persisted w
     end.
Proof.
  intros Hq H. apply UpdateDailyAlertMetrics_ok in H. simpl in H.
  destruct H as (Hp & _ & Hev). split; [exact Hev|].
  unfold QueryNextDailyMetricsDate in Hp. rewrite Hq in Hp.
  unfold sqlNextDailyMetricsDate in Hp.
  destruct (nextDailyDate closedAt _ _) as [d|] eqn:Hd; simpl in Hp.
  - destruct (nextDailyDate_some _ _ _ _ Hd) as (Hin & Hr & Hmin).
    rewrite Hp. simpl. repeat split; auto; lia.
  - split; [apply nextDailyDate_none; exact Hd | exact Hp].
Qed.

Lemma UpdateDailyAlertMetrics_next_date_witness :
  LastMetricsDate
    (stateBlob (persisted (snd (UpdateDailyAlertMetrics
                                  (dailyEnvOf sampleClosedAt)
                                  (worldOf {| LastLogTime := 86400 * 5 + 30;
                                              LastLogID := 1;
                                              LastMetricsDate := 86400 |})))))
  = midnight 2.
Proof.
  pose proof (UpdateDailyAlertMetrics_advances_to_next_date
                sampleClosedAt (dailyEnvOf sampleClosedAt)
                (worldOf {| LastLogTime := 86400 * 5 + 30; LastLogID := 1;
                            LastMetricsDate := 86400 |})
                (snd (UpdateDailyAlertMetrics
                        (dailyEnvOf sampleClosedAt)
                        (worldOf {| LastLogTime := 86400 * 5 + 30; LastLogID := 1;
                                    LastMetricsDate := 86400 |})))
                (fun a b => eq_refl) eq_refl) as H.
  exact (proj1 (proj2 (proj2 (proj2 (proj2 (proj2 H)))))).
Defined.

(** C10. When the transaction begins, the state loads and the commit goes
    through, an empty answer of the next-date query (the [sql.ErrNoRows]
    error, or a row holding NULL) makes [UpdateDailyAlertMetrics] return
    nil: after the query it calls the commit and nothing else, neither the
    insert nor [Save], and the committed database is what it was. *)
Theorem UpdateDailyAlertMetrics_empty_answer_is_success e w :
  beginTx_err (daily_tx e) = None ->
  load_err (daily_tx e) = None ->
  commit_err (daily_tx e) = None ->
  match nextDate_res e (LastMetricsDate (stateBlob (persisted w)))
                     (LastLogTime (stateBlob (persisted w))) with
  | Ok nd => Valid nd = false
  | Err x => errors_Is x ErrNoRows = true
  end ->
  exists w',
    UpdateDailyAlertMetrics e w = (Ok tt, w')
    /\ persisted w' = persisted w
    /\ tx w' = None
    /\ trace w' =
         trace w ++ [ EvDebugf "Running daily_alert_metrics operations.";
                      EvBeginTxWithState; EvLoad;
                      EvNextDailyMetricsDate
                        (LastMetricsDate (stateBlob (persisted w)))
                        (LastLogTime (stateBlob (persisted w)));
                      EvCommit; EvRollback ].
Proof.
  destruct e as [[b l s c] q ins]. simpl. intros -> -> -> Hq.
  unfold_go. simpl.
  destruct (q _ _) as [nd|x]; simpl.
  - rewrite Hq. simpl. eexists. split; [reflexivity|]. simpl.
    split; [destruct (persisted w); reflexivity|]. split; [reflexivity|].
    repeat rewrite <- app_assoc. reflexivity.
  - rewrite Hq. simpl. eexists. split; [reflexivity|]. simpl.
    split; [destruct (persisted w); reflexivity|]. split; [reflexivity|].
    repeat rewrite <- app_assoc. reflexivity.
Qed.

Lemma UpdateDailyAlertMetrics_empty_answer_witness :
  exists w',
    UpdateDailyAlertMetrics dailyEnvNull (worldOf sampleState) = (Ok tt, w')
    /\ persisted w' = persisted (worldOf sampleState)
    /\ tx w' = None
    /\ trace w' =
         [] ++ [ EvDebugf "Running daily_alert_metrics operations.";
                 EvBeginTxWithState; EvLoad; EvNextDailyMetricsDate 0 100;
                 EvCommit; EvRollback ].
Proof.
  apply (UpdateDailyAlertMetrics_empty_answer_is_success dailyEnvNull (worldOf sampleState));
    reflexivity.
Defined.

(** ** The claim about [UpdateAll] *)

(** [UpdateAlertMetrics] produces none of the events of the daily cycle. *)
Lemma UpdateAlertMetrics_trace e w :
  exists evs,
    trace (snd (UpdateAlertMetrics e w)) = trace w ++ evs
    /\ forallb (fun ev => negb (isDailyEvent ev)) evs = true.
Proof.
  destruct e as [[b l s c] bn scan ins]. unfold_go. simpl.
  destruct b; simpl; [done_trace|].
  destruct l; simpl; [done_trace|].
  destruct bn as [bound|]; simpl; [|done_trace].
  destruct (scan _ _ bound) as [rows|]; simpl; [|done_trace].
  destruct (scanRows rows [] zeroTime 0) as [[[ids t'] i']|]; simpl; [|done_trace].
  destruct (0 <? Z.of_nat (List.length ids)); simpl;
    destruct ins; simpl; destruct s; simpl; destruct c; simpl; done_trace.
Qed.

(** C9. Without the System permission [UpdateAll] returns the error of the
    permission check and leaves the world as it was: no call is made and
    nothing is traced or changed.  With the permission, when
    [UpdateAlertMetrics] fails, [UpdateAll] returns that error in the very
    world [UpdateAlertMetrics] left, whose new events include none of the
    daily cycle, and the committed database is unchanged. *)
Theorem UpdateAll_stops_at_first_error ctx ea ed w :
  (System ctx = false ->
   exists err, LimitCheckAny ctx [System] = Some err
               /\ UpdateAll ctx ea ed w = (Err err, w))
  /\ (System ctx = true ->
      forall err w1,
        UpdateAlertMetrics ea w = (Err err, w1) ->
        UpdateAll ctx ea ed w = (Err err, w1)
        /\ persisted w1 = persisted w
        /\ exists evs, trace w1 = trace w ++ evs
                       /\ forallb (fun ev => negb (isDailyEvent ev)) evs = true).
Proof.
  split.
  - intros Hs. exists ErrPermission. unfold UpdateAll, LimitCheckAny. simpl.
    rewrite Hs. simpl. split; reflexivity.
  - intros Hs err w1 H. split; [|split].
    + unfold UpdateAll, LimitCheckAny. simpl. rewrite Hs. simpl.
      unfold bind at 1. unfold check, ret. unfold bind at 1. rewrite H. reflexivity.
    + apply UpdateAlertMetrics_err in H. tauto.
    + pose proof (UpdateAlertMetrics_trace ea w) as Ht. rewrite H in Ht. exact Ht.
Qed.

Lemma UpdateAll_stops_witness :
  System userContext = false
  /\ exists err,
       LimitCheckAny userContext [System] = Some err
       /\ UpdateAll userContext (alertEnvOf 500 sampleLogs 200)
                    (dailyEnvOf sampleClosedAt) (worldOf sampleState)
          = (Err err, worldOf sampleState).
Proof.
  split; [reflexivity|].
  apply (proj1 (UpdateAll_stops_at_first_error
                  userContext (alertEnvOf 500 sampleLogs 200)
                  (dailyEnvOf sampleClosedAt) (worldOf sampleState))).
  reflexivity.
Defined.

Example UpdateAll_runs_both_cycles :
  fst (UpdateAll systemContext (alertEnvOf 500 sampleLogs 200)
                 (dailyEnvOf sampleClosedAt) (worldOf sampleState)) = Ok tt
  /\ map isDailyEvent
       (trace (snd (UpdateAll systemContext (alertEnvOf 500 sampleLogs 200)
                              (dailyEnvOf sampleClosedAt) (worldOf sampleState))))
     = [ false; false; false; false; false; false; false; false; false; false;
         true; false; false; true; false; false ].
Proof. split; reflexivity. Qed.

End MetricsFacts.

(** * Properties of the start-up commands *)

Module AppFacts.

Import sqldrv app.

(** ** The retry loop *)

Lemma attemptLoop_bound attempt : forall budget n lastErr,
  (snd (attemptLoop attempt n budget lastErr) <= n + budget)%nat.
Proof.
  induction budget as [|b IH]; intros n lastErr; simpl; [lia|].
  destruct (attempt n); simpl; try lia.
  specialize (IH (S n) e). lia.
Qed.

Lemma attemptLoop_all_transient attempt (errAt : nat -> error) : forall budget n lastErr,
  (forall i, (n <= i < n + budget)%nat -> attempt i = Transient (errAt i)) ->
  attemptLoop attempt n budget lastErr
  = (Some (match budget with O => lastErr | S b => errAt (n + b)%nat end),
     (n + budget)%nat).
Proof.
  induction budget as [|b IH]; intros n lastErr H; simpl.
  - f_equal. lia.
  - rewrite (H n) by lia. rewrite IH by (intros i Hi; apply H; lia).
    f_equal; [|lia]. destruct b; f_equal; f_equal; lia.
Qed.

Lemma attemptLoop_stops_at_success attempt : forall budget n lastErr k,
  (k < budget)%nat ->
  (forall i, (n <= i < n + k)%nat -> exists x, attempt i = Transient x) ->
  attempt (n + k)%nat = Success ->
  attemptLoop attempt n budget lastErr = (None, S (n + k)).
Proof.
  induction budget as [|b IH]; intros n lastErr k Hk Htr Hok; [lia|]. simpl.
  destruct k as [|k].
  - rewrite Nat.add_0_r in Hok. rewrite Hok. f_equal. f_equal. lia.
  - destruct (Htr n) as [x Hx]; [lia|]. rewrite Hx.
    rewrite (IH (S n) x k); [f_equal; f_equal; lia | lia | | ].
    + intros i Hi. apply Htr. lia.
    + replace (S n + k)%nat with (n + S k)%nat by lia. exact Hok.
Qed.

(** ** Events appended by the pieces of a command *)

Lemma emits_ret P {A} (a : A) : emits P (ret a).
Proof. intros w. exists []. simpl. rewrite app_nil_r. auto. Qed.

Lemma emits_fail P {A} err : emits P (@fail World A err).
Proof. intros w. exists []. simpl. rewrite app_nil_r. auto. Qed.

Lemma emits_lift P {A} (r : result A) : emits P (lift r).
Proof. intros w. exists []. simpl. rewrite app_nil_r. auto. Qed.

Lemma emits_check P o : emits P (@check World o).
Proof. destruct o; [apply emits_fail | apply emits_ret]. Qed.

Lemma emits_tell (P : Event -> Prop) ev : P ev -> emits P (tell ev).
Proof. intros H w. exists [ev]. simpl. auto. Qed.

Lemma emits_bind P {A B} (m : M A) (k : A -> M B) :
  emits P m -> (forall a, emits P (k a)) -> emits P (bind m k).
Proof.
  intros Hm Hk w. unfold bind. destruct (Hm w) as (evs & He & Hall).
  destruct (m w) as [[a|err] w1]; simpl in *.
  - destruct (Hk a w1) as (evs2 & He2 & Hall2).
    exists (evs ++ evs2). rewrite He2, He, app_assoc. split; [reflexivity|].
    apply Forall_app; auto.
  - exists evs. auto.
Qed.

Lemma emits_wrap P {A} prefix (m : M A) : emits P m -> emits P (wrap prefix m).
Proof.
  intros Hm w. unfold wrap. destruct (Hm w) as (evs & He & Hall).
  destruct (m w) as [[a|err] w1]; simpl in *; exists evs; auto.
Qed.

Lemma emits_defer P {A} (d : M unit) (body : M A) :
  emits P d -> emits P body -> emits P (defer d body).
Proof.
  intros Hd Hb w. unfold defer. destruct (Hb w) as (evs & He & Hall).
  destruct (body w) as [r w1]; simpl in *.
  destruct (Hd w1) as (evs2 & He2 & Hall2).
  exists (evs ++ evs2). rewrite He2, He, app_assoc. split; [reflexivity|].
  apply Forall_app; auto.
Qed.

Lemma emits_when P b (m : M unit) : emits P m -> emits P (when b m).
Proof. intros H. destruct b; [exact H | apply emits_ret]. Qed.

Lemma emits_getViper P : emits P getViper.
Proof. intros w. exists []. simpl. rewrite app_nil_r. auto. Qed.

Lemma emits_ReadInConfig (P : Event -> Prop) e : P EvReadInConfig -> emits P (ReadInConfig e).
Proof.
  intros H w. unfold ReadInConfig, bind, tell. simpl.
  destruct (ReadInConfig_res e (viper w)) as [v err]. simpl.
  exists [EvReadInConfig]. auto.
Qed.

Lemma emits_getConfig (P : Event -> Prop) ctx e :
  P EvGetTLSConfig -> P EvEnableStacks -> emits P (try (getConfig ctx e)).
Proof.
  intros H1 H2 w. unfold try, getConfig. cbv zeta.
  cbn [DBURL].
  destruct (String.eqb (GetString (viper w) "db-url") "").
  - exists []. simpl. rewrite app_nil_r. auto.
  - destruct (snd (getTLSConfig_res e)); cbn [snd fst].
    + exists [EvGetTLSConfig]. simpl. auto.
    + destruct (GetBool (viper w) "stack-traces"); simpl.
      * exists [EvGetTLSConfig; EvEnableStacks]. rewrite <- app_assoc. auto.
      * exists [EvGetTLSConfig]. auto.
Qed.

Lemma emits_flushAll (P : Event -> Prop) exporters :
  (forall x, P (EvFlush x)) -> emits P (flushAll exporters).
Proof.
  intros H. induction exporters as [|x rest IH]; simpl.
  - apply emits_ret.
  - apply emits_bind; [|intros _; exact IH].
    apply emits_when. apply emits_tell. apply H.
Qed.

Ltac emits_step :=
  lazymatch goal with
  | |- emits _ (bind _ _) => apply emits_bind; [|intros]
  | |- emits _ (wrap _ _) => apply emits_wrap
  | |- emits _ (defer _ _) => apply emits_defer
  | |- emits _ (when _ _) => apply emits_when
  | |- emits _ (ret _) => apply emits_ret
  | |- emits _ (fail _) => apply emits_fail
  | |- emits _ (lift _) => apply emits_lift
  | |- emits _ (check _) => apply emits_check
  | |- emits _ getViper => apply emits_getViper
  | |- emits _ (tell _) => apply emits_tell; exact I
  | |- emits _ (ReadInConfig _) => apply emits_ReadInConfig; exact I
  | |- emits _ (try (getConfig _ _)) => apply emits_getConfig; exact I
  | |- emits _ (flushAll _) => apply emits_flushAll; intros; exact I
  | |- emits _ (if ?b then _ else _) => destruct b
  | |- emits _ (match ?r with _ => _ end) => destruct r
  end.

Lemma emits_OpenConnector e name :
  emits opensWithWrappedDriver (OpenConnector e wrappedDriver name).
Proof.
  unfold OpenConnector. apply emits_bind; [|intros _; repeat emits_step].
  apply emits_tell. reflexivity.
Qed.

Lemma RootCmd_opens_with_wrappedDriver ctx e :
  emits opensWithWrappedDriver (RootCmd_RunE ctx e).
Proof.
  unfold RootCmd_RunE.
  repeat first [ apply emits_OpenConnector | emits_step ].
Qed.

(** ** The claims about the command file *)

(** C6. The root command builds its driver with a bound of 10, and every
    connector it opens is opened from that driver.  With the retry loop of
    the spec, that driver makes at most 10 attempts; it stops at the first
    attempt that succeeds; and when the first 10 attempts all fail
    transiently it has made exactly 10 and returns the error of the tenth. *)
Theorem wrappedDriver_retries_at_most_ten_times :
  maxAttempts wrappedDriver = 10
  /\ (forall ctx e, emits opensWithWrappedDriver (RootCmd_RunE ctx e))
  /\ (forall attempt, (snd (withRetry wrappedDriver attempt) <= 10)%nat)
  /\ (forall attempt k,
        (k < 10)%nat ->
        (forall i, (i < k)%nat -> exists x, attempt i = Transient x) ->
        attempt k = Success ->
        withRetry wrappedDriver attempt = (None, S k))
  /\ (forall attempt errAt,
        (forall i, (i < 10)%nat -> attempt i = Transient (errAt i)) ->
        withRetry wrappedDriver attempt = (Some (errAt 9%nat), 10%nat)).
Proof.
  split; [reflexivity|]. split; [exact RootCmd_opens_with_wrappedDriver|].
  split; [|split].
  - intros attempt. unfold withRetry.
    change (Z.to_nat (maxAttempts wrappedDriver)) with 10%nat.
    apply (attemptLoop_bound attempt 10 0).
  - intros attempt k Hk Htr Hok. unfold withRetry.
    change (Z.to_nat (maxAttempts wrappedDriver)) with 10%nat.
    apply (attemptLoop_stops_at_success attempt 10 0 _ k Hk).
    + intros i Hi. apply Htr. lia.
    + exact Hok.
  - intros attempt errAt H. unfold withRetry.
    change (Z.to_nat (maxAttempts wrappedDriver)) with 10%nat.
    rewrite (attemptLoop_all_transient attempt errAt 10 0).
    + reflexivity.
    + intros i Hi. apply H. lia.
Qed.

Lemma wrappedDriver_retries_witness :
  withRetry wrappedDriver (fun _ => Transient (ErrMsg "connection refused"))
  = (Some (ErrMsg "connection refused"), 10%nat).
Proof.
  apply (proj2 (proj2 (proj2 (proj2 wrappedDriver_retries_at_most_ten_times)))
           (fun _ => Transient (ErrMsg "connection refused"))
           (fun _ => ErrMsg "connection refused")).
  intros i Hi. reflexivity.
Defined.

Example eleventh_attempt_is_never_made :
  withRetry wrappedDriver
    (fun i => if (i <? 10)%nat then Transient (ErrMsg "connection refused") else Success)
  = (Some (ErrMsg "connection refused"), 10%nat).
Proof. reflexivity. Qed.

Example third_attempt_connects :
  withRetry wrappedDriver
    (fun i => if (i <? 2)%nat then Transient (ErrMsg "connection refused") else Success)
  = (None, 3%nat).
Proof. reflexivity. Qed.

Example logical_error_is_not_retried :
  withRetry wrappedDriver (fun _ => Logical (ErrMsg "password authentication failed"))
  = (Some (ErrMsg "password authentication failed"), 1%nat).
Proof. reflexivity. Qed.

(** ** Loading the configuration *)

Lemma getConfig_without_db_url ctx e w :
  GetString (viper w) "db-url" = "" ->
  exists cfg, getConfig ctx e w = ((cfg, Some ErrDBRequired), w) /\ DBURL cfg = "".
Proof.
  intros H. unfold getConfig. cbv zeta. cbn [DBURL]. rewrite H. cbn [String.eqb].
  eexists. split; reflexivity.
Qed.

Lemma try_getConfig_without_db_url ctx e w :
  GetString (viper w) "db-url" = "" ->
  try (getConfig ctx e) w = (Err ErrDBRequired, w).
Proof.
  intros H. unfold try.
  destruct (getConfig_without_db_url ctx e w H) as (cfg & -> & _). reflexivity.
Qed.

(** ** Running the root command step by step *)

Lemma bind_ok {W A B} (m : Go.M W A) (k : A -> Go.M W B) w a w1 :
  m w = (Ok a, w1) -> bind m k w = k a w1.
Proof. intros H. unfold bind. rewrite H. reflexivity. Qed.

Lemma bind_err {W A B} (m : Go.M W A) (k : A -> Go.M W B) w err w1 :
  m w = (Err err, w1) -> bind m k w = (Err err, w1).
Proof. intros H. unfold bind. rewrite H. reflexivity. Qed.

Lemma when_tell_run b ev w :
  when b (tell ev) w
  = (Ok tt, {| viper := viper w; events := events w ++ (if b then [ev] else []) |}).
Proof. destruct b; simpl; [reflexivity|]. rewrite app_nil_r. destruct w; reflexivity. Qed.

Lemma ReadInConfig_run e w :
  ReadInConfig e w
  = (Ok (snd (ReadInConfig_res e (viper w))),
     {| viper := fst (ReadInConfig_res e (viper w));
        events := events w ++ [EvReadInConfig] |}).
Proof.
  unfold ReadInConfig, bind, tell. cbn [viper events].
  destruct (ReadInConfig_res e (viper w)); reflexivity.
Qed.

Lemma tell_run ev w :
  tell ev w = (Ok tt, {| viper := viper w; events := events w ++ [ev] |}).
Proof. reflexivity. Qed.

Ltac finish_run :=
  do 2 eexists; split; [reflexivity|]; split;
  [ destruct (GetBool _ "json"), (GetBool _ "verbose"), (GetBool _ "log-errors-only");
    reflexivity
  | ].

Lemma RootCmd_without_db_url ctx e w0 :
  GetString (fst (ReadInConfig_res e (viper w0))) "db-url" = "" ->
  exists err evs,
    RootCmd_RunE ctx e w0
    = (Err err, {| viper := fst (ReadInConfig_res e (viper w0));
                   events := events w0 ++ evs |})
    /\ existsb startsServer evs = false
    /\ ((forall x, snd (ReadInConfig_res e (viper w0)) = Some x ->
                   isCfgNotFound x = true) ->
        initPromServer_err e = None -> err = ErrDBRequired).
Proof.
  intros Hurl. unfold RootCmd_RunE.
  rewrite (bind_ok getViper _ w0 (viper w0) w0) by reflexivity.
  rewrite (bind_ok _ _ _ _ _ (when_tell_run _ _ _)).
  rewrite (bind_ok _ _ _ _ _ (when_tell_run _ _ _)).
  rewrite (bind_ok _ _ _ _ _ (when_tell_run _ _ _)).
  cbn [viper events].
  rewrite (bind_ok _ _ _ _ _ (ReadInConfig_run _ _)). cbn [viper events].
  repeat rewrite <- app_assoc.
  destruct (snd (ReadInConfig_res e (viper w0))) as [x|] eqn:Hread.
  - destruct (isCfgNotFound x) eqn:Hnf; cbn [negb].
    + rewrite (bind_ok (check None) _ _ tt _) by reflexivity.
      rewrite (bind_ok _ _ _ _ _ (tell_run _ _)). cbn [viper events].
      repeat rewrite <- app_assoc.
      destruct (initPromServer_err e) as [perr|].
      * rewrite (bind_err (check (Some perr)) _ _ perr _) by reflexivity.
        finish_run. intros _ Hp. discriminate.
      * rewrite (bind_ok (check None) _ _ tt _) by reflexivity.
        erewrite bind_err by (apply try_getConfig_without_db_url; exact Hurl).
        finish_run. reflexivity.
    + rewrite (bind_err (check (Some _)) _ _ _ _) by reflexivity.
      finish_run. intros Hok _. specialize (Hok x eq_refl). congruence.
  - rewrite (bind_ok (check None) _ _ tt _) by reflexivity.
    rewrite (bind_ok _ _ _ _ _ (tell_run _ _)). cbn [viper events].
    repeat rewrite <- app_assoc.
    destruct (initPromServer_err e) as [perr|].
    * rewrite (bind_err (check (Some perr)) _ _ perr _) by reflexivity.
      finish_run. intros _ Hp. discriminate.
    * rewrite (bind_ok (check None) _ _ tt _) by reflexivity.
      erewrite bind_err by (apply try_getConfig_without_db_url; exact Hurl).
      finish_run. reflexivity.
Qed.

(** C7. With an empty db-url, [getConfig] returns [ErrDBRequired], the
    field error on "db-url" with reason "is required", and touches
    nothing.  The root command, run from settings whose configuration
    file leaves db-url empty, returns an error and never reaches [NewApp]
    or [Run]; when reading the configuration file and starting the
    Prometheus server did not fail first, the error it returns is
    [ErrDBRequired] itself, unwrapped. *)
Theorem empty_db_url_is_refused ctx e w w0 :
  GetString (viper w) "db-url" = "" ->
  fst (ReadInConfig_res e (viper w0)) = viper w ->
  (exists cfg, getConfig ctx e w = ((cfg, Some ErrDBRequired), w))
  /\ ErrDBRequired = ErrField "db-url" "is required"
  /\ (exists err,
        fst (RootCmd_RunE ctx e w0) = Err err
        /\ ((forall x, snd (ReadInConfig_res e (viper w0)) = Some x ->
                       isCfgNotFound x = true) ->
            initPromServer_err e = None ->
            err = ErrDBRequired))
  /\ exists evs,
       events (snd (RootCmd_RunE ctx e w0)) = events w0 ++ evs
       /\ existsb startsServer evs = false.
Proof.
  intros Hurl Hread.
  split.
  { destruct (getConfig_without_db_url ctx e w Hurl) as (cfg & Hc & _). eauto. }
  split; [reflexivity|].
  rewrite <- Hread in Hurl.
  destruct (RootCmd_without_db_url ctx e w0 Hurl) as (err & evs & Heq & Hno & Herr).
  rewrite Heq. split.
  - exists err. split; [reflexivity | exact Herr].
  - exists evs. split; [reflexivity | exact Hno].
Qed.

Lemma empty_db_url_witness :
  GetString (viper (worldWith "")) "db-url" = ""
  /\ fst (RootCmd_RunE sampleContext (envOf chicago) (worldWith "")) = Err ErrDBRequired.
Proof.
  split; [reflexivity|].
  destruct (empty_db_url_is_refused sampleContext (envOf chicago)
              (worldWith "") (worldWith "") eq_refl eq_refl)
    as (_ & _ & (err & Hfst & Herr) & _).
  rewrite Hfst. f_equal. apply Herr; [|reflexivity].
  intros x Hx. inversion Hx. reflexivity.
Defined.

Example server_starts_with_db_url :
  fst (RootCmd_RunE sampleContext (envOf chicago)
                    (worldWith "postgres://goalert@localhost/goalert")) = Ok tt
  /\ map startsServer
       (events (snd (RootCmd_RunE sampleContext (envOf chicago)
                                  (worldWith "postgres://goalert@localhost/goalert"))))
     = [ false; false; false; false; false; false; true; false; false; true ].
Proof. split; vm_compute; reflexivity. Qed.

(** ** The self-test *)

Lemma alwaysFails_bind {A B} (m : M A) (k : A -> M B) :
  (forall a, alwaysFails (k a)) -> alwaysFails (bind m k).
Proof.
  intros Hk w. unfold bind. destruct (m w) as [[a|err] w1].
  - apply Hk.
  - exists err. reflexivity.
Qed.

(** Once the daylight-saving check has failed, the self-test fails,
    whatever the other checks gave. *)
Lemma failed_dstCheck_fails_selftest ctx offlineOnly e x :
  dstCheck e = Some x -> alwaysFails (testCmd_RunE ctx offlineOnly e).
Proof.
  intros Hdst. unfold testCmd_RunE.
  apply alwaysFails_bind; intros failed0.
  apply alwaysFails_bind; intros [cf err].
  apply alwaysFails_bind; intros _.
  apply alwaysFails_bind; intros [cfg failed1].
  apply alwaysFails_bind; intros failed2.
  rewrite Hdst. unfold report.
  intros w. unfold bind, tell, ret, fail. simpl. eexists. reflexivity.
Qed.

Lemma offset_test (offset want : Z) : negb (offset =? want) = false <-> offset = want.
Proof.
  rewrite negb_false_iff. apply Z.eqb_eq.
Qed.

(** C8. The daylight-saving check returns nil exactly when the location
    America/Chicago loads and, in it, the offset at 2020-03-08 00:00 is
    -21600, three hours later -18000, at 2020-11-01 00:00 -18000 and three
    hours later -21600.  In every other case the check returns an error,
    and then the self-test returns an error as well. *)
Theorem dstCheck_passes_exactly_on_chicago_rules e :
  (dstCheck e = None <->
   exists loc,
     LoadLocation e "America/Chicago" = Ok loc
     /\ gotime.Zone (gotime.Date 2020 gotime.March 8 0 0 0 loc) = -21600
     /\ gotime.Zone (gotime.Add (gotime.Date 2020 gotime.March 8 0 0 0 loc)
                                (3 * gotime.Hour)) = -18000
     /\ gotime.Zone (gotime.Date 2020 gotime.November 1 0 0 0 loc) = -18000
     /\ gotime.Zone (gotime.Add (gotime.Date 2020 gotime.November 1 0 0 0 loc)
                                (3 * gotime.Hour)) = -21600)
  /\ (forall ctx offlineOnly w,
        dstCheck e <> None ->
        exists err, fst (testCmd_RunE ctx offlineOnly e w) = Err err).
Proof.
  split.
  - unfold dstCheck. cbv zeta.
    destruct (LoadLocation e "America/Chicago") as [loc|err].
    + fold standardOffset daylightOffset.
      destruct (negb (gotime.Zone (gotime.Date 2020 gotime.March 8 0 0 0 loc)
                      =? standardOffset)) eqn:H1.
      { split; [discriminate|]. intros (loc' & Hl & Ha & _).
        inversion Hl; subst loc'. apply offset_test in Ha. congruence. }
      destruct (negb (gotime.Zone (gotime.Add (gotime.Date 2020 gotime.March 8 0 0 0 loc)
                                              (3 * gotime.Hour))
                      =? daylightOffset)) eqn:H2.
      { split; [discriminate|]. intros (loc' & Hl & _ & Ha & _).
        inversion Hl; subst loc'. apply offset_test in Ha. congruence. }
      destruct (negb (gotime.Zone (gotime.Date 2020 gotime.November 1 0 0 0 loc)
                      =? daylightOffset)) eqn:H3.
      { split; [discriminate|]. intros (loc' & Hl & _ & _ & Ha & _).
        inversion Hl; subst loc'. apply offset_test in Ha. congruence. }
      destruct (negb (gotime.Zone (gotime.Add
                                     (gotime.Date 2020 gotime.November 1 0 0 0 loc)
                                     (3 * gotime.Hour))
                      =? standardOffset)) eqn:H4.
      { split; [discriminate|]. intros (loc' & Hl & _ & _ & _ & Ha).
        inversion Hl; subst loc'. apply offset_test in Ha. congruence. }
      split; [|reflexivity]. intros _. exists loc.
      apply offset_test in H1, H2, H3, H4. auto.
    + split; [discriminate|]. intros (loc & Hl & _). discriminate.
  - intros ctx offlineOnly w Hne.
    destruct (dstCheck e) as [x|] eqn:Hd; [|congruence].
    apply (failed_dstCheck_fails_selftest ctx offlineOnly e x Hd).
Qed.

Lemma dstCheck_failure_witness :
  dstCheck (envOf chicagoWithoutDST) <> None
  /\ exists err,
       fst (testCmd_RunE sampleContext true (envOf chicagoWithoutDST) (worldWith ""))
       = Err err.
Proof.
  split; [vm_compute; discriminate|].
  apply (proj2 (dstCheck_passes_exactly_on_chicago_rules (envOf chicagoWithoutDST))).
  vm_compute. discriminate.
Defined.

Example dstCheck_passes_on_chicago : dstCheck (envOf chicago) = None.
Proof. vm_compute. reflexivity. Qed.

Example chicago_offsets :
  gotime.unix (gotime.Date 2020 gotime.March 8 0 0 0 chicago) = 1583647200
  /\ gotime.unix (gotime.Date 2020 gotime.November 1 0 0 0 chicago) = 1604206800.
Proof. split; vm_compute; reflexivity. Qed.

Example dstCheck_fails_without_daylight_time :
  dstCheck (envOf chicagoWithoutDST)
  = Some (ErrFormat "invalid offset: got %d; want %d" [ArgInt (-21600); ArgInt (-18000)]).
Proof. vm_compute. reflexivity. Qed.

Example selftest_passes_offline :
  fst (testCmd_RunE sampleContext true (envOf chicago) (worldWith "")) = Ok tt
  /\ events (snd (testCmd_RunE sampleContext true (envOf chicago) (worldWith "")))
     = [EvPrintOK "Version"; EvPrintOK "DST Rules"].
Proof. split; vm_compute; reflexivity. Qed.

Example selftest_fails_without_daylight_time :
  fst (testCmd_RunE sampleContext true (envOf chicagoWithoutDST) (worldWith ""))
  = Err (ErrMsg "one or more checks failed.").
Proof. vm_compute. reflexivity. Qed.

End AppFacts.

(** * Further properties of the metrics-manager cycle *)

Module MetricsMore.

Import metricsmanager metricsvocab MetricsFacts.


Lemma errors_Is_unfold err target :
  errors_Is err target
  = error_eqb err target
    || match err with
       | ErrWrap _ inner => errors_Is inner target
       | _ => false
       end.
Proof. destruct err; reflexivity. Qed.



(** ** How the two cycles compose in [UpdateAll] *)

(** X1. With the System permission and a successful [UpdateAlertMetrics],
    [UpdateAll] is [UpdateDailyAlertMetrics] run in the world the first cycle
    left: same result, same final world.  When the second transaction begins
    and loads, its query is asked with the LastMetricsDate the first cycle
    did not touch and the LastLogTime the first cycle has just committed. *)
Theorem UpdateAll_feeds_new_cursor_to_daily_cycle ctx ea ed w w1 :
  System ctx = true ->
  UpdateAlertMetrics ea w = (Ok tt, w1) ->
  fst (UpdateAll ctx ea ed w) = fst (UpdateDailyAlertMetrics ed w1)
  /\ snd (UpdateAll ctx ea ed w) = snd (UpdateDailyAlertMetrics ed w1)
  /\ (beginTx_err (daily_tx ed) = None ->
      load_err (daily_tx ed) = None ->
      exists evs,
        trace (snd (UpdateAll ctx ea ed w)) = trace w1 ++ evs
        /\ In (EvNextDailyMetricsDate
                 (LastMetricsDate (stateBlob (persisted w)))
                 (LastLogTime (stateBlob (persisted w1)))) evs).
Proof.
  intros Hs Hok.
  assert (Hall : UpdateAll ctx ea ed w
                 = bind (UpdateDailyAlertMetrics ed) (fun _ => ret tt) w1).
  { unfold UpdateAll, LimitCheckAny. simpl. rewrite Hs. simpl.
    unfold bind at 1. unfold check, ret. unfold bind at 1. rewrite Hok. reflexivity. }
  rewrite Hall. unfold bind at 1 2 3.
  assert (Hlmd : LastMetricsDate (stateBlob (persisted w1))
                 = LastMetricsDate (stateBlob (persisted w))).
  { apply UpdateAlertMetrics_ok in Hok. destruct Hok as (bound & rows & _ & _ & Hp & _).
    rewrite Hp. destruct rows; reflexivity. }
  rewrite <- Hlmd.
  destruct (UpdateDailyAlertMetrics ed w1) as [[[]|err] w2] eqn:Hd; simpl.
  - split; [reflexivity|]. split; [reflexivity|]. intros _ _.
    apply UpdateDailyAlertMetrics_ok in Hd. simpl in Hd.
    destruct Hd as (_ & _ & evs & Ht & Hin & _). exists evs. auto.
  - split; [reflexivity|]. split; [reflexivity|]. intros Hb Hl.
    revert Hd. destruct ed as [[b l s c] q ins]. simpl in Hb, Hl. subst b l.
    unfold_go. simpl.
    destruct (q _ _) as [nd|x]; simpl.
    + destruct (Valid nd); simpl; destruct ins; simpl; destruct s; simpl;
        destruct c; simpl; intros H; inversion H; subst; simpl;
        repeat rewrite <- app_assoc; simpl;
        (eexists; split; [reflexivity|]; simpl; auto 10).
    + destruct (errors_Is x ErrNoRows); simpl; destruct c; simpl;
        intros H; inversion H; subst; simpl;
        repeat rewrite <- app_assoc; simpl;
        (eexists; split; [reflexivity|]; simpl; auto 10).
Qed.

Lemma UpdateAll_feeds_new_cursor_witness :
  exists evs,
    trace (snd (UpdateAll systemContext (alertEnvOf 500 sampleLogs 200)
                          (dailyEnvOf sampleClosedAt) (worldOf sampleState)))
    = trace (snd (UpdateAlertMetrics (alertEnvOf 500 sampleLogs 200)
                                     (worldOf sampleState))) ++ evs
    /\ In (EvNextDailyMetricsDate 0 150) evs.
Proof.
  apply (UpdateAll_feeds_new_cursor_to_daily_cycle
           systemContext (alertEnvOf 500 sampleLogs 200) (dailyEnvOf sampleClosedAt)
           (worldOf sampleState)
           (snd (UpdateAlertMetrics (alertEnvOf 500 sampleLogs 200)
                                    (worldOf sampleState)))
           eq_refl eq_refl); reflexivity.
Defined.

(** ** What each cycle leaves alone *)

Ltac done_stmts :=
  repeat rewrite <- app_assoc; simpl;
  first [ eexists; split; [reflexivity | repeat constructor]
        | exists []; split; [rewrite app_nil_r; reflexivity | constructor] ].

Lemma UpdateAlertMetrics_keeps_daily_cursor e w :
  LastMetricsDate (stateBlob (persisted (snd (UpdateAlertMetrics e w))))
  = LastMetricsDate (stateBlob (persisted w))
  /\ exists stmts,
       executed (persisted (snd (UpdateAlertMetrics e w)))
       = executed (persisted w) ++ stmts
       /\ Forall (fun st => isInsertMetrics st = true) stmts.
Proof.
  destruct e as [[b l s c] bn scan ins]. unfold_go. simpl.
  destruct b; simpl; [split; [reflexivity|done_stmts]|].
  destruct l; simpl; [split; [reflexivity|done_stmts]|].
  destruct bn as [bound|]; simpl; [|split; [reflexivity|done_stmts]].
  destruct (scan _ _ bound) as [rows|]; simpl; [|split; [reflexivity|done_stmts]].
  destruct (scanRows rows [] zeroTime 0) as [[[ids t'] i']|]; simpl;
    [|split; [reflexivity|done_stmts]].
  destruct (0 <? Z.of_nat (List.length ids)); simpl;
    destruct ins; simpl; destruct s; simpl; destruct c; simpl;
    (split; [reflexivity|done_stmts]).
Qed.

Lemma UpdateDailyAlertMetrics_keeps_log_cursor e w :
  cursor (stateBlob (persisted (snd (UpdateDailyAlertMetrics e w))))
  = cursor (stateBlob (persisted w))
  /\ exists stmts,
       executed (persisted (snd (UpdateDailyAlertMetrics e w)))
       = executed (persisted w) ++ stmts
       /\ Forall (fun st => isInsertDailyMetrics st = true) stmts.
Proof.
  destruct e as [[b l s c] q ins]. unfold_go. simpl.
  destruct b; simpl; [split; [reflexivity|done_stmts]|].
  destruct l; simpl; [split; [reflexivity|done_stmts]|].
  destruct (q _ _) as [nd|x]; simpl.
  - destruct (Valid nd); simpl;
      destruct ins; simpl; destruct s; simpl; destruct c; simpl;
      (split; [reflexivity|done_stmts]).
  - destruct (errors_Is x ErrNoRows); simpl; destruct c; simpl;
      (split; [reflexivity|done_stmts]).
Qed.

(** X2. Whatever the database answers and however the call ends,
    [UpdateAlertMetrics] leaves LastMetricsDate as it was and adds to the
    committed statements nothing but its own insert, and
    [UpdateDailyAlertMetrics] leaves (LastLogTime, LastLogID) as it was and
    adds nothing but its own insert; neither removes a committed statement. *)
Theorem each_cycle_moves_only_its_own_cursor c w :
  exists stmts,
    executed (persisted (snd (runCycle c w))) = executed (persisted w) ++ stmts
    /\ match c with
       | AlertCycle _ =>
           LastMetricsDate (stateBlob (persisted (snd (runCycle c w))))
           = LastMetricsDate (stateBlob (persisted w))
           /\ Forall (fun st => isInsertMetrics st = true) stmts
       | DailyCycle _ =>
           cursor (stateBlob (persisted (snd (runCycle c w))))
           = cursor (stateBlob (persisted w))
           /\ Forall (fun st => isInsertDailyMetrics st = true) stmts
       end.
Proof.
  destruct c as [e|e]; simpl.
  - destruct (UpdateAlertMetrics_keeps_daily_cursor e w) as (H & stmts & He & Hall).
    exists stmts. auto.
  - destruct (UpdateDailyAlertMetrics_keeps_log_cursor e w) as (H & stmts & He & Hall).
    exists stmts. auto.
Qed.

(** ** The error a failed cycle returns *)





(** ** A row that cannot be scanned *)

Lemma scanRows_bad_row good bad rest : forall acc t i,
  scanRows (okRows good ++ Err bad :: rest) acc t i = Err (ErrWrap "scan alert id" bad).
Proof.
  induction good as [|r good IH]; simpl; intros; [reflexivity | apply IH].
Qed.

(** X4. When the transaction begins, the state loads and both queries answer,
    but one row of the result set fails to scan, [UpdateAlertMetrics] returns
    that error under "scan alert id": no insert is executed, not even for
    the rows scanned before it, the state is not saved, the result set is
    closed and the transaction rolled back, and the committed database is
    unchanged. *)
Theorem bad_row_discards_the_whole_batch e w bound good bad rest :
  beginTx_err (alert_tx e) = None ->
  load_err (alert_tx e) = None ->
  boundNow_res e = Ok bound ->
  scanLogs_res e (LastLogTime (stateBlob (persisted w)))
                 (LastLogID (stateBlob (persisted w))) bound
  = Ok (okRows good ++ Err bad :: rest) ->
  exists w',
    UpdateAlertMetrics e w = (Err (ErrWrap "scan alert id" bad), w')
    /\ persisted w' = persisted w
    /\ tx w' = None
    /\ trace w' =
         trace w ++ [ EvDebugf "Running alert_metrics operations.";
                      EvBeginTxWithState; EvLoad; EvBoundNow;
                      EvScanLogs (LastLogTime (stateBlob (persisted w)))
                                 (LastLogID (stateBlob (persisted w))) bound;
                      EvRowsClose; EvRollback ].
Proof.
  destruct e as [[b l s c] bn scan ins]. simpl. intros -> -> -> Hscan.
  unfold_go. simpl. rewrite Hscan. simpl. rewrite scanRows_bad_row. simpl.
  eexists. split; [reflexivity|]. simpl. split; [reflexivity|]. split; [reflexivity|].
  repeat rewrite <- app_assoc. reflexivity.
Qed.

Lemma bad_row_witness :
  exists w',
    UpdateAlertMetrics alertEnvBadRow (worldOf sampleState)
    = (Err (ErrWrap "scan alert id" (ErrMsg "converting NULL to int is unsupported")), w')
    /\ persisted w' = persisted (worldOf sampleState)
    /\ tx w' = None
    /\ trace w' =
         [] ++ [ EvDebugf "Running alert_metrics operations.";
                 EvBeginTxWithState; EvLoad; EvBoundNow; EvScanLogs 100 5 200;
                 EvRowsClose; EvRollback ].
Proof.
  apply (bad_row_discards_the_whole_batch
           alertEnvBadRow (worldOf sampleState) 200
           [ {| alert_id := 12; timestamp := 100; log_id := 6 |} ]
           (ErrMsg "converting NULL to int is unsupported")
           [ Ok {| alert_id := 14; timestamp := 150; log_id := 3 |} ]);
    reflexivity.
Defined.

(** ** What a call acquires it releases *)

(** X5. However [UpdateAlertMetrics] ends, with nil or with an error: it has
    closed as many result sets as scan queries gave it one, which is at most
    one; and when the transaction was begun, no transaction is left open and
    the last call made is the deferred [Rollback]. *)
Theorem UpdateAlertMetrics_releases_rows_and_transaction e w :
  exists evs,
    trace (snd (UpdateAlertMetrics e w)) = trace w ++ evs
    /\ List.length (filter isRowsClose evs) = List.length (filter (opensRows e) evs)
    /\ (List.length (filter isRowsClose evs) <= 1)%nat
    /\ (beginTx_err (alert_tx e) = None ->
        tx (snd (UpdateAlertMetrics e w)) = None
        /\ lastEvent evs = Some EvRollback).
Proof.
  destruct e as [[b l s c] bn scan ins]. unfold_go. simpl.
  destruct b; simpl.
  { repeat rewrite <- app_assoc; simpl. eexists; split; [reflexivity|]. simpl.
    split; [reflexivity|]. split; [lia|]. discriminate. }
  destruct l; simpl.
  { repeat rewrite <- app_assoc; simpl. eexists; split; [reflexivity|]. simpl.
    split; [reflexivity|]. split; [lia|]. intros _; split; reflexivity. }
  destruct bn as [bound|]; simpl.
  2:{ repeat rewrite <- app_assoc; simpl. eexists; split; [reflexivity|]. simpl.
      split; [reflexivity|]. split; [lia|]. intros _; split; reflexivity. }
  destruct (scan _ _ bound) as [rows|] eqn:Hscan; simpl.
  2:{ repeat rewrite <- app_assoc; simpl. eexists; split; [reflexivity|]. simpl.
      rewrite Hscan. simpl.
      split; [reflexivity|]. split; [lia|]. intros _; split; reflexivity. }
  destruct (scanRows rows [] zeroTime 0) as [[[ids t'] i']|]; simpl.
  2:{ repeat rewrite <- app_assoc; simpl. eexists; split; [reflexivity|]. simpl.
      rewrite Hscan. simpl.
      split; [reflexivity|]. split; [lia|]. intros _; split; reflexivity. }
  destruct (0 <? Z.of_nat (List.length ids)); simpl;
    destruct ins; simpl; destruct s; simpl; destruct c; simpl;
    repeat rewrite <- app_assoc; simpl; (eexists; split; [reflexivity|]); simpl;
    rewrite Hscan; simpl;
    (split; [reflexivity|]; split; [lia|]; intros _; split; reflexivity).
Qed.

End MetricsMore.

(** * Further properties of the start-up commands *)

Module AppMore.

Import sqldrv app appvocab AppFacts.

Lemma bind_assoc_at {W A B C} (m : Go.M W A) (k : A -> Go.M W B) (h : B -> Go.M W C) w :
  bind (bind m k) h w = bind m (fun a => bind (k a) h) w.
Proof. unfold bind. destruct (m w) as [[a|err] w1]; reflexivity. Qed.

Lemma bind_ext_at {W A B} (m : Go.M W A) (k k' : A -> Go.M W B) w :
  (forall a w1, k a w1 = k' a w1) -> bind m k w = bind m k' w.
Proof. intros H. unfold bind. destruct (m w) as [[a|err] w1]; auto. Qed.

Lemma RootCmd_splits ctx e w :
  RootCmd_RunE ctx e w = bind (RootCmd_toConfig ctx e) (RootCmd_afterConfig e) w.
Proof.
  unfold RootCmd_RunE, RootCmd_toConfig.
  repeat (rewrite bind_assoc_at; apply bind_ext_at; intros).
  reflexivity.
Qed.

Lemma emits_bind_ok P {A B} (m : M A) (k : A -> M B) :
  emits P m -> (forall a w w1, m w = (Ok a, w1) -> emits P (k a)) -> emits P (bind m k).
Proof.
  intros Hm Hk w. unfold bind. destruct (Hm w) as (evs & He & Hall).
  destruct (m w) as [[a|err] w1] eqn:Hmw; simpl in *.
  - destruct (Hk a w w1 Hmw w1) as (evs2 & He2 & Hall2).
    exists (evs ++ evs2). rewrite He2, He, app_assoc. split; [reflexivity|].
    apply Forall_app; auto.
  - exists evs. auto.
Qed.

Lemma wrap_lift_ok {A} prefix (r : result A) a (w w1 : World) :
  wrap prefix (lift r) w = (Ok a, w1) -> r = Ok a.
Proof. unfold wrap, lift. destruct r; intros H; inversion H; reflexivity. Qed.

Lemma wrap_tell_lift_ok {A} prefix ev (r : result A) a (w w1 : World) :
  wrap prefix (tell ev ;; lift r) w = (Ok a, w1) -> r = Ok a.
Proof. unfold wrap, bind, tell, lift. destruct r; intros H; inversion H; reflexivity. Qed.

Lemma wrap_tell_check_ok prefix ev o a (w w1 : World) :
  wrap prefix (tell ev ;; check o) w = (Ok a, w1) -> o = None.
Proof. unfold wrap, bind, tell, check. destruct o; intros H; inversion H; reflexivity. Qed.

Lemma emits_OpenConnector_with (P : Event -> Prop) e d name :
  P (EvOpenConnector d name) -> emits P (OpenConnector e d name).
Proof.
  intros H. unfold OpenConnector. apply emits_bind; [apply emits_tell; exact H|].
  intros _. apply emits_bind; [apply emits_check | intros _; apply emits_ret].
Qed.

Ltac emits_leaf := first [exact I | assumption | reflexivity].

Ltac emits_go :=
  lazymatch goal with
  | |- emits _ (bind _ _) => apply emits_bind; [|intros]
  | |- emits _ (wrap _ _) => apply emits_wrap
  | |- emits _ (defer _ _) => apply emits_defer
  | |- emits _ (when _ _) => apply emits_when
  | |- emits _ (ret _) => apply emits_ret
  | |- emits _ (fail _) => apply emits_fail
  | |- emits _ (lift _) => apply emits_lift
  | |- emits _ (check _) => apply emits_check
  | |- emits _ getViper => apply emits_getViper
  | |- emits _ (tell _) => apply emits_tell; emits_leaf
  | |- emits _ (OpenConnector _ _ _) => apply emits_OpenConnector_with; emits_leaf
  | |- emits _ (ReadInConfig _) => apply emits_ReadInConfig; exact I
  | |- emits _ (try (getConfig _ _)) => apply emits_getConfig; exact I
  | |- emits _ (flushAll _) => apply emits_flushAll; intros; exact I
  | |- emits _ (if ?b then _ else _) => destruct b eqn:?
  | |- emits _ (match ?r with _ => _ end) => destruct r
  end.

Lemma afterConfig_after_migrations e cfg :
  emits (afterMigrations e cfg) (RootCmd_afterConfig e cfg).
Proof.
  unfold RootCmd_afterConfig.
  apply emits_bind; [repeat emits_go | intros exporters].
  apply emits_defer; [repeat emits_go|].
  apply emits_bind_ok; [repeat emits_go | intros u w w1 Hu].
  apply wrap_lift_ok in Hu.
  cbv zeta.
  change (APIOnly (set_DBURL cfg _)) with (APIOnly cfg).
  fold (mainURL e cfg u).
  repeat match goal with
  | |- context [DBURL (set_DBURL cfg ?x)] => change (DBURL (set_DBURL cfg x)) with x
  end.
  apply emits_bind_ok.
  - destruct (APIOnly cfg) eqn:Hapi; repeat emits_go.
  - intros a w2 w3 Hm.
    assert (Hmig : migrated e cfg).
    { exists u. split; [exact Hu|]. destruct (APIOnly cfg) eqn:Hapi.
      - eapply wrap_tell_check_ok; exact Hm.
      - revert Hm. unfold bind at 1.
        destruct (wrap "apply migrations" _ w2) as [[n|err] w4] eqn:Hn; [|discriminate].
        intros _. exists n. eapply wrap_tell_lift_ok; exact Hn. }
    repeat emits_go.
Qed.

Lemma toConfig_before_config ctx e : emits beforeConfig (RootCmd_toConfig ctx e).
Proof. unfold RootCmd_toConfig. repeat emits_go. Qed.

(** X7. The events of the root command split in two.  Before it has a
    configuration it only sets up logging, reads the configuration file,
    starts the Prometheus server and looks at the TLS settings.  After that,
    it opens a connector, creates the switchover handler, builds the app and
    runs it only once the migrations of the main database URL went through;
    in API-only mode it verifies the migrations and never applies them,
    otherwise it applies them and never merely verifies.  Without a
    configuration it does nothing more and returns the error. *)
Theorem RootCmd_migrates_before_it_connects ctx e w :
  exists pre post,
    events (snd (RootCmd_RunE ctx e w)) = events w ++ pre ++ post
    /\ Forall beforeConfig pre
    /\ match fst (RootCmd_toConfig ctx e w) with
       | Ok cfg => Forall (afterMigrations e cfg) post
       | Err err => post = [] /\ fst (RootCmd_RunE ctx e w) = Err err
       end.
Proof.
  rewrite RootCmd_splits. unfold bind.
  destruct (toConfig_before_config ctx e w) as (pre & Hpre & Hall).
  destruct (RootCmd_toConfig ctx e w) as [[cfg|err] w1]; simpl in *.
  - destruct (afterConfig_after_migrations e cfg w1) as (post & Hpost & Hall2).
    exists pre, post. rewrite Hpost, Hpre, app_assoc. auto.
  - exists pre, []. rewrite app_nil_r. auto.
Qed.

Lemma flushAll_run xs : forall w,
  flushAll xs w = (Ok tt, {| viper := viper w; events := events w ++ flushEvents xs |}).
Proof.
  induction xs as [|x xs IH]; intros w.
  - unfold flushEvents. simpl. rewrite app_nil_r. destruct w; reflexivity.
  - simpl. rewrite (bind_ok _ _ _ _ _ (when_tell_run _ _ _)). rewrite IH.
    cbn [viper events]. unfold flushEvents. simpl.
    destruct (isFlusher x); simpl; rewrite <- app_assoc; reflexivity.
Qed.

Lemma defer_flush_events xs (body : M unit) w :
  emits (fun _ => True) body ->
  exists evs,
    events (snd (defer (flushAll xs) body w)) = events w ++ evs ++ flushEvents xs
    /\ fst (defer (flushAll xs) body w) = fst (body w).
Proof.
  intros Hb. unfold defer. destruct (Hb w) as (evs & He & _).
  destruct (body w) as [r w1]. simpl in *. rewrite flushAll_run. simpl.
  exists evs. rewrite He, app_assoc. auto.
Qed.

(** X8. Once tracing is configured, the deferred function runs however the
    root command ends: the last events of the command are the flushes of
    the exporters that can be flushed, one each, in order. *)
Theorem RootCmd_flushes_exporters_on_every_exit ctx e w cfg xs :
  fst (RootCmd_toConfig ctx e w) = Ok cfg ->
  configTracing_res e cfg = Ok xs ->
  exists evs,
    events (snd (RootCmd_RunE ctx e w)) = events w ++ evs ++ flushEvents xs
    /\ In EvConfigTracing evs.
Proof.
  intros Hcfg Hx. rewrite RootCmd_splits. unfold bind at 1.
  destruct (toConfig_before_config ctx e w) as (pre & Hpre & _).
  destruct (RootCmd_toConfig ctx e w) as [[cfg'|err] w1]; simpl in Hcfg; [|discriminate].
  inversion Hcfg; subst cfg'. simpl in Hpre.
  unfold RootCmd_afterConfig.
  erewrite bind_ok by (unfold wrap, bind, tell, lift; rewrite Hx; reflexivity).
  match goal with
  | |- context [defer (flushAll xs) ?b ?w0] =>
      destruct (defer_flush_events xs b w0) as (evs & He & _);
      [repeat emits_go|]
  end.
  rewrite He. cbn [events]. rewrite Hpre.
  exists (pre ++ EvConfigTracing :: evs). split.
  - repeat rewrite <- app_assoc. reflexivity.
  - apply in_or_app. right. left. reflexivity.
Qed.




Lemma getConfig_cases ctx e w :
  exists cfg err evs,
    getConfig ctx e w = ((cfg, err), {| viper := viper w; events := events w ++ evs |})
    /\ DBURL cfg = GetString (viper w) "db-url"
    /\ DBURLNext cfg = GetString (viper w) "db-url-next"
    /\ (GetString (viper w) "db-url" = "" ->
        err = Some ErrDBRequired /\ evs = [] /\ TLSConfig_ cfg = None)
    /\ (GetString (viper w) "db-url" <> "" ->
        err = snd (getTLSConfig_res e)
        /\ TLSConfig_ cfg = fst (getTLSConfig_res e)
        /\ evs = EvGetTLSConfig
                 :: (if GetBool (viper w) "stack-traces"
                     then match snd (getTLSConfig_res e) with
                          | None => [EvEnableStacks]
                          | Some _ => []
                          end
                     else [])).
Proof.
  unfold getConfig. cbv zeta. cbn [DBURL].
  destruct (String.eqb_spec (GetString (viper w) "db-url") "") as [Heq|Hne].
  - do 3 eexists. split.
    + rewrite app_nil_r. destruct w; reflexivity.
    + cbn [DBURL DBURLNext TLSConfig_]. repeat split; auto; congruence.
  - destruct (snd (getTLSConfig_res e)) as [x|] eqn:Htls.
    + do 3 eexists. split; [reflexivity|].
      cbn [DBURL DBURLNext TLSConfig_ set_TLSConfig update].
      repeat split; auto; try congruence.
      destruct (GetBool (viper w) "stack-traces"); reflexivity.
    + destruct (GetBool (viper w) "stack-traces") eqn:Hst.
      * do 3 eexists. split; [simpl; rewrite <- app_assoc; reflexivity|].
        cbn [DBURL DBURLNext TLSConfig_ set_TLSConfig update]. repeat split; auto; congruence.
      * do 3 eexists. split; [reflexivity|].
        cbn [DBURL DBURLNext TLSConfig_ set_TLSConfig update]. repeat split; auto; congruence.
Qed.

Lemma after_after w a b : after (after w a) b = after w (a ++ b).
Proof. unfold after. cbn [viper events]. rewrite app_assoc. reflexivity. Qed.

Lemma report_run name err failed w :
  report name err failed w
  = (Ok (failed || match err with Some _ => true | None => false end),
     after w [reportEvent name err]).
Proof.
  destruct err; unfold report, bind, tell, ret, after; simpl.
  - rewrite orb_true_r. reflexivity.
  - rewrite orb_false_r. reflexivity.
Qed.

Lemma checkServices_run e l : forall failed w,
  exists evs f,
    checkServices e l failed w = (Ok f, after w evs)
    /\ f = failed || existsb isFail evs
    /\ existsb touchesDB evs = false
    /\ (l = [] -> evs = []).
Proof.
  induction l as [|s rest IH]; intros failed w.
  - exists [], failed. simpl. unfold ret, after. rewrite app_nil_r, orb_false_r.
    destruct w; auto.
  - simpl. rewrite (bind_ok _ _ _ _ _ (tell_run _ _)).
    rewrite (bind_ok _ _ _ _ _ (report_run _ _ _ _)).
    rewrite (bind_ok _ _ _ _ _ (when_tell_run _ _ _)).
    match goal with
    | |- context [checkServices e rest ?f ?w0] =>
        destruct (IH f w0) as (evs & f' & He & Hf & Hdb & _)
    end.
    rewrite He. unfold after. cbn [viper events]. repeat rewrite <- app_assoc.
    eexists _, f'. split; [reflexivity|]. subst f'.
    destruct (http_Get_err e (baseUrl s)) as [x|]; simpl;
      (split; [destruct failed; reflexivity|]); (split; [exact Hdb | discriminate]).
Qed.

Lemma dbCheck_run e cf failed w :
  exists cfg evs f,
    match loadConfigDB e cf w with
    | (Ok cfg, w') =>
        (failed <- report "DB" None failed ;; ret (cfg, failed)) w'
    | (Err x, w') =>
        (failed <- report "DB" (Some x) failed ;; ret (zeroStoreConfig, failed)) w'
    end
    = (Ok (cfg, f), after w evs)
    /\ f = failed || existsb isFail evs.
Proof.
  unfold loadConfigDB, report, wrap, bind, tell, check, lift, ret, after.
  cbn [viper events].
  destruct (sqlOpen_err e (DBURL cf)) as [x|]; simpl.
  { repeat rewrite <- app_assoc.
    do 3 eexists. split; [reflexivity|]. simpl. destruct failed; reflexivity. }
  destruct (NewStore_res e) as [cfg|x]; simpl.
  - repeat rewrite <- app_assoc.
    do 3 eexists. split; [reflexivity|]. simpl. destruct failed; reflexivity.
  - repeat rewrite <- app_assoc.
    do 3 eexists. split; [reflexivity|]. simpl. destruct failed; reflexivity.
Qed.

Lemma getConfig_quiet ctx e w :
  exists cfg err evs,
    getConfig ctx e w = ((cfg, err), after w evs)
    /\ DBURL cfg = GetString (viper w) "db-url"
    /\ err = snd (fst (getConfig ctx e w))
    /\ existsb isFail evs = false
    /\ existsb reachesOut evs = false
    /\ existsb touchesDB evs = false.
Proof.
  destruct (getConfig_cases ctx e w) as (cfg & err & evs & Hg & Hurl & _ & He & Hne).
  exists cfg, err, evs. rewrite Hg. split; [reflexivity|]. split; [exact Hurl|].
  split; [reflexivity|].
  destruct (String.eqb_spec (GetString (viper w) "db-url") "") as [Heq|Hneq].
  - destruct (He Heq) as (_ & -> & _). auto.
  - destruct (Hne Hneq) as (_ & _ & ->).
    destruct (GetBool (viper w) "stack-traces"); [destruct (snd (getTLSConfig_res e))|];
      auto.
Qed.

Lemma getConfig_sees_only_viper ctx e w w0 :
  viper w0 = viper w ->
  snd (fst (getConfig ctx e w0)) = snd (fst (getConfig ctx e w)).
Proof.
  intros Hv. unfold getConfig. cbv zeta. cbn [DBURL]. rewrite Hv.
  destruct (String.eqb (GetString (viper w) "db-url") ""); [reflexivity|].
  destruct (snd (getTLSConfig_res e)); reflexivity.
Qed.

Lemma version_run e w :
  exists evs f,
    (if nonEmpty (AppVersion e)
     then
       report "Version"
         (if negb (String.eqb (GitVersion e) (AppVersion e))
          then Some (ErrFormat
                       "mismatch: backend version = '%s'; bundled UI version = '%s'"
                       [ArgStr (GitVersion e); ArgStr (AppVersion e)])
          else None)
         false
     else ret false) w
    = (Ok f, after w evs)
    /\ f = existsb isFail evs
    /\ existsb reachesOut evs = false
    /\ existsb touchesDB evs = false.
Proof.
  destruct (nonEmpty (AppVersion e)).
  - rewrite report_run.
    destruct (negb (String.eqb (GitVersion e) (AppVersion e)));
      do 2 eexists; (split; [reflexivity|]); simpl; auto.
  - exists [], false. unfold ret, after. rewrite app_nil_r. destruct w; auto.
Qed.

Lemma testCmd_splits ctx offline e w :
  testCmd_RunE ctx offline e w
  = (failed <- testCmd_version e ;;
     r <- (fun w => let (r, w') := getConfig ctx e w in (Ok r, w')) ;;
     check (match snd r with
            | Some x => if errors_Is x ErrDBRequired then None else Some x
            | None => None
            end) ;;
     testCmd_afterConfig e offline (fst r) failed) w.
Proof.
  unfold testCmd_RunE, testCmd_version.
  apply bind_ext_at; intros failed w1.
  apply bind_ext_at; intros [cf err] w2. reflexivity.
Qed.

Lemma afterConfig_run e offline cf f1 w :
  exists evs,
    snd (testCmd_afterConfig e offline cf f1 w) = after w evs
    /\ (fst (testCmd_afterConfig e offline cf f1 w) = Ok tt ->
        f1 = false /\ existsb isFail evs = false)
    /\ (forall err,
          fst (testCmd_afterConfig e offline cf f1 w) = Err err ->
          err = checksFailed /\ f1 || existsb isFail evs = true)
    /\ (nonEmpty (DBURL cf) && negb offline = false -> existsb touchesDB evs = false)
    /\ (offline = true -> existsb reachesOut evs = false).
Proof.
  unfold testCmd_afterConfig.
  assert (Hdb : exists cfg evs4 f4,
             (if nonEmpty (DBURL cf) && negb offline
              then
                fun w0 : World =>
                  match loadConfigDB e cf w0 with
                  | (Ok cfg, w') =>
                      (failed <- report "DB" None f1 ;; ret (cfg, failed)) w'
                  | (Err x, w') =>
                      (failed <- report "DB" (Some x) f1 ;; ret (zeroStoreConfig, failed)) w'
                  end
              else ret (zeroStoreConfig, f1)) w
             = (Ok (cfg, f4), after w evs4)
             /\ f4 = f1 || existsb isFail evs4
             /\ (nonEmpty (DBURL cf) && negb offline = false -> evs4 = [])).
  { destruct (nonEmpty (DBURL cf) && negb offline).
    - destruct (dbCheck_run e cf f1 w) as (cfg & evs4 & f4 & H & Hf).
      exists cfg, evs4, f4. split; [exact H|]. split; [exact Hf | discriminate].
    - exists zeroStoreConfig, [], f1. unfold ret, after. rewrite app_nil_r, orb_false_r.
      destruct w; auto. }
  destruct Hdb as (cfg & evs4 & f4 & Hdb & Hf4 & Hnil4).
  rewrite (bind_ok _ _ _ _ _ Hdb). cbv beta iota zeta.
  match goal with
  | |- context [bind (checkServices e ?l ?f) _ ?w0] =>
      destruct (checkServices_run e l f w0) as (evs5 & f5 & H5 & Hf5 & Hd5 & Hnil5)
  end.
  rewrite (bind_ok _ _ _ _ _ H5).
  rewrite (bind_ok _ _ _ _ _ (report_run _ _ _ _)).
  rewrite !after_after.
  assert (Hout : offline = true -> existsb reachesOut (evs4 ++ evs5) = false).
  { intros ->. rewrite Hnil4 by apply andb_false_r. rewrite Hnil5 by reflexivity.
    reflexivity. }
  assert (Hdbq : nonEmpty (DBURL cf) && negb offline = false ->
                 existsb touchesDB (evs4 ++ evs5) = false).
  { intros Hc. rewrite (Hnil4 Hc). exact Hd5. }
  destruct (f5 || match dstCheck e with Some _ => true | None => false end) eqn:Hfin.
  - exists (evs4 ++ evs5 ++ [reportEvent "DST Rules" (dstCheck e); EvSilenceUsage]).
    unfold bind, tell, fail, after. cbn [fst snd viper events].
    repeat rewrite <- app_assoc. cbn [app].
    split; [reflexivity|]. split; [discriminate|]. split.
    + intros err H. inversion H; subst. split; [reflexivity|].
      rewrite !existsb_app. subst.
      destruct f1, (existsb isFail evs4), (existsb isFail evs5), (dstCheck e);
        simpl in *; auto; discriminate.
    + split.
      * intros Hc. rewrite app_assoc, existsb_app, (Hdbq Hc).
        destruct (dstCheck e); reflexivity.
      * intros Ho. rewrite app_assoc, existsb_app, (Hout Ho).
        destruct (dstCheck e); reflexivity.
  - exists (evs4 ++ evs5 ++ [reportEvent "DST Rules" (dstCheck e)]).
    unfold ret, after. cbn [fst snd viper events].
    repeat rewrite <- app_assoc. cbn [app].
    split; [reflexivity|]. split.
    + intros _. rewrite !existsb_app. subst.
      destruct f1, (existsb isFail evs4), (existsb isFail evs5), (dstCheck e);
        simpl in *; auto; discriminate.
    + split; [discriminate|]. split.
      * intros Hc. rewrite app_assoc, existsb_app, (Hdbq Hc).
        destruct (dstCheck e); reflexivity.
      * intros Ho. rewrite app_assoc, existsb_app, (Hout Ho).
        destruct (dstCheck e); reflexivity.
Qed.

Lemma selftest_core ctx offline e w :
  exists evs,
    snd (testCmd_RunE ctx offline e w) = after w evs
    /\ (fst (testCmd_RunE ctx offline e w) = Ok tt -> existsb isFail evs = false)
    /\ (forall err,
          fst (testCmd_RunE ctx offline e w) = Err err ->
          (err = checksFailed /\ existsb isFail evs = true)
          \/ (snd (fst (getConfig ctx e w)) = Some err
              /\ errors_Is err ErrDBRequired = false
              /\ existsb touchesDB evs = false))
    /\ (nonEmpty (GetString (viper w) "db-url") && negb offline = false ->
        existsb touchesDB evs = false)
    /\ (offline = true -> existsb reachesOut evs = false).
Proof.
  rewrite testCmd_splits.
  destruct (version_run e w) as (evs1 & f1 & Hv & Hf1 & Hr1 & Hd1).
  fold (testCmd_version e) in Hv.
  rewrite (bind_ok _ _ _ _ _ Hv).
  destruct (getConfig_quiet ctx e (after w evs1))
    as (cf & err & evs0 & Hg & Hurl & Herr & Hq0 & Hr0 & Hd0).
  rewrite (getConfig_sees_only_viper ctx e w (after w evs1) eq_refl) in Herr.
  erewrite bind_ok by (cbv beta; rewrite Hg; reflexivity).
  rewrite after_after. cbn [viper after] in Hurl. cbn [fst snd].
  assert (Hpass :
    bind (check None) (fun _ => testCmd_afterConfig e offline cf f1) (after w (evs1 ++ evs0))
    = testCmd_afterConfig e offline cf f1 (after w (evs1 ++ evs0)) ->
    forall body,
      body = bind (check None) (fun _ => testCmd_afterConfig e offline cf f1)
                  (after w (evs1 ++ evs0)) ->
      exists evs,
        snd body = after w evs
        /\ (fst body = Ok tt -> existsb isFail evs = false)
        /\ (forall err0,
              fst body = Err err0 ->
              (err0 = checksFailed /\ existsb isFail evs = true)
              \/ (err = Some err0
                  /\ errors_Is err0 ErrDBRequired = false
                  /\ existsb touchesDB evs = false))
        /\ (nonEmpty (GetString (viper w) "db-url") && negb offline = false ->
            existsb touchesDB evs = false)
        /\ (offline = true -> existsb reachesOut evs = false)).
  { intros Hb body ->. rewrite Hb.
    destruct (afterConfig_run e offline cf f1 (after w (evs1 ++ evs0)))
      as (evs & Hs & Hok & Hbad & Hdb & Hout).
    rewrite Hs, after_after. exists ((evs1 ++ evs0) ++ evs).
    split; [reflexivity|]. rewrite !existsb_app, Hd1, Hd0, Hr1, Hr0, Hq0. simpl.
    rewrite <- Hf1, orb_false_r. split.
    - intros H. destruct (Hok H) as [-> ->]. reflexivity.
    - split; [intros err0 H; left; apply (Hbad err0 H)|]. split.
      + rewrite <- Hurl. exact Hdb.
      + exact Hout. }
  rewrite <- Herr.
  destruct err as [x|]; [destruct (errors_Is x ErrDBRequired) eqn:His|]; cbv iota.
  - apply Hpass; reflexivity.
  - rewrite (bind_err (check (Some x)) _ _ x _) by reflexivity.
    exists (evs1 ++ evs0). cbn [fst snd]. split; [reflexivity|].
    split; [discriminate|]. rewrite !existsb_app, Hd1, Hd0, Hr1, Hr0. split.
    + intros err H. inversion H; subst. right. auto.
    + split; reflexivity.
  - apply Hpass; reflexivity.
Qed.

(** X6. [getConfig] copies db-url and db-url-next from the settings and
    leaves the settings alone.  Without a db-url it returns [ErrDBRequired]
    and neither looks at the TLS settings nor touches the logger.  With one,
    it takes the TLS configuration and the error from [getTLSConfig], and
    it enables stack traces only when that error is nil and the setting asks
    for them. *)
Theorem getConfig_reads_tls_only_with_db_url ctx e w :
  exists cfg err evs,
    getConfig ctx e w = ((cfg, err), after w evs)
    /\ DBURL cfg = GetString (viper w) "db-url"
    /\ DBURLNext cfg = GetString (viper w) "db-url-next"
    /\ (GetString (viper w) "db-url" = "" ->
        err = Some ErrDBRequired /\ evs = [] /\ TLSConfig_ cfg = None)
    /\ (GetString (viper w) "db-url" <> "" ->
        err = snd (getTLSConfig_res e)
        /\ TLSConfig_ cfg = fst (getTLSConfig_res e)
        /\ evs = EvGetTLSConfig
                 :: (if GetBool (viper w) "stack-traces"
                     then match snd (getTLSConfig_res e) with
                          | None => [EvEnableStacks]
                          | Some _ => []
                          end
                     else [])).
Proof. exact (getConfig_cases ctx e w). Qed.

Lemma getConfig_reads_tls_witness :
  exists cfg err evs,
    getConfig sampleContext (envOf chicago) (worldWith "postgres://goalert@db/goalert")
    = ((cfg, err), after (worldWith "postgres://goalert@db/goalert") evs)
    /\ err = None /\ evs = [EvGetTLSConfig].
Proof.
  destruct (getConfig_reads_tls_only_with_db_url
              sampleContext (envOf chicago) (worldWith "postgres://goalert@db/goalert"))
    as (cfg & err & evs & Hg & _ & _ & _ & Hne).
  exists cfg, err, evs. split; [exact Hg|].
  destruct Hne as (He & _ & Hevs); [discriminate|]. split; [exact He | exact Hevs].
Defined.

(** X10. With --offline the self-test stays inside the process: whatever
    the settings and however the checks end, it opens no database
    connection, reads no configuration store and sends no HTTP request. *)
Theorem selftest_offline_stays_in_process ctx e w :
  exists evs,
    snd (testCmd_RunE ctx true e w) = after w evs
    /\ existsb reachesOut evs = false.
Proof.
  destruct (selftest_core ctx true e w) as (evs & Hs & _ & _ & _ & Hout).
  exists evs. auto.
Qed.

(** X11. The self-test returns nil only if no check printed FAIL.  When it
    returns an error, either some check printed FAIL and the error is the
    summary "one or more checks failed.", or the error is the one
    [getConfig] returned, which then is not [ErrDBRequired], and no check
    after the configuration was run. *)
Theorem selftest_verdict_follows_the_checks ctx offline e w :
  exists evs,
    snd (testCmd_RunE ctx offline e w) = after w evs
    /\ (fst (testCmd_RunE ctx offline e w) = Ok tt -> existsb isFail evs = false)
    /\ (forall err,
          fst (testCmd_RunE ctx offline e w) = Err err ->
          (err = checksFailed /\ existsb isFail evs = true)
          \/ (snd (fst (getConfig ctx e w)) = Some err
              /\ errors_Is err ErrDBRequired = false
              /\ existsb touchesDB evs = false)).
Proof.
  destruct (selftest_core ctx offline e w) as (evs & Hs & Hok & Hbad & _).
  exists evs. auto.
Qed.

Lemma selftest_verdict_witness :
  fst (testCmd_RunE sampleContext false envSlackDown (worldWith "")) = Err checksFailed
  /\ exists evs,
       snd (testCmd_RunE sampleContext false envSlackDown (worldWith ""))
       = after (worldWith "") evs
       /\ existsb isFail evs = true.
Proof.
  assert (H : fst (testCmd_RunE sampleContext false envSlackDown (worldWith ""))
              = Err checksFailed) by (vm_compute; reflexivity).
  split; [exact H|].
  destruct (selftest_verdict_follows_the_checks sampleContext false envSlackDown
              (worldWith "")) as (evs & Hs & _ & Hbad).
  exists evs. split; [exact Hs|].
  destruct (Hbad checksFailed H) as [[_ Hf] | [Hcfg _]]; [exact Hf|].
  vm_compute in Hcfg. discriminate.
Defined.

(** X12. Without a db-url the self-test still runs: the missing URL is not
    an error for it.  It makes no database call, and it ends with nil or with
    the summary error of the checks, never with [ErrDBRequired]. *)
Theorem selftest_runs_without_db_url ctx offline e w :
  GetString (viper w) "db-url" = "" ->
  exists evs,
    snd (testCmd_RunE ctx offline e w) = after w evs
    /\ existsb touchesDB evs = false
    /\ (fst (testCmd_RunE ctx offline e w) = Ok tt
        \/ fst (testCmd_RunE ctx offline e w) = Err checksFailed).
Proof.
  intros Hurl.
  destruct (selftest_core ctx offline e w) as (evs & Hs & _ & Hbad & Hdb & _).
  exists evs. split; [exact Hs|]. split.
  - apply Hdb. rewrite Hurl. reflexivity.
  - destruct (fst (testCmd_RunE ctx offline e w)) as [[]|err] eqn:Hr; [auto|].
    right. destruct (Hbad err eq_refl) as [[-> _] | (Hcfg & His & _)]; [reflexivity|].
    destruct (getConfig_without_db_url ctx e w Hurl) as (cfg & Hg & _).
    rewrite Hg in Hcfg. simpl in Hcfg. inversion Hcfg; subst err.
    vm_compute in His. discriminate.
Qed.

Lemma selftest_runs_without_db_url_witness :
  exists evs,
    snd (testCmd_RunE sampleContext false envSlackDown (worldWith ""))
    = after (worldWith "") evs
    /\ existsb touchesDB evs = false
    /\ (fst (testCmd_RunE sampleContext false envSlackDown (worldWith "")) = Ok tt
        \/ fst (testCmd_RunE sampleContext false envSlackDown (worldWith ""))
           = Err checksFailed).
Proof.
  apply (selftest_runs_without_db_url sampleContext false envSlackDown (worldWith "")).
  reflexivity.
Defined.

Lemma RootCmd_flushes_witness :
  exists evs,
    events (snd (RootCmd_RunE sampleContext envSlackDown
                              (worldWith "postgres://goalert@db/goalert")))
    = [] ++ evs ++ [EvFlush 7]
    /\ In EvConfigTracing evs.
Proof.
  refine (RootCmd_flushes_exporters_on_every_exit
            sampleContext envSlackDown (worldWith "postgres://goalert@db/goalert")
            _ [ {| exporterID := 7; isFlusher := true |};
                {| exporterID := 8; isFlusher := false |} ] _ eq_refl).
  vm_compute. reflexivity.
Defined.

Example RootCmd_fails_to_connect_after_migrating :
  fst (RootCmd_RunE sampleContext envSlackDown (worldWith "postgres://goalert@db/goalert"))
  = Err (ErrWrap "connect to postgres" (ErrMsg "connection refused"))
  /\ map startsServer
       (events (snd (RootCmd_RunE sampleContext envSlackDown
                                  (worldWith "postgres://goalert@db/goalert"))))
     = [ false; false; false; false; false; false; false; false ].
Proof. split; vm_compute; reflexivity. Qed.

End AppMore.

(** * Properties of the other commands *)

Module AppCmdFacts.

Import sqldrv app appcmd AppFacts AppMore.

Lemma migrateCmd_splits ctx e w :
  migrateCmd_RunE ctx e w = bind (loadConfig ctx e) (migrate_afterConfig e) w.
Proof.
  unfold migrateCmd_RunE, loadConfig.
  repeat (rewrite bind_assoc_at; apply bind_ext_at; intros).
  reflexivity.
Qed.

Lemma addUserCmd_splits ctx fl e w :
  addUserCmd_RunE ctx fl e w = bind (loadConfig ctx e) (addUser_afterConfig fl e) w.
Proof.
  unfold addUserCmd_RunE, loadConfig.
  repeat (rewrite bind_assoc_at; apply bind_ext_at; intros).
  reflexivity.
Qed.

Ltac unfold_cmd :=
  unfold migrate_afterConfig, addUser_afterConfig, switchCmd_RunE, setConfigCmd_RunE,
    getSetConfig, InsertTx, CreateTx, BeginTx, CommitTx, RollbackTx, execTx,
    appcmd.when, appcmd.tell, base, getViper,
    wrap, defer, bind, ret, fail, check, lift in *.

Ltac fin_events :=
  simpl; rewrite ?app_nil_r; repeat rewrite <- app_assoc; simpl;
  first [ eexists; split; [reflexivity|]
        | exists []; split; [rewrite app_nil_r; reflexivity|] ];
  simpl.

Lemma migrate_afterConfig_run e c w :
  exists evs,
    events (snd (migrate_afterConfig e c w)) = events w ++ evs
    /\ filter isMigration evs
       = (if nonEmpty (GetString (viper w) "down")
          then [EvMigrateDown (DBURL c) (GetString (viper w) "down")] else [])
         ++ (if (negb (nonEmpty (GetString (viper w) "down"))
                 || isOk (Down_res e (DBURL c) (GetString (viper w) "down")))
                && (nonEmpty (GetString (viper w) "up")
                    || String.eqb (GetString (viper w) "down") "")
             then [EvMigrateUp (DBURL c) (GetString (viper w) "up")] else [])
    /\ (forall x,
          nonEmpty (GetString (viper w) "down") = true ->
          Down_res e (DBURL c) (GetString (viper w) "down") = Err x ->
          fst (migrate_afterConfig e c w) = Err (ErrWrap "apply DOWN migrations" x)).
Proof.
  unfold_cmd. cbn [app.viper app.events viper events]. simpl.
  destruct (nonEmpty (GetString (viper w) "down")) eqn:Hd; simpl.
  - destruct (Down_res e (DBURL c) (GetString (viper w) "down")) as [n|x]; simpl.
    + destruct (0 <? n); simpl;
        destruct (nonEmpty (GetString (viper w) "up")
                  || (GetString (viper w) "down" =? "")%string); simpl;
        try (destruct (Up_res e (DBURL c) (GetString (viper w) "up")) as [n'|x'];
             simpl; try destruct (0 <? n'); simpl);
        fin_events; (split; [reflexivity | discriminate]).
    + fin_events. split; [reflexivity|]. intros x0 _ H. inversion H. reflexivity.
  - destruct (nonEmpty (GetString (viper w) "up")
              || (GetString (viper w) "down" =? "")%string); simpl;
      try (destruct (Up_res e (DBURL c) (GetString (viper w) "up")) as [n'|x'];
           simpl; try destruct (0 <? n'); simpl);
      fin_events; (split; [reflexivity | discriminate]).
Qed.

Lemma quiet_base {A} (m : app.World -> result A * app.World) : quiet (base m).
Proof.
  intros w. unfold base. destruct (m _) as [r aw]. simpl. eauto.
Qed.

Lemma quiet_ret {A} (a : A) : quiet (ret a).
Proof.
  intros w. exists (viper w), []. simpl. rewrite app_nil_r. destruct w; reflexivity.
Qed.

Lemma quiet_check o : quiet (check o).
Proof.
  intros w. exists (viper w), []. destruct o; simpl; rewrite app_nil_r; destruct w; reflexivity.
Qed.

Lemma quiet_tell ev : quiet (appcmd.tell (Base ev)).
Proof. intros w. exists (viper w), [ev]. reflexivity. Qed.

Lemma quiet_when b m : quiet m -> quiet (appcmd.when b m).
Proof. intros H. destruct b; [exact H | apply quiet_ret]. Qed.

Lemma quiet_bind {A B} (m : appcmd.M A) (k : A -> appcmd.M B) :
  quiet m -> (forall a, quiet (k a)) -> quiet (bind m k).
Proof.
  intros Hm Hk w. unfold bind.
  destruct (Hm w) as (v1 & evs1 & H1).
  destruct (m w) as [[a|x] w1]; simpl in H1; subst w1.
  - destruct (Hk a {| viper := v1; events := events w ++ map Base evs1;
                      committed := committed w; tx := tx w |}) as (v2 & evs2 & H2).
    simpl in H2. exists v2, (evs1 ++ evs2). rewrite H2, map_app, app_assoc. reflexivity.
  - simpl. eauto.
Qed.

Lemma loadConfig_quiet ctx e : quiet (loadConfig ctx e).
Proof.
  unfold loadConfig, readConfigFile.
  repeat first [ apply quiet_bind; [|intros ?] | apply quiet_base | apply quiet_when
               | apply quiet_tell | apply quiet_check ].
Qed.

Lemma existsb_map_Base (P : Event -> bool) aevs :
  (forall ev, P (Base ev) = false) -> existsb P (map Base aevs) = false.
Proof. intros H. induction aevs; simpl; [reflexivity | rewrite H; exact IHaevs]. Qed.

Lemma filter_map_Base (P : Event -> bool) aevs :
  (forall ev, P (Base ev) = false) -> filter P (map Base aevs) = [].
Proof. intros H. induction aevs; simpl; [reflexivity | rewrite H; exact IHaevs]. Qed.

(** X13. [migrate] applies the DOWN migrations first, and only when a
    target is given; the UP migrations follow when DOWN went through and
    either an UP target is given or no DOWN target was: without flags it
    migrates all the way up, with --down alone it only goes down.  Both run
    on the configured URL.  A failed DOWN is returned under "apply DOWN
    migrations"; without a configuration nothing is migrated. *)
Theorem migrateCmd_runs_down_then_up ctx e w :
  exists evs,
    events (snd (migrateCmd_RunE ctx e w)) = events w ++ evs
    /\ match loadConfig ctx e w with
       | (Ok c, w1) =>
           let down := GetString (viper w1) "down" in
           let up := GetString (viper w1) "up" in
           filter isMigration evs
           = (if nonEmpty down then [EvMigrateDown (DBURL c) down] else [])
             ++ (if (negb (nonEmpty down) || isOk (Down_res e (DBURL c) down))
                    && (nonEmpty up || String.eqb down "")
                 then [EvMigrateUp (DBURL c) up] else [])
           /\ (forall x,
                 nonEmpty down = true -> Down_res e (DBURL c) down = Err x ->
                 fst (migrateCmd_RunE ctx e w) = Err (ErrWrap "apply DOWN migrations" x))
       | (Err x, _) =>
           filter isMigration evs = [] /\ fst (migrateCmd_RunE ctx e w) = Err x
       end.
Proof.
  rewrite migrateCmd_splits. unfold bind at 1 2 3.
  destruct (loadConfig_quiet ctx e w) as (v1 & aevs & Hq).
  destruct (loadConfig ctx e w) as [[c|x] w1]; simpl in Hq; subst w1.
  - destruct (migrate_afterConfig_run e c
                {| viper := v1; events := events w ++ map Base aevs;
                   committed := committed w; tx := tx w |}) as (evs & Hev & Hf & Herr).
    cbn [viper events] in *.
    exists (map Base aevs ++ evs). split; [rewrite Hev, app_assoc; reflexivity|].
    cbv zeta. split; [|exact Herr].
    rewrite filter_app, filter_map_Base by reflexivity. exact Hf.
  - simpl. exists (map Base aevs). repeat split.
    apply filter_map_Base. reflexivity.
Qed.

Lemma base_getConfig ctx e w :
  exists cfg err evs,
    base (try (getConfig ctx (appEnv e))) w
    = (match err with Some x => Err x | None => Ok cfg end,
       {| viper := viper w; events := events w ++ map Base evs;
          committed := committed w; tx := tx w |})
    /\ DBURL cfg = GetString (viper w) "db-url"
    /\ DBURLNext cfg = GetString (viper w) "db-url-next"
    /\ err = (if nonEmpty (GetString (viper w) "db-url")
              then snd (getTLSConfig_res (appEnv e)) else Some ErrDBRequired).
Proof.
  destruct (getConfig_cases ctx (appEnv e) {| app.viper := viper w; app.events := [] |})
    as (cfg & err & evs & Hg & Hurl & Hnext & He & Hne).
  cbn [app.viper app.events] in *.
  exists cfg, err, evs. unfold base, try. rewrite Hg. cbn [app.viper app.events].
  split; [destruct err; reflexivity|]. split; [exact Hurl|]. split; [exact Hnext|].
  unfold nonEmpty.
  destruct (String.eqb_spec (GetString (viper w) "db-url") "") as [Heq|Hneq]; simpl.
  - apply He. exact Heq.
  - apply Hne. exact Hneq.
Qed.

(** X14. The switchover shell is started exactly when the configuration
    loads and both db-url and db-url-next are set; it is given the two URLs
    as configured, and its error is the command's.  With the first URL but
    not the second the command fails on the field DBURLNext. *)
Theorem switchover_shell_needs_both_urls ctx e w :
  let old := GetString (viper w) "db-url" in
  let next := GetString (viper w) "db-url-next" in
  let ready := nonEmpty old && isNone (snd (getTLSConfig_res (appEnv e))) && nonEmpty next in
  exists evs,
    events (snd (switchCmd_RunE ctx e w)) = events w ++ evs
    /\ filter isRunShell evs = (if ready then [EvRunShell old next] else [])
    /\ (ready = true ->
        fst (switchCmd_RunE ctx e w)
        = match RunShell_err e old next with Some x => Err x | None => Ok tt end)
    /\ (nonEmpty old && isNone (snd (getTLSConfig_res (appEnv e))) = true ->
        next = "" ->
        fst (switchCmd_RunE ctx e w)
        = Err (ErrField "DBURLNext" "must not be empty for switchover")).
Proof.
  cbv zeta. unfold switchCmd_RunE, bind.
  destruct (base_getConfig ctx e w) as (cfg & err & evs & Hg & Hurl & Hnext & Herr).
  rewrite Hg. rewrite <- Hurl, <- Hnext in *.
  destruct (nonEmpty (DBURL cfg)); simpl in Herr |- *; subst err.
  2:{ exists (map Base evs). simpl. repeat split; try discriminate.
      apply filter_map_Base. reflexivity. }
  destruct (snd (getTLSConfig_res (appEnv e))) as [x|]; simpl.
  { exists (map Base evs). simpl. repeat split; try discriminate.
    apply filter_map_Base. reflexivity. }
  unfold nonEmpty. destruct (String.eqb_spec (DBURLNext cfg) "") as [Heq|Hneq]; simpl.
  - exists (map Base evs). simpl. repeat split; try discriminate.
    apply filter_map_Base. reflexivity.
  - exists (map Base evs ++ [EvRunShell (DBURL cfg) (DBURLNext cfg)]).
    unfold appcmd.tell, check; simpl.
    destruct (RunShell_err e (DBURL cfg) (DBURLNext cfg)); simpl;
      rewrite <- app_assoc, filter_app, filter_map_Base by reflexivity;
      repeat split; try reflexivity; intros; congruence.
Qed.

(** X15. [set-config] refuses a missing encryption key before it does
    anything else.  With --data it never touches standard input; the
    configuration is written at most once, with the data given or, failing
    that, with what was read from standard input without error. *)
Theorem setConfig_checks_key_before_reading ctx e w :
  let v := viper w in
  let keyMissing :=
    String.eqb (GetString v "data-encryption-key") ""
    && negb (GetBool v "allow-empty-data-encryption-key") in
  exists evs,
    events (snd (setConfigCmd_RunE ctx e w)) = events w ++ evs
    /\ (keyMissing = true ->
        evs = []
        /\ fst (setConfigCmd_RunE ctx e w)
           = Err (ErrField "data-encryption-key"
                    "Must not be empty, or set --allow-empty-data-encryption-key"))
    /\ (nonEmpty (GetString v "data") = true -> existsb readsStdin evs = false)
    /\ filter isGetSetConfig evs
       = (if keyMissing then []
          else if nonEmpty (GetString v "data")
               then [EvGetSetConfig true (Some (GetString v "data"))]
               else match snd (ReadAllStdin_res e) with
                    | None => [EvGetSetConfig true (Some (fst (ReadAllStdin_res e)))]
                    | Some _ => []
                    end).
Proof.
  cbv zeta. unfold_cmd. cbn [app.viper app.events viper events]. simpl.
  destruct (String.eqb (GetString (viper w) "data-encryption-key") ""
            && negb (GetBool (viper w) "allow-empty-data-encryption-key")); simpl.
  { exists []. rewrite !app_nil_r. repeat split; reflexivity. }
  destruct (nonEmpty (GetString (viper w) "data")); simpl.
  - destruct (getSetConfig_err e true _); fin_events; repeat split; discriminate.
  - destruct (IsTerminal e); simpl;
      destruct (snd (ReadAllStdin_res e)); simpl;
      try destruct (getSetConfig_err e true _); fin_events; repeat split; discriminate.
Qed.

Lemma addUser_core fl e c w :
  exists evs,
    events (snd (addUser_afterConfig fl e c w)) = events w ++ evs
    /\ committed (snd (addUser_afterConfig fl e c w))
       = committed w
         ++ (if isOk (fst (addUser_afterConfig fl e c w)) then addUserStmts fl e else [])
    /\ (tx w = None -> tx (snd (addUser_afterConfig fl e c w)) = None)
    /\ (nonEmpty (flagUserID fl) = true -> existsb isUserStoreCall evs = false)
    /\ (nonEmpty (flagPass fl) = true -> existsb isPasswordPrompt evs = false)
    /\ existsb isLogAdded evs = isOk (fst (addUser_afterConfig fl e c w))
    /\ closesDB evs = isNone (sqlOpenPgx_err e (DBURL c))
    /\ rollsBackThenCloses evs
       = isNone (sqlOpenPgx_err e (DBURL c)) && isNone (NewBasicStore_err e)
         && isNone (BeginTx_err e).
Proof.
  unfold addUserStmts, newUser, nonEmpty.
  unfold_cmd. cbn [app.viper app.events viper events committed tx]. simpl.
  destruct (sqlOpenPgx_err e (DBURL c)); simpl.
  { fin_events. rewrite ?app_nil_r. repeat split; auto. }
  destruct (NewBasicStore_err e); simpl.
  { fin_events. rewrite ?app_nil_r. repeat split; auto. }
  destruct (BeginTx_err e); simpl.
  { fin_events. rewrite ?app_nil_r. repeat split; auto. }
  destruct (String.eqb (flagUserID fl) ""); simpl.
  - destruct (NewUserStore_err e); simpl.
    { fin_events. rewrite ?app_nil_r. repeat split; auto; discriminate. }
    destruct (String.eqb (flagAdmin fl) "true"); simpl.
    all: destruct (InsertTx_res e _) as [u'|x]; simpl.
    all: try (fin_events; rewrite ?app_nil_r; repeat split; auto; discriminate).
    all: destruct (String.eqb (flagPass fl) ""); simpl.
    all: try (destruct (ReadPassword_res e) as [p|x]; simpl).
    all: try (fin_events; rewrite ?app_nil_r; repeat split; auto; discriminate).
    all: destruct (CreateTx_err e _ _ _); simpl.
    all: try (fin_events; rewrite ?app_nil_r; repeat split; auto; discriminate).
    all: destruct (CommitTx_err e); simpl.
    all: fin_events; rewrite ?app_nil_r; repeat split; auto; discriminate.
  - destruct (String.eqb (flagPass fl) ""); simpl.
    all: try (destruct (ReadPassword_res e) as [p|x]; simpl).
    all: try (fin_events; rewrite ?app_nil_r; repeat split; auto; discriminate).
    all: destruct (CreateTx_err e _ _ _); simpl.
    all: try (fin_events; rewrite ?app_nil_r; repeat split; auto; discriminate).
    all: destruct (CommitTx_err e); simpl.
    all: fin_events; rewrite ?app_nil_r; repeat split; auto; discriminate.
Qed.

Lemma addUserCmd_run ctx fl e w :
  exists aevs,
    match loadConfig ctx e w with
    | (Ok c, w1) =>
        addUserCmd_RunE ctx fl e w = addUser_afterConfig fl e c w1
    | (Err x, w1) =>
        addUserCmd_RunE ctx fl e w = (Err x, w1)
    end
    /\ events (snd (loadConfig ctx e w)) = events w ++ map Base aevs
    /\ committed (snd (loadConfig ctx e w)) = committed w
    /\ tx (snd (loadConfig ctx e w)) = tx w.
Proof.
  rewrite addUserCmd_splits. unfold bind.
  destruct (loadConfig_quiet ctx e w) as (v1 & aevs & Hq). exists aevs.
  destruct (loadConfig ctx e w) as [[c|x] w1]; simpl in Hq |- *; subst w1;
    repeat split; reflexivity.
Qed.

(** X16. [add-user] is all or nothing: when it returns nil the database
    has gained the new user (unless --user-id named one) and the auth entry,
    in that order; when it returns an error the database is as it was.
    Either way no transaction is left open. *)
Theorem addUser_writes_all_or_nothing ctx fl e w :
  tx w = None ->
  committed (snd (addUserCmd_RunE ctx fl e w))
  = committed w
    ++ (if isOk (fst (addUserCmd_RunE ctx fl e w)) then addUserStmts fl e else [])
  /\ tx (snd (addUserCmd_RunE ctx fl e w)) = None.
Proof.
  intros Htx.
  destruct (addUserCmd_run ctx fl e w) as (aevs & Hrun & _ & Hc & Ht).
  destruct (loadConfig ctx e w) as [[c|x] w1]; rewrite Hrun; simpl in Hc, Ht.
  - destruct (addUser_core fl e c w1) as (evs & _ & Hcom & Htx' & _).
    rewrite Hcom, Hc. split; [reflexivity|]. apply Htx'. congruence.
  - simpl. rewrite app_nil_r. split; congruence.
Qed.

Lemma addUser_writes_witness :
  committed (snd (addUserCmd_RunE sampleContext newAdminFlags cmdEnv
                    (worldOf (viperWith [("db-url", "postgres://db/goalert")]))))
  = [] ++ (if isOk (fst (addUserCmd_RunE sampleContext newAdminFlags cmdEnv
                           (worldOf (viperWith [("db-url", "postgres://db/goalert")]))))
           then addUserStmts newAdminFlags cmdEnv else [])
  /\ tx (snd (addUserCmd_RunE sampleContext newAdminFlags cmdEnv
                 (worldOf (viperWith [("db-url", "postgres://db/goalert")])))) = None.
Proof.
  apply (addUser_writes_all_or_nothing sampleContext newAdminFlags cmdEnv
           (worldOf (viperWith [("db-url", "postgres://db/goalert")]))).
  reflexivity.
Defined.

Example addUser_writes_user_then_auth_entry :
  committed (snd (addUserCmd_RunE sampleContext newAdminFlags cmdEnv
                    (worldOf (viperWith [("db-url", "postgres://db/goalert")]))))
  = [InsertUser {| ID := "u-1"; Name := "ada"; Email := "ada@example.com";
                   Role_ := RoleAdmin |};
     CreateBasicAuth "u-1" "ada" "secret"]
  /\ committed (snd (addUserCmd_RunE sampleContext newAdminFlags cmdEnvAuthFails
                       (worldOf (viperWith [("db-url", "postgres://db/goalert")]))))
     = [].
Proof. vm_compute. split; reflexivity. Qed.

(** X17. With --user-id, [add-user] never calls the user store; with
    --pass it never prompts for a password; and it logs that the user name
    was added exactly when it returns nil. *)
Theorem addUser_asks_only_for_what_is_missing ctx fl e w :
  exists evs,
    events (snd (addUserCmd_RunE ctx fl e w)) = events w ++ evs
    /\ (flagUserID fl <> "" -> existsb isUserStoreCall evs = false)
    /\ (flagPass fl <> "" -> existsb isPasswordPrompt evs = false)
    /\ existsb isLogAdded evs = isOk (fst (addUserCmd_RunE ctx fl e w)).
Proof.
  destruct (addUserCmd_run ctx fl e w) as (aevs & Hrun & He & _).
  destruct (loadConfig ctx e w) as [[c|x] w1]; rewrite Hrun; simpl in He.
  - destruct (addUser_core fl e c w1) as (evs & Hev & _ & _ & Hid & Hpass & Hlog & _).
    exists (map Base aevs ++ evs). rewrite Hev, He, app_assoc.
    rewrite !existsb_app, !existsb_map_Base by reflexivity. simpl.
    repeat split; auto.
    + intros H. apply Hid. unfold nonEmpty.
      destruct (String.eqb_spec (flagUserID fl) ""); [contradiction | reflexivity].
    + intros H. apply Hpass. unfold nonEmpty.
      destruct (String.eqb_spec (flagPass fl) ""); [contradiction | reflexivity].
  - exists (map Base aevs). simpl. rewrite !existsb_map_Base by reflexivity. auto.
Qed.

(** X18. Once it has a configuration, [add-user] ends with [db.Close]
    exactly when the database was opened, and with [tx.Rollback] followed by
    [db.Close] exactly when the transaction was begun: the deferred calls
    run on every exit, last opened first.  Without a configuration it
    returns the error and opens nothing. *)
Theorem addUser_releases_what_it_opened ctx fl e w :
  match loadConfig ctx e w with
  | (Ok c, w1) =>
      exists evs,
        events (snd (addUserCmd_RunE ctx fl e w)) = events w1 ++ evs
        /\ closesDB evs = isNone (sqlOpenPgx_err e (DBURL c))
        /\ rollsBackThenCloses evs
           = isNone (sqlOpenPgx_err e (DBURL c)) && isNone (NewBasicStore_err e)
             && isNone (BeginTx_err e)
  | (Err x, w1) => addUserCmd_RunE ctx fl e w = (Err x, w1)
  end.
Proof.
  destruct (addUserCmd_run ctx fl e w) as (aevs & Hrun & _).
  destruct (loadConfig ctx e w) as [[c|x] w1]; rewrite Hrun; [|reflexivity].
  destruct (addUser_core fl e c w1) as (evs & Hev & _ & _ & _ & _ & _ & Hclose & Hroll).
  exists evs. auto.
Qed.

(** ** The configuration file *)

Lemma isCfgNotFound_wrap p x : isCfgNotFound (ErrWrap p x) = isCfgNotFound x.
Proof. unfold isCfgNotFound. rewrite MetricsMore.errors_Is_unfold. reflexivity. Qed.

Lemma loadConfig_run ctx e w :
  let read := ReadInConfig_res (appEnv e) (viper w) in
  let pre := (if GetBool (viper w) "verbose" then [Base EvEnableDebug] else [])
             ++ [Base EvReadInConfig] in
  match snd read with
  | Some x =>
      if isCfgNotFound x
      then fst (loadConfig ctx e w)
           = fst (try (getConfig ctx (appEnv e))
                    {| app.viper := fst read; app.events := [] |})
      else loadConfig ctx e w
           = (Err (ErrWrap "read config" x),
              {| viper := fst read; events := events w ++ pre;
                 committed := committed w; tx := tx w |})
  | None =>
      fst (loadConfig ctx e w)
      = fst (try (getConfig ctx (appEnv e))
               {| app.viper := fst read; app.events := [] |})
  end.
Proof.
  cbv zeta. unfold loadConfig, readConfigFile, ReadInConfig, app.tell, appcmd.when,
    appcmd.tell, base, getViper, bind, check, ret, fail.
  cbn [app.viper app.events viper events committed tx].
  destruct (GetBool (viper w) "verbose"); cbn [app.viper app.events viper events committed tx];
    destruct (ReadInConfig_res (appEnv e) (viper w)) as [v [x|]];
    cbn [fst snd app.viper app.events viper events committed tx map List.app];
    try destruct (isCfgNotFound x); cbn [negb].
  all: rewrite ?app_nil_r, <- ?app_assoc; cbn [List.app].
  all: try reflexivity.
  all: cbn [viper events committed tx].
  all: match goal with
       | |- context [try ?f ?w0] => destruct (try f w0) as [r aw]
       end; reflexivity.
Qed.

(** X30. A configuration file that is not found is no error for [migrate]
    and [add-user], wrapped or not: they go on to [getConfig] with the
    settings as read.  Any other error of reading it ends the command under
    "read config" before the configuration is looked at, with nothing
    migrated and no database opened. *)
Theorem unreadable_config_file_stops_the_command ctx fl e w x :
  snd (ReadInConfig_res (appEnv e) (viper w)) = Some x ->
  (forall p, isCfgNotFound (ErrWrap p x) = isCfgNotFound x)
  /\ if isCfgNotFound x
     then fst (loadConfig ctx e w)
          = fst (try (getConfig ctx (appEnv e))
                   {| app.viper := fst (ReadInConfig_res (appEnv e) (viper w));
                      app.events := [] |})
     else exists w1,
            migrateCmd_RunE ctx e w = (Err (ErrWrap "read config" x), w1)
            /\ addUserCmd_RunE ctx fl e w = (Err (ErrWrap "read config" x), w1)
            /\ events w1
               = events w
                 ++ (if GetBool (viper w) "verbose" then [Base EvEnableDebug] else [])
                 ++ [Base EvReadInConfig]
            /\ committed w1 = committed w.
Proof.
  intros Hread. split; [intros p; apply isCfgNotFound_wrap|].
  pose proof (loadConfig_run ctx e w) as Hrun. cbv zeta in Hrun. rewrite Hread in Hrun.
  destruct (isCfgNotFound x); [exact Hrun|].
  eexists. rewrite migrateCmd_splits, addUserCmd_splits. unfold bind. rewrite Hrun.
  repeat split.
Qed.

Lemma unreadable_config_file_witness :
  exists w1,
    migrateCmd_RunE sampleContext cmdEnvNoConfig (worldOf (viperWith [("up", "latest")]))
    = (Err (ErrWrap "read config" (ErrMsg "While parsing config: unexpected token")), w1)
    /\ addUserCmd_RunE sampleContext newAdminFlags cmdEnvNoConfig
         (worldOf (viperWith [("up", "latest")]))
       = (Err (ErrWrap "read config" (ErrMsg "While parsing config: unexpected token")), w1)
    /\ events w1 = [] ++ [] ++ [Base EvReadInConfig]
    /\ committed w1 = [].
Proof.
  apply (unreadable_config_file_stops_the_command sampleContext newAdminFlags cmdEnvNoConfig
           (worldOf (viperWith [("up", "latest")]))
           (ErrMsg "While parsing config: unexpected token")).
  reflexivity.
Defined.

Example migrate_without_flags_goes_up :
  filter isMigration
    (events (snd (migrateCmd_RunE sampleContext cmdEnv
                    (worldOf (viperWith [("db-url", "postgres://db/goalert")])))))
  = [EvMigrateUp "postgres://db/goalert" ""].
Proof. vm_compute. reflexivity. Qed.

Example migrate_down_alone_stays_down :
  filter isMigration
    (events (snd (migrateCmd_RunE sampleContext cmdEnv
                    (worldOf (viperWith [("db-url", "postgres://db/goalert");
                                         ("down", "add-users")])))))
  = [EvMigrateDown "postgres://db/goalert" "add-users"].
Proof. vm_compute. reflexivity. Qed.

Example switchover_without_next_url :
  fst (switchCmd_RunE sampleContext cmdEnv
         (worldOf (viperWith [("db-url", "postgres://db/goalert")])))
  = Err (ErrField "DBURLNext" "must not be empty for switchover").
Proof. vm_compute. reflexivity. Qed.

Example setConfig_reads_stdin_without_data :
  filter isGetSetConfig
    (events (snd (setConfigCmd_RunE sampleContext cmdEnv
                    (worldOf (viperWith [("data-encryption-key", "k")])))))
  = [EvGetSetConfig true (Some "{}")].
Proof. vm_compute. reflexivity. Qed.

Example addUser_failed_auth_entry_rolls_back :
  map isOk [fst (addUserCmd_RunE sampleContext newAdminFlags cmdEnvAuthFails
                   (worldOf (viperWith [("db-url", "postgres://db/goalert")])))]
  = [false]
  /\ rollsBackThenCloses
       (events (snd (addUserCmd_RunE sampleContext newAdminFlags cmdEnvAuthFails
                       (worldOf (viperWith [("db-url", "postgres://db/goalert")])))))
     = true.
Proof. vm_compute. split; reflexivity. Qed.

End AppCmdFacts.

(** * Properties of the web client *)

Module UrqlFacts.

Import urql.

Lemma has_keys {V} (m : JsMap V) k : has m k = existsb (Z.eqb k) (keys m).
Proof.
  induction m as [|[k' v] m IH]; simpl; [reflexivity|].
  rewrite IH, (Z.eqb_sym k' k). reflexivity.
Qed.

Lemma has_get {V} (m : JsMap V) k :
  has m k = match get m k with Some _ => true | None => false end.
Proof.
  induction m as [|[k' v] m IH]; simpl; [reflexivity|].
  destruct (k' =? k); simpl; [reflexivity | exact IH].
Qed.

Lemma has_In {V} (m : JsMap V) k : has m k = true <-> In k (keys m).
Proof.
  rewrite has_keys, existsb_exists. split.
  - intros (x & Hin & Heq). apply Z.eqb_eq in Heq. subst. exact Hin.
  - intros Hin. exists k. split; [exact Hin | apply Z.eqb_refl].
Qed.

Lemma keys_set {V} (m : JsMap V) k v :
  keys (set m k v) = if has m k then keys m else keys m ++ [k].
Proof.
  induction m as [|[k' v'] m IH]; simpl; [reflexivity|].
  destruct (Z.eqb_spec k' k) as [->|Hne]; simpl; [reflexivity|].
  rewrite IH. destruct (has m k); reflexivity.
Qed.

Lemma keys_delete {V} (m : JsMap V) k :
  keys (delete m k) = filter (fun x => negb (x =? k)) (keys m).
Proof.
  unfold delete, keys. induction m as [|[k' v'] m IH]; simpl; [reflexivity|].
  destruct (k' =? k); simpl; [exact IH | rewrite IH; reflexivity].
Qed.

Lemma get_set {V} (m : JsMap V) k v k0 :
  get (set m k v) k0 = if k =? k0 then Some v else get m k0.
Proof.
  induction m as [|[k' v'] m IH]; simpl.
  - reflexivity.
  - destruct (Z.eqb_spec k' k) as [->|Hne]; simpl.
    + destruct (k =? k0); reflexivity.
    + rewrite IH. destruct (Z.eqb_spec k' k0) as [->|Hne0]; [|reflexivity].
      destruct (Z.eqb_spec k k0); [congruence | reflexivity].
Qed.

Lemma get_delete {V} (m : JsMap V) k k0 :
  get (delete m k) k0 = if k =? k0 then None else get m k0.
Proof.
  unfold delete. induction m as [|[k' v'] m IH]; simpl.
  - destruct (k =? k0); reflexivity.
  - destruct (Z.eqb_spec k' k) as [->|Hne]; simpl.
    + rewrite IH. destruct (k =? k0); reflexivity.
    + rewrite IH. destruct (Z.eqb_spec k' k0) as [->|Hne0]; [|reflexivity].
      destruct (Z.eqb_spec k k0); [congruence | reflexivity].
Qed.

Lemma NoDup_filter {A} (f : A -> bool) l : NoDup l -> NoDup (filter f l).
Proof.
  induction 1 as [|x l Hx Hl IH]; simpl; [constructor|].
  destruct (f x); [|exact IH]. constructor; [|exact IH].
  intros Hin. apply filter_In in Hin. tauto.
Qed.

Lemma Forall_set {V} (P : Z * V -> Prop) (m : JsMap V) k v :
  Forall P m -> P (k, v) -> Forall P (set m k v).
Proof.
  intros Hm Hv. induction Hm as [|[k' v'] m Hx Hm IH]; simpl.
  - constructor; [exact Hv | constructor].
  - destruct (k' =? k); constructor; auto.
Qed.

Lemma Forall_delete {V} (P : Z * V -> Prop) (m : JsMap V) k :
  Forall P m -> Forall P (delete m k).
Proof.
  intros Hm. unfold delete. induction Hm as [|x m Hx Hm IH]; simpl; [constructor|].
  destruct (negb (fst x =? k)); [constructor|]; auto.
Qed.

Lemma handleOp_consistent op st : consistent st -> consistent (handleOp op st).
Proof.
  intros (Hk & Hnd & Hall). unfold handleOp.
  assert (Hhas : forall k, has (observedOps st) k = has (watchedOps st) k).
  { intros k. rewrite !has_keys, Hk. reflexivity. }
  destruct (kind op) eqn:Hkind; simpl; try (repeat split; assumption).
  - destruct (has (observedOps st) (key op)) eqn:Hobs; simpl.
    + repeat split; assumption.
    + repeat split; simpl.
      * rewrite !keys_set, Hobs, <- Hhas, Hobs, Hk. reflexivity.
      * rewrite keys_set, <- Hhas, Hobs.
        apply NoDup_app; [exact Hnd | repeat constructor; intros [] |].
        intros x Hx [<-|[]]. apply has_In in Hx. rewrite <- Hhas in Hx. congruence.
      * apply Forall_set; [exact Hall | simpl; auto].
  - destruct (has (observedOps st) (key op)) eqn:Hobs; simpl.
    + repeat split; simpl.
      * rewrite !keys_delete, Hk. reflexivity.
      * rewrite keys_delete. apply NoDup_filter. exact Hnd.
      * apply Forall_delete. exact Hall.
    + repeat split; assumption.
Qed.

Lemma newExchange_consistent : consistent newExchange.
Proof. repeat split; constructor. Qed.

Lemma run_consistent ops st :
  consistent st -> consistent (snd (refetchExchange ops st)).
Proof.
  unfold refetchExchange. simpl. revert st.
  induction ops as [|op ops IH]; intros st Hst; simpl; [exact Hst|].
  apply IH, handleOp_consistent, Hst.
Qed.

Lemma handleOp_get op st k :
  consistent st ->
  get (watchedOps (handleOp op st)) k
  = liveQuery k [op] (get (watchedOps st) k).
Proof.
  intros (Hk & _). unfold handleOp.
  assert (Hhas : has (observedOps st) (key op)
                 = match get (watchedOps st) (key op) with Some _ => true | None => false end).
  { rewrite <- has_get, !has_keys, Hk. reflexivity. }
  simpl. destruct (kind op) eqn:Hkind; simpl.
  - destruct (has (observedOps st) (key op)) eqn:Hobs; simpl.
    + destruct (Z.eqb_spec (key op) k) as [<-|Hne]; [|reflexivity].
      destruct (get (watchedOps st) (key op)); [reflexivity | discriminate].
    + rewrite get_set.
      destruct (Z.eqb_spec (key op) k) as [<-|Hne]; [|reflexivity].
      destruct (get (watchedOps st) (key op)); [discriminate | reflexivity].
  - destruct (key op =? k); reflexivity.
  - destruct (key op =? k); reflexivity.
  - destruct (has (observedOps st) (key op)) eqn:Hobs; simpl.
    + rewrite get_delete. destruct (key op =? k); reflexivity.
    + destruct (Z.eqb_spec (key op) k) as [<-|Hne]; [|reflexivity].
      destruct (get (watchedOps st) (key op)); [discriminate | reflexivity].
Qed.

Lemma run_get ops st k :
  consistent st ->
  get (watchedOps (snd (refetchExchange ops st))) k
  = liveQuery k ops (get (watchedOps st) k).
Proof.
  unfold refetchExchange. simpl. revert st.
  induction ops as [|op ops IH]; intros st Hst; simpl; [reflexivity|].
  rewrite IH by (apply handleOp_consistent, Hst).
  rewrite handleOp_get by exact Hst. simpl.
  destruct (key op =? k); [|reflexivity].
  destruct (kind op); reflexivity.
Qed.

(** X19. The exchange passes the stream on untouched, keeps its two maps in
    step, and watches for each key the first query since the key's last
    teardown. *)
Theorem refetchExchange_watches_live_queries ops k :
  fst (refetchExchange ops newExchange) = ops
  /\ keys (watchedOps (snd (refetchExchange ops newExchange)))
     = keys (observedOps (snd (refetchExchange ops newExchange)))
  /\ get (watchedOps (snd (refetchExchange ops newExchange))) k = liveQuery k ops None.
Proof.
  split; [reflexivity|]. split.
  - apply (run_consistent ops newExchange newExchange_consistent).
  - apply (run_get ops newExchange k newExchange_consistent).
Qed.

Lemma In_get {V} (m : JsMap V) k v :
  NoDup (keys m) -> (In (k, v) m <-> get m k = Some v).
Proof.
  induction m as [|[k' v'] m IH]; simpl; intros Hnd.
  - split; [tauto | discriminate].
  - inversion Hnd as [|? ? Hnot Hnd']; subst.
    destruct (Z.eqb_spec k' k) as [->|Hne].
    + split.
      * intros [Heq|Hin]; [congruence|].
        exfalso. apply Hnot. apply (in_map fst) in Hin. exact Hin.
      * intros Heq. left. congruence.
    + rewrite <- (IH Hnd'). split; [|tauto].
      intros [Heq|Hin]; [congruence | exact Hin].
Qed.

Lemma In_values_consistent st op :
  consistent st ->
  (In op (values (watchedOps st)) <-> get (watchedOps st) (key op) = Some op).
Proof.
  intros (_ & Hnd & Hall). rewrite <- In_get by exact Hnd.
  unfold values. rewrite in_map_iff. split.
  - intros ([k v] & Heq & Hin). simpl in Heq. subst v.
    rewrite Forall_forall in Hall. destruct (Hall _ Hin) as [Hkey _]. simpl in Hkey.
    rewrite Hkey. exact Hin.
  - intros Hin. exists (key op, op). split; [reflexivity | exact Hin].
Qed.

Lemma In_refetchOne st force c :
  In c (refetchOne st force)
  <-> In (requestOf c) (values (watchedOps st))
      /\ c = Reexecute KQuery (requestOf c)
               (if force
                then Some {| requestPolicy := "cache-and-network";
                             otherFields := otherFields (context (requestOf c)) |}
                else None).
Proof.
  unfold refetchOne. destruct force; simpl; rewrite in_map_iff; split.
  - intros (op & <- & Hin). simpl. auto.
  - intros (Hin & Heq). exists (requestOf c). split; [symmetry; exact Heq | exact Hin].
  - intros (op & <- & Hin). simpl. auto.
  - intros (Hin & Heq). exists (requestOf c). split; [symmetry; exact Heq | exact Hin].
Qed.

Lemma map_key_values st :
  consistent st -> map key (values (watchedOps st)) = keys (watchedOps st).
Proof.
  intros (_ & _ & Hall). unfold values, keys.
  induction Hall as [|[k v] m [Hkey _] Hall IH]; simpl; [reflexivity|].
  simpl in Hkey. rewrite Hkey, IH. reflexivity.
Qed.

(** X20. What [refetchAll] re-executes: exactly the live queries of the
    stream, each once, as queries; forced, with the policy
    cache-and-network and the rest of the operation's own context. *)
Theorem refetchAll_reexecutes_live_queries ops force :
  let calls := refetchAll [snd (refetchExchange ops newExchange)] force in
  (forall c,
     In c calls
     <-> liveQuery (key (requestOf c)) ops None = Some (requestOf c)
         /\ c = Reexecute KQuery (requestOf c)
                  (if force
                   then Some {| requestPolicy := "cache-and-network";
                                otherFields := otherFields (context (requestOf c)) |}
                   else None))
  /\ NoDup (map (fun c => key (requestOf c)) calls)
  /\ Forall (fun c => kind (requestOf c) = KQuery) calls.
Proof.
  cbv zeta. unfold refetchAll. cbn [flat_map]. rewrite app_nil_r.
  pose proof (run_consistent ops newExchange newExchange_consistent) as Hc.
  set (st := snd (refetchExchange ops newExchange)) in *.
  split; [|split].
  - intros c.
    pose proof (In_refetchOne st force c) as H1.
    pose proof (In_values_consistent st (requestOf c) Hc) as H2.
    pose proof (run_get ops newExchange (key (requestOf c)) newExchange_consistent) as H3.
    fold st in H3. simpl in H3. rewrite <- H3. tauto.
  - assert (Hmap : map (fun c => key (requestOf c)) (refetchOne st force)
                   = keys (watchedOps st)).
    { rewrite <- (map_key_values st Hc). unfold refetchOne.
      destruct force; simpl; rewrite map_map; reflexivity. }
    rewrite Hmap. apply Hc.
  - apply Forall_forall. intros c Hin. apply In_refetchOne in Hin.
    destruct Hin as [Hin _]. destruct Hc as (_ & _ & Hall).
    unfold values in Hin. apply in_map_iff in Hin. destruct Hin as ([k v] & Heq & Hin).
    rewrite Forall_forall in Hall. destruct (Hall _ Hin) as [_ Hkind].
    simpl in *. subst v. exact Hkind.
Qed.

Lemma clear_poll_stops_all p :
  onePoll p -> intervals (clearInterval (poll p) p) = [].
Proof.
  intros [[Hnil|(h & Hint & Hpoll)] _]; unfold clearInterval; simpl.
  - rewrite Hnil. destruct (poll p); reflexivity.
  - rewrite Hint, Hpoll. simpl. rewrite Z.eqb_refl. reflexivity.
Qed.

Lemma resetPoll_onePoll q p : onePoll p -> onePoll (resetPoll q p).
Proof.
  intros Hp. unfold resetPoll. destruct (isZeroParam q); [exact Hp|].
  pose proof (clear_poll_stops_all p Hp) as Hclear.
  unfold setPollInterval. split; simpl.
  - right. exists (nextHandle p). simpl in Hclear. rewrite Hclear. auto.
  - intros h Heq. inversion Heq. lia.
Qed.

Lemma pageStep_onePoll p i : onePoll p -> onePoll (pageStep p i).
Proof.
  intros Hp. destruct i as [s q|h]; simpl.
  - unfold onVisibilityChange. destruct (String.eqb s "visible").
    + destruct (resetPoll_onePoll q p Hp) as [H1 H2]. split; simpl; assumption.
    + destruct (String.eqb s "hidden"); [|exact Hp].
      split.
      * left. apply clear_poll_stops_all, Hp.
      * simpl. apply Hp.
  - unfold onInterval. destruct (existsb (Z.eqb h) (intervals p)); [|exact Hp].
    destruct Hp as [H1 H2]. split; simpl; assumption.
Qed.

Lemma loadPage_onePoll q : onePoll (loadPage q).
Proof.
  unfold loadPage. apply resetPoll_onePoll. split; simpl; [auto | discriminate].
Qed.

Lemma fold_onePoll inputs p : onePoll p -> onePoll (fold_left pageStep inputs p).
Proof.
  revert p. induction inputs as [|i inputs IH]; intros p Hp; simpl; [exact Hp|].
  apply IH, pageStep_onePoll, Hp.
Qed.

(** X21. However the page is shown, hidden and shown again, at most one
    poll timer runs, it is the one [poll] names, and none runs once the
    page is hidden. *)
Theorem at_most_one_poll_timer q inputs :
  let p := runPage q inputs in
  (List.length (intervals p) <= 1)%nat
  /\ (forall h, In h (intervals p) -> poll p = Some h)
  /\ (forall q', intervals (onVisibilityChange "hidden" q' p) = []).
Proof.
  cbv zeta. pose proof (fold_onePoll inputs _ (loadPage_onePoll q)) as Hp.
  fold (runPage q inputs) in Hp.
  split; [|split].
  - destruct Hp as [[Hnil|(h & Hint & _)] _]; [rewrite Hnil | rewrite Hint]; simpl; lia.
  - intros h Hin. destruct Hp as [[Hnil|(h' & Hint & Hpoll)] _].
    + rewrite Hnil in Hin. destruct Hin.
    + rewrite Hint in Hin. destruct Hin as [<-|[]]. exact Hpoll.
  - intros q'. unfold onVisibilityChange. simpl. apply clear_poll_stops_all, Hp.
Qed.

Lemma zero_step p i :
  zeroEverywhere i = true ->
  intervals p = [] ->
  existsb isSetInterval (calls p) = false ->
  existsb isPollRefetch (calls p) = false ->
  intervals (pageStep p i) = []
  /\ existsb isSetInterval (calls (pageStep p i)) = false
  /\ existsb isPollRefetch (calls (pageStep p i)) = false.
Proof.
  intros Hz Hint Hset Hpoll. destruct i as [s q|h]; simpl in *.
  - unfold onVisibilityChange, resetPoll. rewrite Hz.
    destruct (String.eqb s "visible"); simpl.
    + rewrite !existsb_app, Hset, Hpoll. auto.
    + destruct (String.eqb s "hidden"); simpl; [|auto].
      rewrite !existsb_app, Hset, Hpoll, Hint. destruct (poll p); auto.
  - unfold onInterval. rewrite Hint. simpl. auto.
Qed.

(** X22. With [?poll=0] in the address all along, no interval timer is ever
    set and [refetchAll] never runs unforced: what is left is the forced
    refetch when the page becomes visible. *)
Theorem poll_zero_never_polls q inputs :
  isZeroParam q = true ->
  forallb zeroEverywhere inputs = true ->
  intervals (runPage q inputs) = []
  /\ existsb isSetInterval (calls (runPage q inputs)) = false
  /\ existsb isPollRefetch (calls (runPage q inputs)) = false.
Proof.
  intros Hq Hall. unfold runPage.
  assert (H0 : intervals (loadPage q) = []
               /\ existsb isSetInterval (calls (loadPage q)) = false
               /\ existsb isPollRefetch (calls (loadPage q)) = false).
  { unfold loadPage, resetPoll. rewrite Hq. simpl. auto. }
  revert H0. generalize (loadPage q) as p.
  induction inputs as [|i inputs IH]; intros p H0; simpl; [exact H0|].
  simpl in Hall. apply andb_prop in Hall. destruct Hall as [Hi Hrest].
  destruct H0 as (H1 & H2 & H3).
  apply IH; [exact Hrest|]. apply zero_step; assumption.
Qed.

Lemma poll_zero_witness :
  calls (runPage (Some "0") [VisibilityChange "hidden" (Some "0");
                            VisibilityChange "visible" (Some "0");
                            IntervalFires 1])
  = [EvClearInterval None; EvRefetchAll true]
  /\ existsb isSetInterval
       (calls (runPage (Some "0") [VisibilityChange "hidden" (Some "0");
                                   VisibilityChange "visible" (Some "0");
                                   IntervalFires 1])) = false.
Proof.
  split; [vm_compute; reflexivity|].
  apply (poll_zero_never_polls (Some "0")
           [VisibilityChange "hidden" (Some "0");
            VisibilityChange "visible" (Some "0");
            IntervalFires 1]); reflexivity.
Defined.

Example second_query_does_not_replace_the_first :
  keys (watchedOps (snd (refetchExchange
                           [sampleQuery 7 "cache-first"; sampleQuery 9 "cache-first";
                            sampleQuery 7 "network-only"; sampleTeardown 9]
                           newExchange))) = [7]
  /\ refetchAll [snd (refetchExchange
                        [sampleQuery 7 "cache-first"; sampleQuery 9 "cache-first";
                         sampleQuery 7 "network-only"; sampleTeardown 9]
                        newExchange)] false
     = [Reexecute KQuery (sampleQuery 7 "cache-first") None].
Proof. vm_compute. split; reflexivity. Qed.

Example page_shown_again_restarts_the_timer :
  calls (runPage None [VisibilityChange "hidden" None; IntervalFires 1;
                       VisibilityChange "visible" None; IntervalFires 2])
  = [EvClearInterval None; EvSetInterval 1; EvClearInterval (Some 1);
     EvClearInterval (Some 1); EvSetInterval 2; EvRefetchAll true; EvRefetchAll false].
Proof. vm_compute. reflexivity. Qed.

End UrqlFacts.

(** * Properties of the contact method form *)

Module ContactFormFacts.

Import contactform.

Lemma renderTypeField_label type edit :
  label (renderTypeField type edit)
  = if String.eqb type "SMS" || String.eqb type "VOICE" then "Phone Number"
    else if String.eqb type "EMAIL" then "Email Address"
    else if String.eqb type "WEBHOOK" then "Webhook URL"
    else "Value".
Proof.
  unfold renderTypeField.
  destruct (String.eqb type "SMS" || String.eqb type "VOICE"); [reflexivity|].
  destruct (String.eqb type "EMAIL"); [reflexivity|].
  destruct (String.eqb type "WEBHOOK"); reflexivity.
Qed.

(** X23. Changing the type to one that renders another input empties the
    value; the name and the type chosen are never touched. *)
Theorem other_input_gets_empty_value old new edit :
  name (mapOnChangeValue old new) = name new
  /\ type_ (mapOnChangeValue old new) = type_ new
  /\ (renderTypeField (type_ new) edit <> renderTypeField (type_ old) edit ->
      value (mapOnChangeValue old new) = "").
Proof.
  unfold mapOnChangeValue, isPhoneType.
  destruct (String.eqb_spec (type_ old) (type_ new)) as [Heq|Hne].
  - rewrite orb_true_r. repeat split. intros H. rewrite Heq in H. contradiction.
  - rewrite orb_false_r.
    destruct (String.eqb (type_ old) "SMS" || String.eqb (type_ old) "VOICE") eqn:Ho;
      destruct (String.eqb (type_ new) "SMS" || String.eqb (type_ new) "VOICE") eqn:Hn;
      simpl; repeat split.
    intros H. exfalso. apply H. unfold renderTypeField. rewrite Ho, Hn. reflexivity.
Qed.

(** X24. Between two types of the menu, the same input means the value
    is kept as typed. *)
Theorem menu_types_keep_value_for_same_input old new edit :
  In (type_ old) menuTypes ->
  In (type_ new) menuTypes ->
  renderTypeField (type_ new) edit = renderTypeField (type_ old) edit ->
  mapOnChangeValue old new = new.
Proof.
  unfold menuTypes. simpl.
  intros [Ho|[Ho|[Ho|[Ho|[]]]]] [Hn|[Hn|[Hn|[Hn|[]]]]];
    unfold mapOnChangeValue, isPhoneType; rewrite <- Ho, <- Hn; simpl;
    intros H; try reflexivity;
    apply (f_equal label) in H; simpl in H; discriminate.
Qed.

Lemma menu_types_witness :
  mapOnChangeValue {| name := "work"; type_ := "SMS"; value := "+15555550123" |}
                   {| name := "work"; type_ := "VOICE"; value := "+15555550123" |}
  = {| name := "work"; type_ := "VOICE"; value := "+15555550123" |}.
Proof.
  apply (menu_types_keep_value_for_same_input
           {| name := "work"; type_ := "SMS"; value := "+15555550123" |}
           {| name := "work"; type_ := "VOICE"; value := "+15555550123" |} false);
    simpl; auto.
Defined.

End ContactFormFacts.

(** * Properties of the fixed-schedule dialog *)

Module FixedScheduleFacts.

Import fixedschedule.

Lemma effect_range errs step : 0 <= step <= 2 -> 0 <= effect errs step <= 2.
Proof.
  intros H. unfold effect.
  destruct (stepOneErrs errs); [lia|]. destruct (stepTwoErrs errs); lia.
Qed.

Lemma act_create_range step a : 0 <= step <= 2 -> 0 <= act false step a <= 2.
Proof.
  intros H. destruct a; simpl.
  - unfold onNext. destruct (Z.eqb_spec step 2); lia.
  - unfold onBack. destruct (Z.eqb_spec step 0); lia.
  - apply effect_range, H.
Qed.

Lemma act_edit_range step a :
  noStepOneErrs a = true -> 1 <= step <= 2 -> 1 <= act true step a <= 2.
Proof.
  intros Ha H. destruct a; simpl in *.
  - unfold onNext. destruct (Z.eqb_spec step 2); lia.
  - unfold onBack. destruct (Z.eqb_spec step 1); lia.
  - unfold effect. apply negb_true_iff in Ha. rewrite Ha.
    destruct (stepTwoErrs fieldErrs); lia.
Qed.

(** X25. A new fixed schedule: whatever is pressed and whatever errors come
    back, the dialog stays on one of its three steps. *)
Theorem create_dialog_stays_on_its_steps actions :
  0 <= run false actions <= 2.
Proof.
  unfold run. assert (H : 0 <= initialStep false <= 2) by (simpl; lia).
  revert H. generalize (initialStep false) as step.
  induction actions as [|a actions IH]; intros step H; simpl; [exact H|].
  apply IH, act_create_range, H.
Qed.

(** X26. Editing a fixed schedule: as long as no error is reported on the
    start or the end, the dialog stays on steps 1 and 2, away from the
    step that sets the times. *)
Theorem edit_dialog_stays_off_step_zero actions :
  forallb noStepOneErrs actions = true ->
  1 <= run true actions <= 2.
Proof.
  unfold run. assert (H : 1 <= initialStep true <= 2) by (simpl; lia).
  revert H. generalize (initialStep true) as step.
  induction actions as [|a actions IH]; intros step H Hall; simpl; [exact H|].
  simpl in Hall. apply andb_prop in Hall. destruct Hall as [Ha Hrest].
  apply IH; [|exact Hrest]. apply act_edit_range; assumption.
Qed.

Lemma edit_dialog_witness :
  1 <= run true [Back; Next; Next; Errors [{| field := "summary"; message := "too long" |}]; Back]
    <= 2.
Proof.
  apply (edit_dialog_stays_off_step_zero
           [Back; Next; Next; Errors [{| field := "summary"; message := "too long" |}]; Back]).
  reflexivity.
Defined.




End FixedScheduleFacts.

(** * Properties of the build script *)

Module BuildFacts.

Import esbuildcfg.

(** X28. The module the plugin generates for an image imports that image
    again; this second import is not prefixed again but resolved as a
    file, so the prefixing happens exactly once. *)
Theorem generated_import_resolves_as_file path_resolve JSON_stringify args dir :
  let first := onResolve path_resolve args in
  let generated := onLoad JSON_stringify (resolvedPath first) in
  let second :=
    onResolve path_resolve
      {| path := resolvedPath first; resolveDir := dir; kind := "import-statement";
         pluginData := Some (loadPluginData generated) |} in
  namespace second = "file"
  /\ (namespace first = "prefix-path"
      <-> kind args = "import-statement" /\ pluginData args <> Some "dynamic").
Proof.
  cbv zeta. unfold onResolve, onLoad. simpl. split; [reflexivity|].
  destruct (String.eqb_spec (kind args) "import-statement") as [Hk|Hk]; simpl.
  - destruct (pluginData args) as [d|]; simpl.
    + destruct (String.eqb_spec d "dynamic") as [->|Hd]; simpl.
      * split; [discriminate | intros [_ H]; contradiction].
      * split; [intros _; split; [exact Hk | congruence] | reflexivity].
    + split; [intros _; split; [exact Hk | discriminate] | reflexivity].
  - split; [discriminate | intros [H _]; contradiction].
Qed.

(** X29. A build that is not minified is a watch build: without [--watch],
    or with [--prod], the bundle is a minified production bundle. *)
Theorem unminified_build_is_a_watch_build argv :
  (minify (buildOptions argv) = false
   <-> includes argv "--watch" = true /\ includes argv "--prod" = false)
  /\ (minify (buildOptions argv) = false -> watch (buildOptions argv) = true)
  /\ (NODE_ENV (buildOptions argv) = concat [dq; "production"; dq]
      <-> minify (buildOptions argv) = true).
Proof.
  unfold buildOptions, isProdBuild. simpl.
  destruct (includes argv "--prod"), (includes argv "--watch"); simpl;
    repeat split; intros; try tauto; try discriminate;
    try (destruct H; discriminate).
Qed.

End BuildFacts.
